(** * dcos-e2e: a shallow embedding of the CLI and vendored helpers

    The development follows the Python sources file by file.  Each module
    below embeds one source file; the theorems about them come afterwards.

    Conventions.
    - A Python [str] is a [string]; a [bytes] value is a [list byte].
    - A Python [dict] with string keys is a [gmap string _]; a [set] of
      strings is a [gset string].
    - A call that may raise returns a [PyResult]: either [Returns v] or
      [Raises e].
    - Calls into the outside world (the container engine, the hypervisor,
      the file system) and into helper modules are commands of a small free
      monad [Prog]; a handler gives them meaning in an explicit world. *)

From Stdlib Require Import ZArith List Ascii String Strings.Byte DecimalString DecimalZ.
From stdpp Require Import base tactics option list strings pretty gmap.

Local Open Scope string_scope.
Local Open Scope Z_scope.
Local Open Scope list_scope.

(** ** Python results *)

Inductive PyResult (E A : Type) : Type :=
  | Returns (a : A)
  | Raises (e : E).
Arguments Returns {E A} a.
Arguments Raises {E A} e.

(** ** Programs that call into the outside world

    A command [c] of the program is answered with a value of type
    [Reply c], or it raises.  A program is a tree of such calls. *)

Section Prog.
Context {Cmd : Type} {Reply : Cmd → Type} {Exn : Type}.

Inductive Prog (A : Type) : Type :=
  | Ret (a : A)
  | Throw (e : Exn)
  | Call (c : Cmd) (k : Reply c → Prog A).
Arguments Ret {A} a.
Arguments Throw {A} e.
Arguments Call {A} c k.

Fixpoint bind {A B} (p : Prog A) (f : A → Prog B) : Prog B :=
  match p with
  | Ret a => f a
  | Throw e => Throw e
  | Call c k => Call c (λ r, bind (k r) f)
  end.

(** One external call; its answer is the result. *)
Definition perform (c : Cmd) : Prog (Reply c) := Call c Ret.

(** [for x in xs: body(x)] *)
Fixpoint for_each {X} (xs : list X) (body : X → Prog unit) : Prog unit :=
  match xs with
  | [] => Ret tt
  | x :: xs' => bind (body x) (λ _, for_each xs' body)
  end.

(** What was observed of one call: its answer, or the exception. *)
Inductive Event : Type :=
  | Answered (c : Cmd) (r : Reply c)
  | Raised (c : Cmd) (e : Exn).

Definition event_cmd (ev : Event) : Cmd :=
  match ev with Answered c _ => c | Raised c _ => c end.

(** The outside world: a state [W] and the meaning of each command in
    it. *)
Definition Handler (W : Type) : Type :=
  W → ∀ c : Cmd, PyResult Exn (Reply c) * W.

(** Running a program to its end.  The program stops at the first
    exception; the calls made so far are recorded in order. *)
Fixpoint execute {W A} (h : Handler W) (p : Prog A) (w : W)
  : PyResult Exn A * W * list Event :=
  match p with
  | Ret a => (Returns a, w, [])
  | Throw e => (Raises e, w, [])
  | Call c k =>
      match h w c with
      | (Returns r, w') =>
          let '(res, w'', t) := execute h (k r) w' in
          (res, w'', Answered c r :: t)
      | (Raises e, w') => (Raises e, w', [Raised c e])
      end
  end.

(** One step of a program, for runs of several programs against the same
    world. *)
Definition step {W A} (h : Handler W) (p : Prog A) (w : W)
  : Prog A * W * option Event :=
  match p with
  | Call c k =>
      match h w c with
      | (Returns r, w') => (k r, w', Some (Answered c r))
      | (Raises e, w') => (Throw e, w', Some (Raised c e))
      end
  | _ => (p, w, None)
  end.

(** Two programs sharing one world; the schedule says whose turn it is
    ([true]: the first program).  The result is what is left of each
    program, the world, and the calls each of them made. *)
Fixpoint interleave {W A} (h : Handler W) (schedule : list bool)
    (p q : Prog A) (w : W) (tp tq : list Event)
  : Prog A * Prog A * W * list Event * list Event :=
  match schedule with
  | [] => (p, q, w, tp, tq)
  | true :: s =>
      let '(p', w', ev) := step h p w in
      interleave h s p' q w' (tp ++ option_list ev) tq
  | false :: s =>
      let '(q', w', ev) := step h q w in
      interleave h s p q' w' tp (tq ++ option_list ev)
  end.

(** The traces a program can leave whatever the outside world answers. *)
Fixpoint emits {A} (p : Prog A) (t : list Event) (res : PyResult Exn A)
  : Prop :=
  match p with
  | Ret a => t = [] ∧ res = Returns a
  | Throw e => t = [] ∧ res = Raises e
  | Call c k =>
      (∃ e, t = [Raised c e] ∧ res = Raises e)
      ∨ (∃ r t', t = Answered c r :: t' ∧ emits (k r) t' res)
  end.
End Prog.

Arguments Prog Cmd Reply Exn A : clear implicits.
Arguments Event Cmd Reply Exn : clear implicits.
Arguments Handler Cmd Reply Exn W : clear implicits.
Arguments Ret {Cmd Reply Exn A} a.
Arguments Throw {Cmd Reply Exn A} e.
Arguments Call {Cmd Reply Exn A} c k.
Arguments Answered {Cmd Reply Exn} c r.
Arguments Raised {Cmd Reply Exn} c e.

(** ** Python [str] helpers used by the sources *)

Module PyStr.

(** [str.lower] on one character.  Only the ASCII letters are mapped; a
    byte above 127 belongs to the UTF-8 encoding of a non-ASCII character
    and is left alone.  No non-ASCII character lower-cases to one of the
    letters of ['true'], so comparisons of a lowered string with that
    literal agree with Python's. *)
Definition lower_ascii (c : ascii) : ascii :=
  let n := nat_of_ascii c in
  if ((65 <=? n)%nat && (n <=? 90)%nat)%bool
  then ascii_of_nat (n + 32) else c.

Fixpoint lower (s : string) : string :=
  match s with
  | EmptyString => EmptyString
  | String c s' => String (lower_ascii c) (lower s')
  end.

(** [s.startswith(p)] *)
Fixpoint startswith (s p : string) {struct p} : bool :=
  match p, s with
  | EmptyString, _ => true
  | String _ _, EmptyString => false
  | String a p', String b s' => bool_decide (a = b) && startswith s' p'
  end.

(** The decimal rendering of a non-negative [int], as [str(n)] and
    [str.format] produce it. *)
Definition of_nat (n : nat) : string := pretty (N.of_nat n).

End PyStr.

(** ** src/dcos_e2e_cli/_vendor/dcos_test_utils/etcd.py *)

Module Etcd.

Definition ETCDCTL_PATH : string := "/opt/mesosphere/bin/etcdctl".
Definition ETCD_ENDPOINTS : string := "127.0.0.1:2379".
Definition CA_CERT : string := "/run/dcos/pki/CA/ca-bundle.crt".

(** [os.environ] *)
Abbreviation Environ := (gmap string string).

(** [os.getenv(key, default)] *)
Definition getenv (environ : Environ) (key dflt : string) : string :=
  default dflt (environ !! key).

Definition is_enterprise (environ : Environ) : bool :=
  bool_decide (PyStr.lower (getenv environ "DCOS_ENTERPRISE" "false") = "true").

(** Python lists are mutable objects.  The store maps the address of a
    list object to its current elements; an attribute holding a list holds
    its address. *)
Abbreviation Store := (gmap nat (list string)).

Definition alloc (h : Store) (l : list string) : Store * nat :=
  let a := fresh (dom h) in (<[a := l]> h, a).

Definition deref (h : Store) (a : nat) : list string := default [] (h !! a).

(** The instance state of [EtcdCtl]: the address of the list bound to
    [self._base_args]. *)
Record EtcdCtl : Type := { _base_args : nat }.

Definition _get_base_args (environ : Environ) (cert_type : string)
  : list string :=
  let args := ["sudo"; ETCDCTL_PATH] in
  if is_enterprise environ then
    let args := args ++ ["--endpoints=https://" +:+ ETCD_ENDPOINTS] in
    args ++
      [ "--cert=/run/dcos/pki/tls/certs/etcd-client-" +:+ cert_type +:+ ".crt";
        "--key=/run/dcos/pki/tls/private/etcd-client-" +:+ cert_type +:+ ".key";
        "--cacert=" +:+ CA_CERT ]
  else
    args ++ ["--endpoints=http://" +:+ ETCD_ENDPOINTS].

Definition __init__ (environ : Environ) (cert_type : string) (h : Store)
  : Store * EtcdCtl :=
  let '(h', a) := alloc h (_get_base_args environ cert_type) in
  (h', {| _base_args := a |}).

(** *** [subprocess.run] as the wrapper uses it

    What the operating system does with an argument vector and an
    environment: either the process cannot be started, or it runs to
    completion with an exit status and two captured streams. *)
Record Exited : Type :=
  { exit_status : Z; captured_out : list byte; captured_err : list byte }.

Definition OS : Type := list string → Environ → string + Exited.

Record CompletedProcess : Type :=
  { args : list string; returncode : Z;
    stdout : list byte; stderr : list byte }.

Inductive SubprocessError : Type :=
  | OSError (msg : string)
  | CalledProcessError (returncode : Z) (cmd : list string)
                       (output : list byte) (stderr : list byte).

(** [subprocess.run(argv, stdout=PIPE, stderr=PIPE, env=env, check=check)] *)
Definition subprocess_run (os : OS) (argv : list string) (env : Environ)
    (check : bool) : PyResult SubprocessError CompletedProcess :=
  match os argv env with
  | inl msg => Raises (OSError msg)
  | inr p =>
      if check && negb (exit_status p =? 0) then
        Raises (CalledProcessError (exit_status p) argv
                  (captured_out p) (captured_err p))
      else
        Returns {| args := argv; returncode := exit_status p;
                   stdout := captured_out p; stderr := captured_err p |}
  end.

(** [l.copy()]: a fresh list object with the elements of [l]. *)
Definition copy (h : Store) (a : nat) : Store * nat := alloc h (deref h a).

(** [l + cmd]: a fresh list object; neither operand is modified. *)
Definition list_add (h : Store) (a : nat) (cmd : list string) : Store * nat :=
  alloc h (deref h a ++ cmd).

(** The default values of the keyword parameters of [__init__] and
    [run]. *)
Definition default_cert_type : string := "root".
Definition default_check : bool := true.
Definition default_env : Environ := ∅.

(** The evaluation of [self._base_args.copy() + cmd]: the store afterwards
    and the argument vector handed to [subprocess.run]. *)
Definition run_argv (self : EtcdCtl) (cmd : list string) (h : Store)
  : Store * list string :=
  let '(h1, a1) := copy h (_base_args self) in
  let '(h2, a2) := list_add h1 a1 cmd in
  (h2, deref h2 a2).

(** [EtcdCtl.run]: the outcome of the call and the store after it. *)
Definition run (self : EtcdCtl) (os : OS) (cmd : list string)
    (check : bool) (env : Environ) (h : Store)
  : PyResult SubprocessError CompletedProcess * Store :=
  let '(h', argv) := run_argv self cmd h in
  (subprocess_run os argv env check, h').

End Etcd.

(** ** src/dcos_e2e/_vendor/vertigo_py/error.py

    The methods of the error classes are kept as syntax and run by a small
    evaluator, because what [RegistrationError.__str__] does depends on how
    Python resolves the names in a function body. *)

Module VertigoError.

#[warnings="-register-all"]
Inductive Value : Type :=
  | VNone
  | VInt (n : Z)
  | VStr (s : string)
  | VObj (cls : string) (attrs : gmap string Value)
  | VClass (name : string)
  | VBuiltin (name : string).

Inductive Exn : Type :=
  | NameError (name : string)
  | UnboundLocalError (name : string)
  | AttributeError (attr : string)
  | TypeError.

(** Expressions and statements, as far as this file uses them.  An
    f-string is the list of its literal parts ([inl]) and replacement
    fields ([inr]). *)
#[warnings="-register-all"]
Inductive Expr : Type :=
  | EStr (s : string)
  | EName (x : string)
  | EAttr (e : Expr) (attr : string)
  | EAdd (e1 e2 : Expr)
  | EFString (parts : list (string + Expr))
  | EStrCall (e : Expr).

Inductive Stmt : Type :=
  | SAssign (x : string) (e : Expr)
  | SSetAttr (obj attr : string) (e : Expr)
  | SReturn (e : Expr).

Record Function : Type := { params : list string; body : list Stmt }.

Definition nl : string := String (ascii_of_nat 10) "".

(** The names a function body binds: Python decides at compile time that
    exactly the parameters and the assigned names are local. *)
Fixpoint assigned (b : list Stmt) : list string :=
  match b with
  | [] => []
  | SAssign x _ :: b' => x :: assigned b'
  | _ :: b' => assigned b'
  end.

Definition local_names (f : Function) : list string :=
  params f ++ assigned (body f).

(** The names bound at module level in error.py: its six classes, and the
    attributes every module has. *)
Definition module_globals : gmap string Value :=
  list_to_map
    [ ("CommandError", VClass "CommandError");
      ("UnknownOptionError", VClass "UnknownOptionError");
      ("UnknownVMError", VClass "UnknownVMError");
      ("RegistrationError", VClass "RegistrationError");
      ("CloseMediumError", VClass "CloseMediumError");
      ("NoMediumError", VClass "NoMediumError");
      ("__name__", VStr "dcos_e2e._vendor.vertigo_py.error");
      ("__doc__", VNone); ("__package__", VStr "dcos_e2e._vendor.vertigo_py");
      ("__file__", VStr "error.py"); ("__builtins__", VNone);
      ("__spec__", VNone); ("__loader__", VNone); ("__cached__", VNone) ].

(** The names of Python 3's [builtins] module. *)
Definition builtin_names : list string :=
  [ "abs"; "aiter"; "all"; "anext"; "any"; "ascii"; "bin"; "bool";
    "breakpoint"; "bytearray"; "bytes"; "callable"; "chr"; "classmethod";
    "compile"; "complex"; "copyright"; "credits"; "delattr"; "dict"; "dir";
    "divmod"; "enumerate"; "eval"; "exec"; "exit"; "filter"; "float";
    "format"; "frozenset"; "getattr"; "globals"; "hasattr"; "hash"; "help";
    "hex"; "id"; "input"; "int"; "isinstance"; "issubclass"; "iter"; "len";
    "license"; "list"; "locals"; "map"; "max"; "memoryview"; "min"; "next";
    "object"; "oct"; "open"; "ord"; "pow"; "print"; "property"; "quit";
    "range"; "repr"; "reversed"; "round"; "set"; "setattr"; "slice";
    "sorted"; "staticmethod"; "str"; "sum"; "super"; "tuple"; "type";
    "vars"; "zip"; "__import__"; "__build_class__"; "__debug__"; "__doc__";
    "__loader__"; "__name__"; "__package__"; "__spec__";
    "None"; "True"; "False"; "Ellipsis"; "NotImplemented";
    "BaseException"; "BaseExceptionGroup"; "Exception"; "ExceptionGroup";
    "ArithmeticError"; "AssertionError"; "AttributeError";
    "BlockingIOError"; "BrokenPipeError"; "BufferError"; "BytesWarning";
    "ChildProcessError"; "ConnectionAbortedError"; "ConnectionError";
    "ConnectionRefusedError"; "ConnectionResetError"; "DeprecationWarning";
    "EOFError"; "EncodingWarning"; "EnvironmentError"; "FileExistsError";
    "FileNotFoundError"; "FloatingPointError"; "FutureWarning";
    "GeneratorExit"; "IOError"; "ImportError"; "ImportWarning";
    "IndentationError"; "IndexError"; "InterruptedError";
    "IsADirectoryError"; "KeyError"; "KeyboardInterrupt"; "LookupError";
    "MemoryError"; "ModuleNotFoundError"; "NameError";
    "NotADirectoryError"; "NotImplementedError"; "OSError";
    "OverflowError"; "PendingDeprecationWarning"; "PermissionError";
    "ProcessLookupError"; "PythonFinalizationError"; "RecursionError";
    "ReferenceError"; "ResourceWarning"; "RuntimeError"; "RuntimeWarning";
    "StopAsyncIteration"; "StopIteration"; "SyntaxError"; "SyntaxWarning";
    "SystemError"; "SystemExit"; "TabError"; "TimeoutError"; "TypeError";
    "UnboundLocalError"; "UnicodeDecodeError"; "UnicodeEncodeError";
    "UnicodeError"; "UnicodeTranslateError"; "UnicodeWarning";
    "UserWarning"; "ValueError"; "Warning"; "ZeroDivisionError" ].

Definition builtins : gmap string Value :=
  list_to_map ((λ x, (x, VBuiltin x)) <$> builtin_names).

(** Loading a name inside function [f]: a local name is read from the
    frame; any other name is looked up in the module's globals and then in
    the builtins. *)
Definition load_name (f : Function) (frame : gmap string Value) (x : string)
  : PyResult Exn Value :=
  if bool_decide (x ∈ local_names f) then
    match frame !! x with
    | Some v => Returns v
    | None => Raises (UnboundLocalError x)
    end
  else
    match module_globals !! x with
    | Some v => Returns v
    | None =>
        match builtins !! x with
        | Some v => Returns v
        | None => Raises (NameError x)
        end
    end.

(** [str(v)] and the conversion of a replacement field.  The text is the
    one of the language for [None], the integers and the strings.  For an
    instance Python calls the [__str__] of its class, which may raise or
    give any text: here an instance stands as its class name, and a
    statement that depends on a rendered text keeps to the values above. *)
Definition str_builtin (v : Value) : string :=
  match v with
  | VNone => "None"
  | VInt n => pretty n
  | VStr s => s
  | VObj cls _ => "<" +:+ cls +:+ " object>"
  | VClass c => "<class '" +:+ c +:+ "'>"
  | VBuiltin b => "<built-in " +:+ b +:+ ">"
  end.

Definition getattr (v : Value) (attr : string) : PyResult Exn Value :=
  match v with
  | VObj _ attrs =>
      match attrs !! attr with
      | Some a => Returns a
      | None => Raises (AttributeError attr)
      end
  | _ => Raises (AttributeError attr)
  end.

Definition add (v1 v2 : Value) : PyResult Exn Value :=
  match v1, v2 with
  | VStr a, VStr b => Returns (VStr (a +:+ b))
  | VInt a, VInt b => Returns (VInt (a + b))
  | _, _ => Raises TypeError
  end.

Section eval.
Context (f : Function) (frame : gmap string Value).

Fixpoint eval (e : Expr) : PyResult Exn Value :=
  match e with
  | EStr s => Returns (VStr s)
  | EName x => load_name f frame x
  | EAttr e' attr =>
      match eval e' with
      | Returns v => getattr v attr
      | Raises x => Raises x
      end
  | EAdd e1 e2 =>
      match eval e1 with
      | Returns v1 =>
          match eval e2 with
          | Returns v2 => add v1 v2
          | Raises x => Raises x
          end
      | Raises x => Raises x
      end
  | EFString parts =>
      (fix go (ps : list (string + Expr)) (acc : string) :=
         match ps with
         | [] => Returns (VStr acc)
         | inl s :: ps' => go ps' (acc +:+ s)
         | inr e' :: ps' =>
             match eval e' with
             | Returns v => go ps' (acc +:+ str_builtin v)
             | Raises x => Raises x
             end
         end) parts ""
  | EStrCall e' =>
      match eval e' with
      | Returns v => Returns (VStr (str_builtin v))
      | Raises x => Raises x
      end
  end.
End eval.

(** Running a function body: the returned value ([None] when the body
    falls off its end) and the frame at that point. *)
Fixpoint exec (f : Function) (b : list Stmt) (frame : gmap string Value)
  : PyResult Exn (Value * gmap string Value) :=
  match b with
  | [] => Returns (VNone, frame)
  | SAssign x e :: b' =>
      match eval f frame e with
      | Returns v => exec f b' (<[x := v]> frame)
      | Raises x => Raises x
      end
  | SSetAttr obj attr e :: b' =>
      match eval f frame e with
      | Returns v =>
          match load_name f frame obj with
          | Returns (VObj cls attrs) =>
              exec f b' (<[obj := VObj cls (<[attr := v]> attrs)]> frame)
          | Returns _ => Raises (AttributeError attr)
          | Raises x => Raises x
          end
      | Raises x => Raises x
      end
  | SReturn e :: _ =>
      match eval f frame e with
      | Returns v => Returns (v, frame)
      | Raises x => Raises x
      end
  end.

Definition call (f : Function) (actuals : list Value)
  : PyResult Exn (Value * gmap string Value) :=
  exec f (body f) (list_to_map (zip (params f) actuals)).

(** [cls(actuals)]: a new instance, initialised by the class's
    [__init__], whose first parameter is bound to it. *)
Definition construct (cls : string) (init : Function) (actuals : list Value)
  : PyResult Exn Value :=
  match call init (VObj cls ∅ :: actuals) with
  | Returns (_, frame) =>
      match head (params init) ≫= (frame !!.) with
      | Some self => Returns self
      | None => Raises TypeError
      end
  | Raises x => Raises x
  end.

(** [str(self)] for an instance whose class defines [__str__] as [f];
    Python insists that the method returns a [str]. *)
Definition str_of (f : Function) (self : Value) : PyResult Exn string :=
  match call f [self] with
  | Returns (VStr s, _) => Returns s
  | Returns _ => Raises TypeError
  | Raises x => Raises x
  end.

Module UnknownVMError.
Definition __init__ : Function :=
  {| params := ["self"; "name"; "uuid"];
     body :=
       [ SSetAttr "self" "name" (EStrCall (EName "name"));
         SSetAttr "self" "uuid" (EStrCall (EName "uuid")) ] |}.

Definition __str__ : Function :=
  {| params := ["self"];
     body :=
       [ SReturn (EFString
           [ inl "No VM found for name ";
             inr (EAttr (EName "self") "name");
             inl " and UUID ";
             inr (EAttr (EName "self") "uuid") ]) ] |}.

Definition new (name uuid : Value) : PyResult Exn Value :=
  construct "UnknownVMError" __init__ [name; uuid].
End UnknownVMError.

Module RegistrationError.
Definition __init__ : Function :=
  {| params := ["self"; "filename"; "error"];
     body :=
       [ SSetAttr "self" "filename" (EName "filename");
         SSetAttr "self" "code"
           (EStrCall (EAttr (EName "error") "returncode"));
         SSetAttr "self" "msg" (EAttr (EName "error") "output") ] |}.

Definition __str__ : Function :=
  {| params := ["self"];
     body :=
       [ SAssign "filerr"
           (EAdd (EFString [ inl "Unable to register VM from file ";
                             inr (EName "filename") ])
                 (EStr nl));
         SAssign "errmsg"
           (EAdd (EStr ("Returned message was:" +:+ nl))
                 (EAttr (EName "self") "msg"));
         SReturn (EAdd (EName "filerr") (EName "errmsg")) ] |}.

Definition new (filename error : Value) : PyResult Exn Value :=
  construct "RegistrationError" __init__ [filename; error].
End RegistrationError.

End VertigoError.

(** ** admin/prepare_release.py *)

Module PrepareRelease.

(** The fields of a [datetime.datetime] that [get_version] reads. *)
Record datetime : Type := { year : nat; month : nat; day : nat }.

(** A decimal field padded with zeros on the left to [width] digits. *)
Fixpoint zeros (n : nat) : string :=
  match n with O => "" | S n' => String "0" (zeros n') end.

Definition zfill (width : nat) (s : string) : string :=
  zeros (width - String.length s) +:+ s.

(** [d.strftime(fmt)] for the directives [%Y], [%m] and [%d]; any other
    character is copied.  The year is four digits wide for every year from
    1000 on, which covers every value the clock returns. *)
Fixpoint strftime (d : datetime) (fmt : string) : string :=
  match fmt with
  | EmptyString => EmptyString
  | String "%" (String "Y" fmt') =>
      zfill 4 (PyStr.of_nat (year d)) +:+ strftime d fmt'
  | String "%" (String "m" fmt') =>
      zfill 2 (PyStr.of_nat (month d)) +:+ strftime d fmt'
  | String "%" (String "d" fmt') =>
      zfill 2 (PyStr.of_nat (day d)) +:+ strftime d fmt'
  | String c fmt' => String c (strftime d fmt')
  end.

(** *** [bytes.decode()]

    The default codec is UTF-8 with strict error handling.  A decoded
    [str] is kept as its UTF-8 bytes; the decoder accepts exactly the
    well-formed sequences of the Unicode standard (table 3-7). *)
Definition between (lo b hi : N) : bool := ((lo <=? b) && (b <=? hi))%N.
Definition continuation (b : N) : bool := between 0x80 b 0xBF.

Fixpoint utf8_well_formed (bs : list N) : bool :=
  match bs with
  | [] => true
  | b0 :: r0 =>
      if (b0 <=? 0x7F)%N then utf8_well_formed r0 else
      match r0 with
      | [] => false
      | b1 :: r1 =>
          if between 0xC2 b0 0xDF then continuation b1 && utf8_well_formed r1 else
          match r1 with
          | [] => false
          | b2 :: r2 =>
              if between 0xE0 b0 0xEF then
                (if (b0 =? 0xE0)%N then between 0xA0 b1 0xBF
                 else if (b0 =? 0xED)%N then between 0x80 b1 0x9F
                 else continuation b1)
                && continuation b2 && utf8_well_formed r2
              else
              match r2 with
              | [] => false
              | b3 :: r3 =>
                  between 0xF0 b0 0xF4
                  && (if (b0 =? 0xF0)%N then between 0x90 b1 0xBF
                      else if (b0 =? 0xF4)%N then between 0x80 b1 0x8F
                      else continuation b1)
                  && continuation b2 && continuation b3
                  && utf8_well_formed r3
              end
          end
      end
  end.

Inductive Exn : Type := UnicodeDecodeError (item : list byte).

Definition decode (item : list byte) : PyResult Exn string :=
  if utf8_well_formed (Byte.to_N <$> item)
  then Returns (string_of_list_byte item)
  else Raises (UnicodeDecodeError item).

(** [[item.decode() for item in tag_labels]] *)
Fixpoint decode_all (items : list (list byte)) : PyResult Exn (list string) :=
  match items with
  | [] => Returns []
  | item :: items' =>
      match decode item with
      | Raises e => Raises e
      | Returns label =>
          match decode_all items' with
          | Raises e => Raises e
          | Returns labels => Returns (label :: labels)
          end
      end
  end.

Definition date_format : string := "%Y.%m.%d".

(** [get_version], given what [datetime.datetime.utcnow()] and
    [tag_list(Repo('.'))] return. *)
Definition get_version (utc_now : datetime) (tag_list : list (list byte))
  : PyResult Exn string :=
  let date_str := strftime utc_now date_format in
  match decode_all tag_list with
  | Raises e => Raises e
  | Returns tag_labels =>
      let today_tag_labels :=
        List.filter (λ item, PyStr.startswith item date_str) tag_labels in
      let micro := length today_tag_labels in
      Returns (date_str +:+ "." +:+ PyStr.of_nat micro)
  end.

End PrepareRelease.

(** ** The parts of [click] the option decorators rely on *)

Module Click.

Inductive Exn : Type := BadParameter (message : string).

(** [click.INT] converts with [int(value)].  Modelled here: an optional
    sign followed by ASCII decimal digits.  [int] also accepts surrounding
    white space, underscores between digits and non-ASCII digits; such
    spellings are refused by this definition, so whatever it accepts is
    accepted by [click.INT] with the same value. *)
Definition INT (value : string) : PyResult Exn Z :=
  let parsed :=
    match value with
    | String "+" digits => Z.of_uint <$> NilZero.uint_of_string digits
    | _ => Z.of_int <$> NilZero.int_of_string value
    end in
  match parsed with
  | Some n => Returns n
  | None => Raises (BadParameter (value +:+ " is not a valid integer"))
  end.

(** An option declared with [click.option(name, type=click.INT,
    default=..., show_default=..., help=...)]. *)
Record IntOption : Type :=
  { param_decl : string; default : Z; show_default : bool; help : string }.

(** The value the decorated command receives for the option: the default
    when the option is not given on the command line, otherwise the
    converted text. *)
Definition consume (o : IntOption) (given : option string) : PyResult Exn Z :=
  match given with
  | None => Returns (default o)
  | Some value => INT value
  end.

End Click.

(** ** src/dcos_e2e_cli/common/options/cluster_size.py *)

Module ClusterSize.

Definition masters_option : Click.IntOption :=
  {| Click.param_decl := "--masters";
     Click.default := 1;
     Click.show_default := true;
     Click.help := "The number of master nodes." |}.

Definition agents_option : Click.IntOption :=
  {| Click.param_decl := "--agents";
     Click.default := 1;
     Click.show_default := true;
     Click.help := "The number of agent nodes." |}.

Definition public_agents_option : Click.IntOption :=
  {| Click.param_decl := "--public-agents";
     Click.default := 1;
     Click.show_default := true;
     Click.help := "The number of public agent nodes." |}.

End ClusterSize.

(** ** src/dcos_e2e_cli/dcos_docker/commands/create.py *)

Module DockerCreate.

Inductive Transport : Type := SSH | DOCKER_EXEC.
Inductive Role : Type := Master | Agent | PublicAgent.

#[global] Instance Transport_eq_dec : EqDecision Transport.
Proof. solve_decision. Defined.
#[global] Instance Role_eq_dec : EqDecision Role.
Proof. solve_decision. Defined.

(** Values that [create] only passes on: paths, mounts, the network, the
    Docker version, the Linux distribution, configuration blobs. *)
Abbreviation Path := string.
Abbreviation Opaque := string.

(** [path / name] and [str(path)] of [pathlib]. *)
Definition joinpath (path : Path) (name : string) : Path :=
  path +:+ "/" +:+ name.
Definition str_path (path : Path) : string := path.

(** The names imported from [._common] and the attributes of a default
    [Docker()] backend.  Their values are fixed elsewhere in the package;
    [create] is embedded for any values. *)
Class Common : Type :=
  { CLUSTER_ID_LABEL_KEY : string;
    NODE_TYPE_LABEL_KEY : string;
    WORKSPACE_DIR_LABEL_KEY : string;
    NODE_TYPE_MASTER_LABEL_VALUE : string;
    NODE_TYPE_AGENT_LABEL_VALUE : string;
    NODE_TYPE_PUBLIC_AGENT_LABEL_VALUE : string;
    DOCKER_STORAGE_DRIVERS : gmap string Opaque;
    default_container_name_prefix : string }.

(** The keyword arguments of the [Docker] backend constructor. *)
Module Docker.
Record t : Type :=
  { container_name_prefix : string;
    custom_container_mounts : list Opaque;
    custom_master_mounts : list Opaque;
    custom_agent_mounts : list Opaque;
    custom_public_agent_mounts : list Opaque;
    linux_distribution : Opaque;
    docker_version : Opaque;
    storage_driver : option Opaque;
    docker_container_labels : gmap string string;
    docker_master_labels : gmap string string;
    docker_agent_labels : gmap string string;
    docker_public_agent_labels : gmap string string;
    workspace_dir : Path;
    transport : Transport;
    network : Opaque;
    one_master_host_port_map : gmap string Z;
    mount_sys_fs_cgroup : bool }.

(** [cluster_backend.ip_detect_path] *)
Definition ip_detect_path (b : t) : Path :=
  joinpath (workspace_dir b) "ip-detect".
End Docker.

Record Node : Type := { node_id : string; node_role : Role }.

(** [Cluster]: its three accessors return sets of nodes; a set is kept as
    the list of its elements in the order a loop visits them. *)
Module Cluster.
Record t : Type :=
  { masters : list Node; agents : list Node; public_agents : list Node }.
End Cluster.

Module ClusterContainers.
Record t : Type := { cluster_id : string; transport : Transport }.
End ClusterContainers.

(** The parameters that [click] passes to [create]. *)
Module Args.
Record t : Type :=
  { ctx : Opaque;
    agents : Z;
    installer : Path;
    cluster_id : string;
    docker_storage_driver : option string;
    docker_version : Opaque;
    extra_config : Opaque;
    linux_distribution : Opaque;
    masters : Z;
    public_agents : Z;
    license_key : option Path;
    security_mode : option string;
    copy_to_master : list (Path * Path);
    genconf_dir : option Path;
    workspace_dir : Path;
    custom_volume : list Opaque;
    custom_master_volume : list Opaque;
    custom_agent_volume : list Opaque;
    custom_public_agent_volume : list Opaque;
    variant : string;
    transport : Transport;
    wait_for_dcos : bool;
    network : Opaque;
    one_master_host_port_map : gmap string Z;
    mount_sys_fs_cgroup : bool }.
End Args.

(** The calls [create] makes into other modules and into the outside
    world, with the arguments it passes. *)
Inductive Cmd : Type :=
  | existing_cluster_ids
  | command_path (sibling_ctx : Opaque) (command : string)
  | get_doctor_message (doctor_command_name : string)
  | mkdir (path : Path)
  | write_key_pair (public_key_path private_key_path : Path)
  | get_install_variant (given_variant : string) (installer_path : Path)
      (workspace_dir : Path) (doctor_message : string)
  | create_cluster (cluster_backend : Docker.t)
      (masters agents public_agents : Z) (doctor_message : string)
  | read_text (path : Path)
  | node_run (node : Node) (args : list string) (shell : bool)
  | node_send_file (node : Node) (local_path remote_path : Path)
  | get_config (cluster_representation : ClusterContainers.t)
      (extra_config : Opaque) (dcos_variant : Opaque)
      (security_mode : option string) (license_key : option Path)
  | install_dcos_from_path (cluster_representation : ClusterContainers.t)
      (dcos_config : Opaque) (ip_detect_path : Path)
      (doctor_message : string) (dcos_installer : Path)
      (local_genconf_dir : option Path)
  | run_post_install_steps (cluster : Cluster.t) (cluster_id : string)
      (dcos_config : Opaque) (doctor_command_name : string)
      (http_checks : bool) (wait_command_name : string)
      (wait_for_dcos : bool).

Definition Reply (c : Cmd) : Type :=
  match c with
  | existing_cluster_ids => gset string
  | command_path _ _ => string
  | get_doctor_message _ => string
  | get_install_variant _ _ _ _ => Opaque
  | create_cluster _ _ _ _ _ => Cluster.t
  | read_text _ => string
  | get_config _ _ _ _ _ => Opaque
  | _ => unit
  end.

Inductive Exn : Type :=
  | UsageError (e : Click.Exn)
  | Failed (c : Cmd).

Abbreviation M := (Prog Cmd Reply Exn).

#[global] Instance M_ret : MRet M := λ A a, Ret a.
#[global] Instance M_bind : MBind M := λ A B f p, bind p f.

#[local] Abbreviation perform := (@perform Cmd Reply Exn).
#[local] Abbreviation for_each := (@for_each Cmd Reply Exn).

(** Modelled from the spec: [check_cluster_id_unique] of
    [dcos_e2e_cli.common.utils] is not among the sources.  The uniqueness
    of a cluster id is enforced by looking the new id up in the ids
    enumerated just before; an id that is present is refused. *)
Definition check_cluster_id_unique (new_cluster_id : string)
    (existing_cluster_ids : gset string) : M unit :=
  if bool_decide (new_cluster_id ∈ existing_cluster_ids) then
    Throw (UsageError (Click.BadParameter
      ("A cluster with the id " +:+ new_cluster_id +:+ " already exists.")))
  else Ret tt.

(** [_add_authorized_key].  The nodes of the three roles are gathered in a
    set; the loop visits each of them once, here in the order masters,
    agents, public agents. *)
Definition _add_authorized_key (cluster : Cluster.t) (public_key_path : Path)
  : M unit :=
  let nodes :=
    Cluster.masters cluster ++ Cluster.agents cluster
      ++ Cluster.public_agents cluster in
  for_each nodes (λ node,
    perform (node_run node
               ["echo"; ""; ">>"; "/root/.ssh/authorized_keys"] true);;
    key ← perform (read_text public_key_path);
    perform (node_run node
               ["echo"; key; ">>"; "/root/.ssh/authorized_keys"] true)).

Section create.
Context `{Common}.

(** The backend object built by [create]. *)
Definition cluster_backend_of (a : Args.t) : Docker.t :=
  let container_name_prefix :=
    default_container_name_prefix +:+ "-" +:+ Args.cluster_id a in
  {| Docker.container_name_prefix := container_name_prefix;
     Docker.custom_container_mounts := Args.custom_volume a;
     Docker.custom_master_mounts := Args.custom_master_volume a;
     Docker.custom_agent_mounts := Args.custom_agent_volume a;
     Docker.custom_public_agent_mounts := Args.custom_public_agent_volume a;
     Docker.linux_distribution := Args.linux_distribution a;
     Docker.docker_version := Args.docker_version a;
     Docker.storage_driver :=
       Args.docker_storage_driver a ≫= (DOCKER_STORAGE_DRIVERS !!.);
     Docker.docker_container_labels :=
       <[WORKSPACE_DIR_LABEL_KEY := str_path (Args.workspace_dir a)]>
         (<[CLUSTER_ID_LABEL_KEY := Args.cluster_id a]> ∅);
     Docker.docker_master_labels :=
       {[NODE_TYPE_LABEL_KEY := NODE_TYPE_MASTER_LABEL_VALUE]};
     Docker.docker_agent_labels :=
       {[NODE_TYPE_LABEL_KEY := NODE_TYPE_AGENT_LABEL_VALUE]};
     Docker.docker_public_agent_labels :=
       {[NODE_TYPE_LABEL_KEY := NODE_TYPE_PUBLIC_AGENT_LABEL_VALUE]};
     Docker.workspace_dir := Args.workspace_dir a;
     Docker.transport := Args.transport a;
     Docker.network := Args.network a;
     Docker.one_master_host_port_map := Args.one_master_host_port_map a;
     Docker.mount_sys_fs_cgroup := Args.mount_sys_fs_cgroup a |}.

Definition create (a : Args.t) : M unit :=
  ids ← perform existing_cluster_ids;
  check_cluster_id_unique (Args.cluster_id a) ids;;
  let http_checks := bool_decide (Args.transport a = SSH) in
  wait_command_name ← perform (command_path (Args.ctx a) "wait");
  doctor_command_name ← perform (command_path (Args.ctx a) "doctor");
  doctor_message ← perform (get_doctor_message doctor_command_name);
  let ssh_keypair_dir := joinpath (Args.workspace_dir a) "ssh" in
  perform (mkdir ssh_keypair_dir);;
  let public_key_path := joinpath ssh_keypair_dir "id_rsa.pub" in
  let private_key_path := joinpath ssh_keypair_dir "id_rsa" in
  perform (write_key_pair public_key_path private_key_path);;
  dcos_variant ← perform (get_install_variant (Args.variant a)
                            (Args.installer a) (Args.workspace_dir a)
                            doctor_message);
  let cluster_backend := cluster_backend_of a in
  cluster ← perform (create_cluster cluster_backend (Args.masters a)
                       (Args.agents a) (Args.public_agents a)
                       doctor_message);
  _add_authorized_key cluster public_key_path;;
  for_each (Cluster.masters cluster) (λ node,
    for_each (Args.copy_to_master a) (λ path_pair,
      let '(local_path, remote_path) := path_pair in
      perform (node_send_file node local_path remote_path)));;
  let cluster_containers :=
    {| ClusterContainers.cluster_id := Args.cluster_id a;
       ClusterContainers.transport := Args.transport a |} in
  dcos_config ← perform (get_config cluster_containers
                           (Args.extra_config a) dcos_variant
                           (Args.security_mode a) (Args.license_key a));
  perform (install_dcos_from_path cluster_containers dcos_config
             (Docker.ip_detect_path cluster_backend) doctor_message
             (Args.installer a) (Args.genconf_dir a));;
  perform (run_post_install_steps cluster (Args.cluster_id a) dcos_config
             doctor_command_name http_checks wait_command_name
             (Args.wait_for_dcos a)).

(** The command as [click] invokes it: the three size options are
    converted by the option decorators of cluster_size.py, the remaining
    parameters are taken as given. *)
Definition create_command (given_masters given_agents
    given_public_agents : option string) (rest : Args.t) : M unit :=
  match Click.consume ClusterSize.masters_option given_masters,
        Click.consume ClusterSize.agents_option given_agents,
        Click.consume ClusterSize.public_agents_option given_public_agents
  with
  | Returns m, Returns ag, Returns pa =>
      create {| Args.ctx := Args.ctx rest;
                Args.agents := ag;
                Args.installer := Args.installer rest;
                Args.cluster_id := Args.cluster_id rest;
                Args.docker_storage_driver := Args.docker_storage_driver rest;
                Args.docker_version := Args.docker_version rest;
                Args.extra_config := Args.extra_config rest;
                Args.linux_distribution := Args.linux_distribution rest;
                Args.masters := m;
                Args.public_agents := pa;
                Args.license_key := Args.license_key rest;
                Args.security_mode := Args.security_mode rest;
                Args.copy_to_master := Args.copy_to_master rest;
                Args.genconf_dir := Args.genconf_dir rest;
                Args.workspace_dir := Args.workspace_dir rest;
                Args.custom_volume := Args.custom_volume rest;
                Args.custom_master_volume := Args.custom_master_volume rest;
                Args.custom_agent_volume := Args.custom_agent_volume rest;
                Args.custom_public_agent_volume :=
                  Args.custom_public_agent_volume rest;
                Args.variant := Args.variant rest;
                Args.transport := Args.transport rest;
                Args.wait_for_dcos := Args.wait_for_dcos rest;
                Args.network := Args.network rest;
                Args.one_master_host_port_map :=
                  Args.one_master_host_port_map rest;
                Args.mount_sys_fs_cgroup := Args.mount_sys_fs_cgroup rest |}
  | Raises e, _, _ | _, Raises e, _ | _, _, Raises e =>
      Throw (UsageError e)
  end.
End create.

(** *** The container engine

    The Docker backend of [dcos_e2e.backends], [create_cluster] of
    [dcos_e2e_cli.common.create] and [existing_cluster_ids] of [._common]
    are not among the sources; they are given meaning here. *)

Record Container : Type :=
  { container_id : string;
    container_role : Role;
    container_labels : gmap string string }.

(** The state of the world: the containers the engine knows, and what is
    fixed from outside: which calls raise, how many nodes a failing
    [create_cluster] has allocated when it raises, the engine's name for
    each new container, and what the helper functions answer. *)
Record World : Type :=
  { containers : list Container;
    raising : Cmd → bool;
    allocated_before_failure : nat;
    native_id : Role → nat → string;
    answer : Cmd → string }.

Definition with_containers (w : World) (cs : list Container) : World :=
  {| containers := cs;
     raising := raising w;
     allocated_before_failure := allocated_before_failure w;
     native_id := native_id w;
     answer := answer w |}.

Definition role_labels (b : Docker.t) (r : Role) : gmap string string :=
  match r with
  | Master => Docker.docker_master_labels b
  | Agent => Docker.docker_agent_labels b
  | PublicAgent => Docker.docker_public_agent_labels b
  end.

(** Modelled from the spec: the Docker backend's provisioning is not among
    the sources.  It allocates the requested node counts and tags every
    allocated resource with the backend's labels: those for all containers
    and those of the node's role. *)
Definition provision (w : World) (b : Docker.t)
    (masters agents public_agents : Z) : list Container :=
  let allocate (r : Role) (count : Z) :=
    (λ i, {| container_id := native_id w r i;
             container_role := r;
             container_labels :=
               role_labels b r ∪ Docker.docker_container_labels b |})
      <$> seq 0 (Z.to_nat count) in
  allocate Master masters ++ allocate Agent agents
    ++ allocate PublicAgent public_agents.

Definition node_of (c : Container) : Node :=
  {| node_id := container_id c; node_role := container_role c |}.

Definition nodes_with_role (r : Role) (cs : list Container) : list Node :=
  node_of <$> List.filter (λ c, bool_decide (container_role c = r)) cs.

Definition cluster_of (cs : list Container) : Cluster.t :=
  {| Cluster.masters := nodes_with_role Master cs;
     Cluster.agents := nodes_with_role Agent cs;
     Cluster.public_agents := nodes_with_role PublicAgent cs |}.

Section world.
Context `{Common}.

(** Modelled from the spec: [existing_cluster_ids] of [._common] is not
    among the sources.  The set of cluster ids is derived purely from
    querying the current labels of the engine's containers. *)
Definition cluster_ids (w : World) : gset string :=
  list_to_set
    (omap (λ c, container_labels c !! CLUSTER_ID_LABEL_KEY) (containers w)).

Definition answer_of (w : World) (c : Cmd) : Reply c :=
  match c return Reply c with
  | existing_cluster_ids => cluster_ids w
  | command_path x y => answer w (command_path x y)
  | get_doctor_message x => answer w (get_doctor_message x)
  | mkdir _ => tt
  | write_key_pair _ _ => tt
  | get_install_variant x y z u => answer w (get_install_variant x y z u)
  | create_cluster b m a p _ => cluster_of (provision w b m a p)
  | read_text x => answer w (read_text x)
  | node_run _ _ _ => tt
  | node_send_file _ _ _ => tt
  | get_config x y z u v => answer w (get_config x y z u v)
  | install_dcos_from_path _ _ _ _ _ _ => tt
  | run_post_install_steps _ _ _ _ _ _ _ => tt
  end.

(** Modelled from the spec: [create_cluster] of
    [dcos_e2e_cli.common.create] is not among the sources.  It delegates
    the allocation to the backend; when the allocation of a node fails, the
    nodes allocated before it remain, tagged and enumerable.  No other call
    of [create] allocates. *)
Definition effect (w : World) (c : Cmd) (completed : bool) : World :=
  match c with
  | create_cluster b m a p _ =>
      let new := provision w b m a p in
      with_containers w
        (containers w
           ++ if completed then new
              else take (allocated_before_failure w) new)
  | _ => w
  end.

(** The engine and the helper modules as a handler: a call raises when the
    world says so, and is answered otherwise. *)
Definition handler : Handler Cmd Reply Exn World := λ w c,
  if raising w c then (Raises (Failed c), effect w c false)
  else (Returns (answer_of w c), effect w c true).
End world.

End DockerCreate.

(** ** src/dcos_e2e_cli/dcos_vagrant/commands/wait.py *)

Module VagrantWait.

Abbreviation Opaque := string.

(** [ClusterVMs(cluster_id=...)]: the handle is built from the id and
    nothing else; its properties query the hypervisor when read. *)
Module ClusterVMs.
Record t : Type := { cluster_id : string }.
End ClusterVMs.

Record Cluster : Type := { vm_names : list string }.

(** The calls of [wait].  [check_cluster_id_exists] of
    [dcos_e2e_cli.common.utils] and [._common] of the Vagrant commands
    are not among the sources: each is a call on the arguments [wait]
    gives it, which returns or raises. *)
Inductive Cmd : Type :=
  | existing_cluster_ids
  | check_cluster_id_exists (new_cluster_id : string)
      (existing : gset string)
  | set_logging (verbosity_level : Z)
  | dcos_variant (cluster_vms : ClusterVMs.t)
  | cluster (cluster_vms : ClusterVMs.t)
  | wait_for_dcos (dcos_variant : Opaque) (cluster : Cluster)
      (superuser_username superuser_password : string)
      (http_checks : bool) (doctor_command : string) (sibling_ctx : Opaque).

Definition Reply (c : Cmd) : Type :=
  match c with
  | existing_cluster_ids => gset string
  | dcos_variant _ => Opaque
  | cluster _ => Cluster
  | _ => unit
  end.

Inductive Exn : Type :=
  | UsageError (e : Click.Exn)
  | Failed (c : Cmd).

Abbreviation M := (Prog Cmd Reply Exn).

#[global] Instance M_ret : MRet M := λ A a, Ret a.
#[global] Instance M_bind : MBind M := λ A B f p, bind p f.

#[local] Abbreviation perform := (@perform Cmd Reply Exn).

(** [wait].  The spinner decoration only draws on the terminal. *)
Definition wait (ctx : Opaque) (cluster_id : string)
    (superuser_username superuser_password : string) (verbose : Z) : M unit :=
  ids ← perform existing_cluster_ids;
  perform (check_cluster_id_exists cluster_id ids);;
  perform (set_logging verbose);;
  let cluster_vms := {| ClusterVMs.cluster_id := cluster_id |} in
  variant ← perform (dcos_variant cluster_vms);
  handle ← perform (cluster cluster_vms);
  perform (wait_for_dcos variant handle superuser_username
             superuser_password true "doctor" ctx).

End VagrantWait.

(** ** The [doctor] subcommand, as tests/test_cli/test_dcos_aws/test_cli.py
       exercises it *)

Module Doctor.

Inductive Severity : Type := Pass | Warn | Fail.

Record Entry : Type :=
  { check_name : string; severity : Severity; detail : string }.

Abbreviation DoctorReport := (list Entry).

(** How a click command ends under [CliRunner]: it returns; it leaves
    through [SystemExit] with a code, which is also what click makes of
    a [ClickException] or an [Abort]; or another exception escapes it.
    [printed] is what it has written by then. *)
Inductive Outcome : Type :=
  | Completed (printed : DoctorReport)
  | Exited (code : Z) (printed : DoctorReport)
  | Crashed (e : string) (printed : DoctorReport).

Section doctor.
Context {Env : Type}.

(** Modelled from the spec: the [doctor] command of the AWS CLI is not
    among the sources.  It runs a fixed, ordered battery of checks over
    the environment.  A check inspects the environment; the inspection
    gives a verdict and a remediation hint, or fails. *)
Record Check : Type :=
  { name : string; inspect : Env → PyResult string (Severity * string) }.

(** Modelled from the spec: the failure of a check is never raised as an
    error; it is captured as a [Fail] entry of the report. *)
Definition run_check (env : Env) (c : Check) : PyResult string Entry :=
  match inspect c env with
  | Returns (s, hint) =>
      Returns {| check_name := name c; severity := s; detail := hint |}
  | Raises cause =>
      Returns {| check_name := name c; severity := Fail; detail := cause |}
  end.

(** Modelled from the spec: the checks are run in the order of the
    battery and their entries are aggregated into the report.  As in any
    loop, an exception of one round would end the loop. *)
Fixpoint run_checks (battery : list Check) (env : Env)
  : PyResult string DoctorReport :=
  match battery with
  | [] => Returns []
  | c :: rest =>
      match run_check env c with
      | Raises e => Raises e
      | Returns entry =>
          match run_checks rest env with
          | Raises e => Raises e
          | Returns report => Returns (entry :: report)
          end
      end
  end.

(** Modelled from the spec: the command hands the report to its caller
    to render; an exception of the loop would escape it. *)
Definition doctor (battery : list Check) (env : Env) : Outcome :=
  match run_checks battery env with
  | Returns report => Completed report
  | Raises e => Crashed e []
  end.

(** [CliRunner().invoke(command, ..., catch_exceptions=...)]: the exit
    code is 0 when the command returns and the code of the [SystemExit]
    when it leaves through one; another exception is either caught and
    turned into exit code 1, or let through to the caller. *)
Record Result : Type := { exit_code : Z; output : DoctorReport }.

Definition invoke (command : Env → Outcome)
    (env : Env) (catch_exceptions : bool) : PyResult string Result :=
  match command env with
  | Completed printed => Returns {| exit_code := 0; output := printed |}
  | Exited code printed => Returns {| exit_code := code; output := printed |}
  | Crashed e printed =>
      if catch_exceptions
      then Returns {| exit_code := 1; output := printed |}
      else Raises e
  end.

End doctor.

Arguments Check Env : clear implicits.

End Doctor.

(** ** src/dcos_e2e/_vendor/vertigo_py/error.py: the other error classes

    The [__str__] methods are syntax for the evaluator above.  An
    [__init__] that uses a conditional expression or [str.join] is written
    out on values. *)

Module VertigoClasses.
Import VertigoError.

(** The truth value of an object: [None], zero and the empty string are
    false; an instance without [__bool__] and [__len__] is true. *)
Definition truthy (v : Value) : bool :=
  match v with
  | VNone => false
  | VInt n => negb (n =? 0)
  | VStr s => negb (bool_decide (s = ""))
  | VObj _ _ | VClass _ | VBuiltin _ => true
  end.

(** [isinstance(v, str)]. *)
Definition is_str (v : Value) : bool :=
  match v with VStr _ => true | _ => false end.

(** [sep.join(items)]: every item must be a [str]. *)
Fixpoint join (sep : string) (items : list Value) : PyResult Exn string :=
  match items with
  | [] => Returns ""
  | item :: rest =>
      match item with
      | VStr s =>
          match rest with
          | [] => Returns s
          | _ :: _ =>
              match join sep rest with
              | Returns r => Returns (s +:+ sep +:+ r)
              | Raises e => Raises e
              end
          end
      | _ => Raises TypeError
      end
  end.

Module CommandError.
Definition __init__ (cmd : list Value) (error : Value) : PyResult Exn Value :=
  match join " " cmd with
  | Raises e => Raises e
  | Returns joined =>
      match getattr error "returncode" with
      | Raises e => Raises e
      | Returns returncode =>
          match getattr error "output" with
          | Raises e => Raises e
          | Returns output =>
              Returns (VObj "CommandError"
                         (<["msg" := output]>
                            (<["code" := VStr (str_builtin returncode)]>
                               (<["cmd" := VStr joined]> ∅))))
          end
      end
  end.

Definition __str__ : Function :=
  {| params := ["self"];
     body :=
       [ SReturn
           (EAdd
              (EAdd (EFString [ inl "Command ";
                                inr (EAttr (EName "self") "cmd");
                                inl " failed with code ";
                                inr (EAttr (EName "self") "code") ])
                    (EStr (" and message:" +:+ nl)))
              (EAttr (EName "self") "msg")) ] |}.
End CommandError.

Module UnknownOptionError.
Definition __init__ : Function :=
  {| params := ["self"; "cmd"; "option"];
     body :=
       [ SSetAttr "self" "cmd" (EName "cmd");
         SSetAttr "self" "option" (EName "option") ] |}.

Definition __str__ : Function :=
  {| params := ["self"];
     body :=
       [ SReturn (EFString
           [ inl "Unknown Option ";
             inr (EAttr (EName "self") "option");
             inl " for command ";
             inr (EAttr (EName "self") "cmd") ]) ] |}.

Definition new (cmd option : Value) : PyResult Exn Value :=
  construct "UnknownOptionError" __init__ [cmd; option].
End UnknownOptionError.

Module CloseMediumError.
(** The default value of the parameter [error]. *)
Definition default_error : Value := VNone.

(** [__init__], also inherited by [NoMediumError]: [cls] is the class of
    the instance under construction. *)
Definition __init__ (cls : string) (device target error : Value)
  : PyResult Exn Value :=
  match (if truthy error then getattr error "output" else Returns (VStr "")) with
  | Raises e => Raises e
  | Returns msg =>
      Returns (VObj cls
                 (<["msg" := msg]>
                    (<["target" := target]> (<["device" := device]> ∅))))
  end.

Definition __str__ : Function :=
  {| params := ["self"];
     body :=
       [ SAssign "e"
           (EFString [ inl "Cannot close device ";
                       inr (EAttr (EName "self") "device");
                       inl " with target ";
                       inr (EAttr (EName "self") "target") ]);
         SReturn (EAdd (EAdd (EName "e") (EStr nl))
                       (EAttr (EName "self") "msg")) ] |}.

Definition new (device target error : Value) : PyResult Exn Value :=
  __init__ "CloseMediumError" device target error.
End CloseMediumError.

Module NoMediumError.
Definition __str__ : Function :=
  {| params := ["self"];
     body :=
       [ SReturn (EFString
           [ inr (EAttr (EName "self") "device");
             inl " is not a valid device" ]) ] |}.

Definition new (device target error : Value) : PyResult Exn Value :=
  CloseMediumError.__init__ "NoMediumError" device target error.
End NoMediumError.

End VertigoClasses.

(** ** admin/prepare_release.py: the release steps around [get_version] *)

Module Release.

Definition nl : string := String (ascii_of_nat 10) "".
Definition dq : string := String (ascii_of_nat 34) "".

(** *** The [str] methods the steps use

    A [str] is kept as its UTF-8 bytes, as [bytes.decode] above leaves
    it. *)

(** [s.replace(old, new)]: every occurrence of [old] is replaced, from the
    left and without overlap.  [skip] counts the characters of the
    occurrence just replaced that are still to be passed over. *)
Fixpoint replace_from (old new s : string) (skip : nat) : string :=
  match s with
  | EmptyString => EmptyString
  | String c s' =>
      match skip with
      | S skip' => replace_from old new s' skip'
      | O =>
          if PyStr.startswith s old
          then new +:+ replace_from old new s' (String.length old - 1)
          else String c (replace_from old new s' 0)
      end
  end.

(** For the empty [old], [new] goes before every character and at the
    end. *)
Fixpoint between_chars (new s : string) : string :=
  match s with
  | EmptyString => new
  | String c s' => new +:+ String c (between_chars new s')
  end.

Definition replace (s old new : string) : string :=
  match old with
  | EmptyString => between_chars new s
  | String _ _ => replace_from old new s 0
  end.

(** [s.split(sep)] for a one-character [sep]: the pieces between the
    separators, at least one. *)
Fixpoint split (s : string) (sep : ascii) : list string :=
  match s with
  | EmptyString => [EmptyString]
  | String c s' =>
      if bool_decide (c = sep) then EmptyString :: split s' sep
      else
        match split s' sep with
        | piece :: pieces => String c piece :: pieces
        | [] => [String c EmptyString]
        end
  end.

(** The characters [str.strip] removes are those for which [str.isspace]
    holds: U+0009 to U+000D, U+001C to U+0020, U+0085, U+00A0, U+1680,
    U+2000 to U+200A, U+2028, U+2029, U+202F, U+205F and U+3000, here by
    their UTF-8 encodings of one, two and three bytes. *)
Definition space1 (a : ascii) : bool :=
  let a := nat_of_ascii a in
  ((9 <=? a) && (a <=? 13) || (28 <=? a) && (a <=? 32))%nat.

Definition space2 (a b : ascii) : bool :=
  let a := nat_of_ascii a in
  let b := nat_of_ascii b in
  ((a =? 0xC2) && ((b =? 0x85) || (b =? 0xA0)))%nat.

Definition space3 (a b c : ascii) : bool :=
  let a := nat_of_ascii a in
  let b := nat_of_ascii b in
  let c := nat_of_ascii c in
  ((a =? 0xE1) && (b =? 0x9A) && (c =? 0x80)
   || (a =? 0xE2) && (b =? 0x80)
      && ((0x80 <=? c) && (c <=? 0x8A) || (c =? 0xA8) || (c =? 0xA9)
          || (c =? 0xAF))
   || (a =? 0xE2) && (b =? 0x81) && (c =? 0x9F)
   || (a =? 0xE3) && (b =? 0x80) && (c =? 0x80))%nat.

Fixpoint lstrip (s : string) : string :=
  match s with
  | EmptyString => EmptyString
  | String a s1 =>
      if space1 a then lstrip s1 else
      match s1 with
      | EmptyString => s
      | String b s2 =>
          if space2 a b then lstrip s2 else
          match s2 with
          | EmptyString => s
          | String c s3 => if space3 a b c then lstrip s3 else s
          end
      end
  end.

(** The whole of [s] is white space. *)
Fixpoint isspace_all (s : string) : bool :=
  match s with
  | EmptyString => true
  | String a s1 =>
      if space1 a then isspace_all s1 else
      match s1 with
      | EmptyString => false
      | String b s2 =>
          if space2 a b then isspace_all s2 else
          match s2 with
          | EmptyString => false
          | String c s3 => space3 a b c && isspace_all s3
          end
      end
  end.

(** [rstrip] cuts [s] where what follows is white space to the end. *)
Fixpoint rstrip (s : string) : string :=
  match s with
  | EmptyString => EmptyString
  | String c s' => if isspace_all s then EmptyString else String c (rstrip s')
  end.

Definition strip (s : string) : string := rstrip (lstrip s).

(** [s.encode('utf-8')] *)
Definition encode (s : string) : list byte := list_byte_of_string s.

(** *** The calls into the outside world *)

Abbreviation Opaque := string.

(** A section node of the parsed document, as far as
    [get_changelog_contents] looks at it: the texts of the items of its
    first child that is a bullet list, if there is one. *)
Abbreviation SectionNode := (option (list string)).

Inductive Cmd : Type :=
  | environ_getitem (key : string)
  | utcnow
  | Repo (root : string)
  | tag_list (repo : Opaque)
  | read_text (path : string)
  | write_text (path : string) (data : string)
  | uuid4_hex
  | next_sections (source : string) (document_name : string)
  | subprocess_run (args : list string)
  | Github (login_or_token : string)
  | get_organization (gh : Opaque) (login : string)
  | get_repo (org : Opaque) (name : string)
  | get_commits (repository : Opaque)
  | create_git_tag_and_release (repository : Opaque)
      (tag tag_message release_name release_message type object : string)
  | add
  | commit (message : list byte)
  | push (repo : Opaque) (remote_location : string) (refspecs : list byte).

Definition Reply (c : Cmd) : Type :=
  match c with
  | environ_getitem _ => string
  | utcnow => PrepareRelease.datetime
  | Repo _ => Opaque
  | tag_list _ => list (list byte)
  | read_text _ => string
  | uuid4_hex => string
  | next_sections _ _ => list SectionNode
  | subprocess_run _ => list byte
  | Github _ => Opaque
  | get_organization _ _ => Opaque
  | get_repo _ _ => Opaque
  | get_commits _ => list string
  | _ => unit
  end.

Inductive Exn : Type :=
  | UnicodeDecodeError (item : list byte)
  | IndexError
  | ValueError
  | Failed (c : Cmd).

Abbreviation M := (Prog Cmd Reply Exn).

#[global] Instance M_ret : MRet M := λ A a, Ret a.
#[global] Instance M_bind : MBind M := λ A B f p, bind p f.

#[local] Abbreviation perform := (@perform Cmd Reply Exn).

(** [result.stdout.decode()] *)
Definition decode (item : list byte) : M string :=
  match PrepareRelease.decode item with
  | Returns s => Ret s
  | Raises (PrepareRelease.UnicodeDecodeError item') =>
      Throw (UnicodeDecodeError item')
  end.

(** *** [get_homebrew_formula] *)

(** [Path(__file__).parent.parent / 'requirements.txt'], from the root of
    the repository. *)
Definition requirements_file : string := "requirements.txt".

(** The argument vector for [poet], from the text of the requirements
    file. *)
Definition poet_args (text : string) : PyResult Exn (list string) :=
  let lines := split (strip text) (ascii_of_nat 10) in
  let requirements :=
    List.filter (λ line, negb (PyStr.startswith line "#")) lines in
  match requirements with
  | [] => Raises IndexError
  | first :: rest =>
      Returns (["poet"; first] ++ flat_map (λ requirement,
                                              ["--also"; requirement]) rest)
  end.

(** The dedented pattern with its two fields filled in. *)
Definition formula (version resource_stanzas : string) : string :=
  String.concat nl
    [ "class Dcosdocker < Formula";
      "  include Language::Python::Virtualenv";
      "";
      "  url " +:+ dq +:+ "https://github.com/mesosphere/dcos-e2e.git#"
        +:+ version +:+ dq;
      "  head " +:+ dq +:+ "https://github.com/mesosphere/dcos-e2e.git" +:+ dq;
      "  homepage " +:+ dq
        +:+ "http://dcos-e2e.readthedocs.io/en/latest/cli.html" +:+ dq;
      "  depends_on " +:+ dq +:+ "python3" +:+ dq;
      "";
      resource_stanzas;
      "";
      "  def install";
      "    virtualenv_install_with_resources";
      "  end";
      "";
      "  test do";
      "      ENV[" +:+ dq +:+ "LC_ALL" +:+ dq +:+ "] = " +:+ dq
        +:+ "en_US.utf-8" +:+ dq;
      "      ENV[" +:+ dq +:+ "LANG" +:+ dq +:+ "] = " +:+ dq
        +:+ "en_US.utf-8" +:+ dq;
      "      system " +:+ dq +:+ "#{bin}/dcos_docker" +:+ dq +:+ ", "
        +:+ dq +:+ "--help" +:+ dq;
      "  end";
      "end";
      "" ].

Definition get_homebrew_formula (version : string) : M string :=
  text ← perform (read_text requirements_file);
  match poet_args text with
  | Raises e => Throw e
  | Returns args =>
      stdout ← perform (subprocess_run args);
      resource_stanzas ← decode stdout;
      Ret (formula version resource_stanzas)
  end.

(** *** [get_version], with the clock and the repository as calls *)
Definition get_version : M string :=
  utc_now ← perform utcnow;
  repo ← perform (Repo ".");
  tag_labels ← perform (tag_list repo);
  match PrepareRelease.get_version utc_now tag_labels with
  | Returns version => Ret version
  | Raises (PrepareRelease.UnicodeDecodeError item) =>
      Throw (UnicodeDecodeError item)
  end.

(** *** [update_changelog] *)
Definition next_heading : string := "Next" +:+ nl +:+ "----".

Definition new_changelog_contents (version changelog_contents : string)
  : string :=
  replace changelog_contents next_heading
    ("Next" +:+ nl +:+ "----" +:+ nl +:+ nl +:+ version +:+ nl
       +:+ "------------").

Definition update_changelog (version : string) : M unit :=
  changelog_contents ← perform (read_text "CHANGELOG.rst");
  perform (write_text "CHANGELOG.rst"
             (new_changelog_contents version changelog_contents)).

(** *** [get_changelog_contents]

    The parsing is docutils' and stays outside: [next_sections] answers
    with the nodes of the parsed document whose ids are [['next']]. *)
Definition render_items (list_items : list string) : string :=
  strip (fold_left (λ result item, result +:+ "* " +:+ item +:+ nl +:+ nl)
           list_items "").

Definition get_changelog_contents : M string :=
  source ← perform (read_text "CHANGELOG.rst");
  document_name ← perform uuid4_hex;
  sections ← perform (next_sections source document_name);
  match sections with
  | [next_section] =>
      match next_section with
      | None => Ret ""
      | Some list_items => Ret (render_items list_items)
      end
  | _ => Throw ValueError
  end.

(** *** [create_github_release] *)
Definition create_github_release
    (changelog_contents github_token version : string) : M unit :=
  gh ← perform (Github github_token);
  org ← perform (get_organization gh "mesosphere");
  repository ← perform (get_repo org "dcos-e2e");
  commits ← perform (get_commits repository);
  match commits with
  | [] => Throw IndexError
  | sha :: _ =>
      perform (create_git_tag_and_release repository version
                 ("Release " +:+ version) ("Release " +:+ version)
                 changelog_contents "commit" sha)
  end.

(** *** [commit_and_push] and [update_homebrew] *)
Definition commit_and_push (version : string) : M unit :=
  repo ← perform (Repo ".");
  perform add;;
  let message := encode "Update for release " ++ encode version in
  perform (commit message);;
  let branch_name := "master" in
  perform (push repo "git@github.com:mesosphere/dcos-e2e.git"
             (encode branch_name)).

Definition update_homebrew (version_str : string) : M unit :=
  homebrew_formula_contents ← get_homebrew_formula version_str;
  perform (write_text "dcosdocker.rb" homebrew_formula_contents).

(** *** [main]; the calls of [commit_and_push] and [update_homebrew] are
    commented out in the source. *)
Definition main : M unit :=
  github_token ← perform (environ_getitem "GITHUB_TOKEN");
  version_str ← get_version;
  changelog_contents ← get_changelog_contents;
  update_changelog version_str;;
  create_github_release changelog_contents github_token version_str.

End Release.

(** ** tests/test_cli/test_dcos_aws/test_cli.py: the help texts *)

Module TestHelp.

(** What [CliRunner().invoke] hands back. *)
Record Result : Type := { exit_code : Z; output : string }.

Inductive Exn : Type :=
  | AssertionError
  | FileNotFoundError (filename : string)
  | CommandRaised (message : string).

(** The directory [help_outputs] next to the test file: absent, or the
    texts of its files by name.  Reading is taken to fail only for a file
    that is not there. *)
Abbreviation HelpOutputs := (option (gmap string string)).

Definition read_text (dir : HelpOutputs) (filename : string)
  : PyResult Exn string :=
  match dir ≫= (.!! filename) with
  | Some text => Returns text
  | None => Raises (FileNotFoundError filename)
  end.

(** [help_outputs_dir.mkdir(exist_ok=True)], [expected_help_file.touch()]
    and [expected_help_file.write_text(data)]. *)
Definition mkdir (dir : HelpOutputs) : HelpOutputs := Some (default ∅ dir).

Definition touch (dir : HelpOutputs) (filename : string) : HelpOutputs :=
  (λ files,
     match files !! filename with
     | Some _ => files
     | None => <[filename := ""]> files
     end) <$> dir.

Definition write_text (dir : HelpOutputs) (filename data : string)
  : HelpOutputs :=
  <[filename := data]> <$> dir.

(** [_COMMANDS], from the keys of [dcos_aws.commands]. *)
Definition _SUBCOMMANDS (commands : list string) : list (list string) :=
  (λ item, [item]) <$> commands.
Definition _BASE_COMMAND : list (list string) := [[]].
Definition _COMMANDS (commands : list string) : list (list string) :=
  _BASE_COMMAND ++ _SUBCOMMANDS commands.

Definition help_output_filename (command : list string) : string :=
  String.concat "-" (["dcos-aws"] ++ command) +:+ ".txt".

(** [TestHelp.test_help]: the outcome of the test and the directory after
    it.  [invoke] is the command line interface under test, run with
    [catch_exceptions=False]. *)
Definition test_help (invoke : list string → PyResult Exn Result)
    (environ : gmap string string) (command : list string)
    (dir : HelpOutputs) : PyResult Exn unit * HelpOutputs :=
  let arguments := command ++ ["--help"] in
  match invoke arguments with
  | Raises e => (Raises e, dir)
  | Returns result =>
      if negb (exit_code result =? 0) then (Raises AssertionError, dir)
      else
        let filename := help_output_filename command in
        let compared :=
          match read_text dir filename with
          | Raises e => Raises e
          | Returns expected_help =>
              if bool_decide (output result = expected_help)
              then Returns tt
              else Raises AssertionError
          end in
        match compared with
        | Returns _ => (Returns tt, dir)
        | Raises e =>
            if bool_decide (environ !! "FIX_CLI_TESTS" = Some "1") then
              (Returns tt,
               write_text (touch (mkdir dir) filename) filename
                 (output result))
            else (Raises e, dir)
        end
  end.

End TestHelp.

(** * The words of the claims

    What the claims speak of, said in terms of the embedding, and the
    concrete worlds and requests used as examples further down. *)

(** ** The key-value-store control wrapper *)

Section etcd_reading.
Import Etcd.

(** One call of [run] after the other on the same instance: the outcomes,
    and the store at the end. *)
Fixpoint run_each (self : EtcdCtl) (os : OS) (cmds : list (list string))
    (check : bool) (env : Environ) (h : Store)
  : list (PyResult SubprocessError CompletedProcess) * Store :=
  match cmds with
  | [] => ([], h)
  | cmd :: cmds' =>
      let '(result, h1) := run self os cmd check env h in
      let '(results, h2) := run_each self os cmds' check env h1 in
      (result :: results, h2)
  end.

(** The spec's reading of the switch: the variable is set, and its value
    is the word [true] in any mix of upper and lower case. *)
Definition either_case (lower_c upper_c c : ascii) : Prop :=
  c = lower_c ∨ c = upper_c.

Definition spelled_true (v : string) : Prop :=
  ∃ c1 c2 c3 c4,
    v = String c1 (String c2 (String c3 (String c4 "")))
    ∧ either_case "t" "T" c1 ∧ either_case "r" "R" c2
    ∧ either_case "u" "U" c3 ∧ either_case "e" "E" c4.

Definition enterprise_requested (environ : Environ) : Prop :=
  ∃ v, environ !! "DCOS_ENTERPRISE" = Some v ∧ spelled_true v.

(** A process that exits with status 0 and one that exits with status 2,
    each leaving a few bytes on both streams. *)
Definition exited_ok : Exited :=
  {| exit_status := 0; captured_out := [x76; x31]; captured_err := [] |}.
Definition exited_2 : Exited :=
  {| exit_status := 2; captured_out := [x6f]; captured_err := [x45; x21] |}.

End etcd_reading.

(** ** The vendored VirtualBox errors *)

Section vertigo_error_reading.
Import VertigoError.

Definition called_process_error : Value :=
  VObj "CalledProcessError"
    (<["returncode" := VInt 1]> (<["output" := VStr "VBoxManage: error"]> ∅)).

End vertigo_error_reading.

(** ** The release-version generator *)

Section prepare_release_reading.
Import PrepareRelease.

(** The spec's words: a label starts with a prefix; a date written as
    YYYY.MM.DD. *)
Definition starts_with (prefix s : string) : Prop :=
  ∃ rest, s = prefix +:+ rest.

Definition ymd (d : datetime) : string :=
  zfill 4 (pretty (year d)) +:+ "." +:+ zfill 2 (pretty (month d))
    +:+ "." +:+ zfill 2 (pretty (day d)).

#[global] Instance starts_with_dec prefix s : Decision (starts_with prefix s).
Proof.
  revert s. induction prefix as [|a prefix IH]; intros s.
  - left. by exists s.
  - destruct s as [|b s].
    + right. intros [rest Hrest]. discriminate Hrest.
    + destruct (decide (a = b)) as [->|Hne].
      * destruct (IH s) as [Hs|Hs].
        -- left. destruct Hs as [rest ->]. by exists rest.
        -- right. intros [rest [= ->]]. apply Hs. by exists rest.
      * right. intros [rest [= -> _]]. done.
Defined.

Definition release_day : datetime := {| year := 2018; month := 3; day := 7 |}.

Definition latin1_tags : list (list byte) := [[x76; x31; x2d; xe9]].

Definition release_day_tags : list (list byte) :=
  list_byte_of_string
    <$> ["2018.03.06.0"; "2018.03.07.0"; "v1.2"; "2018.03.07.1"].

End prepare_release_reading.

(** ** Programs *)

Section prog_reading.
Context {Cmd : Type} {Reply : Cmd → Type} {Exn : Type}.

(** A program all of whose calls satisfy [P]. *)
Fixpoint calls_only {A} (P : Cmd → Prop) (p : Prog Cmd Reply Exn A) : Prop :=
  match p with
  | Ret _ | Throw _ => True
  | Call c k => P c ∧ ∀ r, calls_only P (k r)
  end.

(** A program that raises nothing of its own accord. *)
Fixpoint never_throws {A} (p : Prog Cmd Reply Exn A) : Prop :=
  match p with
  | Ret _ => True
  | Throw _ => False
  | Call c k => ∀ r, never_throws (k r)
  end.

End prog_reading.

(** ** The size options *)

(** The decimal numeral of an integer, as it is typed on the command
    line. *)
Definition numeral (n : Z) : string := NilZero.string_of_int (Z.to_int n).

(** ** Creating a cluster with the Docker backend *)

Section docker_create_reading.
Import DockerCreate.
Context `{Common}.
Implicit Types t : list (Event Cmd Reply Exn).

(** The kinds of calls [create] makes. *)
Definition prelude_cmd (c : Cmd) : Prop :=
  match c with
  | existing_cluster_ids | command_path _ _ | get_doctor_message _
  | mkdir _ | write_key_pair _ _ | get_install_variant _ _ _ _ => True
  | _ => False
  end.
Definition key_cmd (c : Cmd) : Prop :=
  match c with node_run _ _ _ | read_text _ => True | _ => False end.
Definition is_send_file (c : Cmd) : Prop :=
  match c with node_send_file _ _ _ => True | _ => False end.
Definition is_create_cluster (c : Cmd) : Prop :=
  match c with create_cluster _ _ _ _ _ => True | _ => False end.
Definition is_install (c : Cmd) : Prop :=
  match c with install_dcos_from_path _ _ _ _ _ _ => True | _ => False end.
Definition is_install_of (cfg : Opaque) (c : Cmd) : Prop :=
  match c with
  | install_dcos_from_path _ cfg' _ _ _ _ => cfg' = cfg
  | _ => False
  end.
Definition is_post_install (c : Cmd) : Prop :=
  match c with run_post_install_steps _ _ _ _ _ _ _ => True | _ => False end.

Definition on (P : Cmd → Prop) (ev : Event Cmd Reply Exn) : Prop :=
  P (event_cmd ev).

Definition failed {A} (res : PyResult Exn A) : Prop := ∃ e, res = Raises e.

(** The shape of every trace of [create], phase by phase. *)
Definition finish_shape t (res : PyResult Exn ()) : Prop :=
  (∃ x y z u v e, t = [Raised (get_config x y z u v) e] ∧ res = Raises e)
  ∨ ∃ x y z u v cfg inst_ev last,
      is_install_of cfg (event_cmd inst_ev)
      ∧ t = Answered (get_config x y z u v) cfg :: inst_ev :: last
      ∧ Forall (on is_post_install) last.

Definition after_shape (a : Args.t) (cluster : Cluster.t) t
    (res : PyResult Exn ()) : Prop :=
  ∃ keys, Forall (on key_cmd) keys ∧
    ((t = keys ∧ failed res)
     ∨ ∃ sends, Forall (on is_send_file) sends ∧
         ((t = keys ++ sends ∧ failed res)
          ∨ ((∀ node l r, node ∈ Cluster.masters cluster →
                (l, r) ∈ Args.copy_to_master a →
                Answered (node_send_file node l r) tt ∈ sends)
             ∧ ∃ tail, t = keys ++ sends ++ tail ∧ finish_shape tail res))).

Definition create_shape (a : Args.t) t (res : PyResult Exn ()) : Prop :=
  ∃ pre, Forall (on prelude_cmd) pre ∧
    ((t = pre ∧ failed res)
     ∨ ∃ ids pre' msg,
         pre = Answered existing_cluster_ids ids :: pre'
         ∧ (Args.cluster_id a ∉ ids)
         ∧ ((∃ e, t = pre ++ [Raised (create_cluster (cluster_backend_of a)
                                        (Args.masters a) (Args.agents a)
                                        (Args.public_agents a) msg) e]
                  ∧ res = Raises e)
            ∨ ∃ cluster rest,
                t = pre ++ Answered (create_cluster (cluster_backend_of a)
                                       (Args.masters a) (Args.agents a)
                                       (Args.public_agents a) msg) cluster
                           :: rest
                ∧ after_shape a cluster rest res)).

(** The containers an observed call has added to the engine. *)
Definition allocation (w : World) (ev : Event Cmd Reply Exn)
  : list Container :=
  match ev with
  | Answered c _ =>
      match c with
      | create_cluster b m ag pa _ => provision w b m ag pa
      | _ => []
      end
  | Raised c _ =>
      match c with
      | create_cluster b m ag pa _ =>
          take (allocated_before_failure w) (provision w b m ag pa)
      | _ => []
      end
  end.

Definition same_setup (w w' : World) : Prop :=
  raising w' = raising w
  ∧ allocated_before_failure w' = allocated_before_failure w
  ∧ native_id w' = native_id w
  ∧ answer w' = answer w.

(** Every answer in a run is the engine's answer in the world of that
    moment, which differs from the initial one in its containers only. *)
Definition engine_answer (w : World) (ev : Event Cmd Reply Exn) : Prop :=
  match ev with
  | Answered c r => ∃ w1, same_setup w w1 ∧ r = answer_of w1 c
  | Raised _ _ => True
  end.

(** The label value that stands for a role. *)
Definition node_type_value (r : Role) : string :=
  match r with
  | Master => NODE_TYPE_MASTER_LABEL_VALUE
  | Agent => NODE_TYPE_AGENT_LABEL_VALUE
  | PublicAgent => NODE_TYPE_PUBLIC_AGENT_LABEL_VALUE
  end.

(** A container tagged for cluster [a]: cluster id, workspace directory
    and the container's own role. *)
Definition tagged (a : Args.t) (c : Container) : Prop :=
  container_labels c !! CLUSTER_ID_LABEL_KEY = Some (Args.cluster_id a)
  ∧ container_labels c !! WORKSPACE_DIR_LABEL_KEY
    = Some (str_path (Args.workspace_dir a))
  ∧ container_labels c !! NODE_TYPE_LABEL_KEY
    = Some (node_type_value (container_role c)).

Definition label_keys_distinct : Prop :=
  CLUSTER_ID_LABEL_KEY ≠ WORKSPACE_DIR_LABEL_KEY
  ∧ NODE_TYPE_LABEL_KEY ≠ CLUSTER_ID_LABEL_KEY
  ∧ NODE_TYPE_LABEL_KEY ≠ WORKSPACE_DIR_LABEL_KEY.

(** An engine without containers in which no call fails. *)
Definition quiet_world : World :=
  {| containers := [];
     raising := λ _, false;
     allocated_before_failure := 0;
     native_id := λ r i, pretty i;
     answer := λ _, "" |}.

(** Both requests enumerate the ids before either provisions. *)
Definition race_schedule : list bool :=
  [true; false] ++ replicate 7 true ++ replicate 7 false.

(** The arguments of a request with the three sizes replaced. *)
Definition with_sizes (rest : Args.t) (m ag pa : Z) : Args.t :=
  {| Args.ctx := Args.ctx rest;
     Args.agents := ag;
     Args.installer := Args.installer rest;
     Args.cluster_id := Args.cluster_id rest;
     Args.docker_storage_driver := Args.docker_storage_driver rest;
     Args.docker_version := Args.docker_version rest;
     Args.extra_config := Args.extra_config rest;
     Args.linux_distribution := Args.linux_distribution rest;
     Args.masters := m;
     Args.public_agents := pa;
     Args.license_key := Args.license_key rest;
     Args.security_mode := Args.security_mode rest;
     Args.copy_to_master := Args.copy_to_master rest;
     Args.genconf_dir := Args.genconf_dir rest;
     Args.workspace_dir := Args.workspace_dir rest;
     Args.custom_volume := Args.custom_volume rest;
     Args.custom_master_volume := Args.custom_master_volume rest;
     Args.custom_agent_volume := Args.custom_agent_volume rest;
     Args.custom_public_agent_volume := Args.custom_public_agent_volume rest;
     Args.variant := Args.variant rest;
     Args.transport := Args.transport rest;
     Args.wait_for_dcos := Args.wait_for_dcos rest;
     Args.network := Args.network rest;
     Args.one_master_host_port_map := Args.one_master_host_port_map rest;
     Args.mount_sys_fs_cgroup := Args.mount_sys_fs_cgroup rest |}.

End docker_create_reading.

Section docker_scenario_reading.
Import DockerCreate.

Definition sample_common : Common :=
  {| CLUSTER_ID_LABEL_KEY := "dcos_e2e.cluster_id";
     NODE_TYPE_LABEL_KEY := "dcos_e2e.node_type";
     WORKSPACE_DIR_LABEL_KEY := "dcos_e2e.workspace_dir";
     NODE_TYPE_MASTER_LABEL_VALUE := "master";
     NODE_TYPE_AGENT_LABEL_VALUE := "agent";
     NODE_TYPE_PUBLIC_AGENT_LABEL_VALUE := "public_agent";
     DOCKER_STORAGE_DRIVERS := {["overlay2" := "overlay2"]};
     default_container_name_prefix := "dcos-e2e" |}.

Definition sample_args : Args.t :=
  {| Args.ctx := "minidcos docker";
     Args.agents := 1;
     Args.installer := "/tmp/dcos_generate_config.sh";
     Args.cluster_id := "test1";
     Args.docker_storage_driver := None;
     Args.docker_version := "18.06.3-ce";
     Args.extra_config := "";
     Args.linux_distribution := "centos-7";
     Args.masters := 1;
     Args.public_agents := 0;
     Args.license_key := None;
     Args.security_mode := None;
     Args.copy_to_master := [("/tmp/ca.crt", "/etc/ca.crt")];
     Args.genconf_dir := None;
     Args.workspace_dir := "/tmp/workspace";
     Args.custom_volume := [];
     Args.custom_master_volume := [];
     Args.custom_agent_volume := [];
     Args.custom_public_agent_volume := [];
     Args.variant := "auto";
     Args.transport := DOCKER_EXEC;
     Args.wait_for_dcos := false;
     Args.network := "bridge";
     Args.one_master_host_port_map := ∅;
     Args.mount_sys_fs_cgroup := true |}.

End docker_scenario_reading.

(** ** Rendering the errors of VBoxManage *)

Section error_reading.
Import VertigoError.

(** The values whose [str], whose conversion in a replacement field and
    whose place on the right of [+] are fixed by the language: [None],
    the integers and the strings. *)
Definition plain (v : Value) : Prop :=
  match v with
  | VNone | VInt _ | VStr _ => True
  | VObj _ _ | VClass _ | VBuiltin _ => False
  end.

End error_reading.

(** ** Waiting for a cluster of virtual machines *)

Section vagrant_wait_reading.
Import VagrantWait.

Definition is_wait_for_dcos (c : Cmd) : Prop :=
  match c with wait_for_dcos _ _ _ _ _ _ _ => True | _ => False end.

End vagrant_wait_reading.

(** ** The release steps *)

Section release_reading.
Import PrepareRelease Release.

(** [old in s] *)
Fixpoint contains (s old : string) : bool :=
  PyStr.startswith s old
  || match s with
     | EmptyString => false
     | String _ s' => contains s' old
     end.

(** A date of the years in which [%Y] is four digits wide. *)
Definition four_digit_year (d : datetime) : Prop :=
  (1000 ≤ N.of_nat (year d) ≤ 9999)%N
  ∧ (1 ≤ month d ≤ 12)%nat ∧ (1 ≤ day d ≤ 31)%nat.

(** The labels of today's tags, and the versions [get_version] hands out
    on a day: the date followed by a dot and a number counted from 0. *)
Definition labels_of_day (utc_now : datetime) (tags : list (list byte))
  : list string :=
  filter (starts_with (ymd utc_now)) (string_of_list_byte <$> tags).

Definition versions_of_day (utc_now : datetime) (count : nat) : list string :=
  (λ micro : nat, ymd utc_now +:+ "." +:+ pretty micro) <$> seq 0 count.

(** What [main] leaves alone: the index, commits and pushes, other
    programs, and every file but the changelog. *)
Definition changelog_and_release_only (c : Cmd) : Prop :=
  match c with
  | add | commit _ | push _ _ _ | subprocess_run _ => False
  | read_text path | write_text path _ => path = "CHANGELOG.rst"
  | _ => True
  end.

Definition is_release (c : Cmd) : Prop :=
  match c with
  | create_git_tag_and_release _ _ _ _ _ _ _ => True
  | _ => False
  end.

(** The notes [get_changelog_contents] makes of a [Next] section. *)
Definition notes_of (next_section : SectionNode) : string :=
  match next_section with
  | None => ""
  | Some list_items => render_items list_items
  end.

(** A byte that is no second or third byte of a white-space character
    separates what is before it from what follows. *)
Definition separates (a : ascii) : Prop :=
  (∀ b, space2 b a = false)
  ∧ (∀ b c, space3 b a c = false) ∧ (∀ b c, space3 b c a = false).

(** An item of the notes as a bullet. *)
Definition bullet (item : string) : string := "* " +:+ item.

End release_reading.

(** ** More on creating a cluster *)

Section docker_more_reading.
Import DockerCreate.

(** What [_add_authorized_key] does to a node: it appends to the root
    user's authorized keys through a shell, and reads the key file. *)
Definition appends_key (public_key_path : Path) (c : Cmd) : Prop :=
  match c with
  | node_run _ args shell =>
      shell = true
      ∧ ∃ line, args = ["echo"; line; ">>"; "/root/.ssh/authorized_keys"]
  | read_text path => path = public_key_path
  | _ => False
  end.

(** The three events of authorising a key on a node. *)
Definition authorised (node : Node) (public_key_path : Path) (key : string)
  : list (Event Cmd Reply Exn) :=
  [ Answered (node_run node ["echo"; ""; ">>"; "/root/.ssh/authorized_keys"]
                true) tt;
    Answered (read_text public_key_path) key;
    Answered (node_run node ["echo"; key; ">>"; "/root/.ssh/authorized_keys"]
                true) tt ].

(** A call that was answered rather than raised. *)
Definition answered (ev : Event Cmd Reply Exn) : Prop :=
  match ev with Answered _ _ => True | Raised _ _ => False end.

End docker_more_reading.

(** ** The Homebrew formula *)

Section homebrew_reading.
Import Release.

Definition is_write (c : Cmd) : Prop :=
  match c with write_text _ _ => True | _ => False end.

End homebrew_reading.

(** ** A checkout in which the release steps run

    The repository as the steps find it: the files by their paths, the
    environment, the clock, the tags, the sections docutils finds in a
    source, what [poet] prints, the commits GitHub knows and the releases
    made so far.  A write replaces the file; a release is recorded. *)

Module Checkout.
Import Release.

Record t : Type :=
  { environ : gmap string string;
    now : PrepareRelease.datetime;
    tags : list (list byte);
    files : gmap string string;
    sections_of : string → list SectionNode;
    poet : list string → list byte;
    commits : list string;
    releases : list (string * string) }.

Definition write (w : t) (path data : string) : t :=
  {| environ := environ w; now := now w; tags := tags w;
     files := <[path := data]> (files w);
     sections_of := sections_of w; poet := poet w;
     commits := commits w; releases := releases w |}.

Definition release (w : t) (tag message : string) : t :=
  {| environ := environ w; now := now w; tags := tags w;
     files := files w;
     sections_of := sections_of w; poet := poet w;
     commits := commits w; releases := (tag, message) :: releases w |}.

Definition run : Handler Cmd Reply Exn t := λ w c,
  match c return PyResult Exn (Reply c) * t with
  | environ_getitem key =>
      (match environ w !! key with
       | Some value => Returns value
       | None => Raises (Failed (environ_getitem key))
       end, w)
  | utcnow => (Returns (now w), w)
  | Repo root => (Returns root, w)
  | tag_list _ => (Returns (tags w), w)
  | read_text path =>
      (match files w !! path with
       | Some text => Returns text
       | None => Raises (Failed (read_text path))
       end, w)
  | write_text path data => (Returns tt, write w path data)
  | uuid4_hex => (Returns "0", w)
  | next_sections source _ => (Returns (sections_of w source), w)
  | subprocess_run args => (Returns (poet w args), w)
  | Github token => (Returns token, w)
  | get_organization _ login => (Returns login, w)
  | get_repo _ name => (Returns name, w)
  | get_commits _ => (Returns (commits w), w)
  | create_git_tag_and_release _ tag _ _ message _ _ =>
      (Returns tt, release w tag message)
  | add => (Returns tt, w)
  | commit _ => (Returns tt, w)
  | push _ _ _ => (Returns tt, w)
  end.

(** A checkout on the day of a release, with the given changelog and no
    commit on GitHub. *)
Definition on_release_day (changelog : string) : t :=
  {| environ := {["GITHUB_TOKEN" := "secret"]};
     now := release_day;
     tags := release_day_tags;
     files := <["CHANGELOG.rst" := changelog]>
                {["requirements.txt" :=
                    "# tools" +:+ nl +:+ "click==6.7" +:+ nl
                      +:+ "urllib3==1.22" +:+ nl]};
     sections_of := λ source,
       if contains source next_heading then [Some ["Fix the wait"]] else [];
     poet := λ args, list_byte_of_string (String.concat "+" args);
     commits := [];
     releases := [] |}.

End Checkout.

(** * Theorems *)

(** ** The key-value-store control wrapper (etcd.py) *)

Section etcd.
Import Etcd.

Lemma lower_ascii_iff (lower_c upper_c c : ascii) :
  PyStr.lower_ascii lower_c = lower_c →
  PyStr.lower_ascii upper_c = lower_c →
  (∀ d, PyStr.lower_ascii d = lower_c → d = lower_c ∨ d = upper_c) →
  PyStr.lower_ascii c = lower_c ↔ either_case lower_c upper_c c.
Proof.
  intros Hl Hu Hinv. split; [apply Hinv|].
  by intros [-> | ->].
Qed.

Ltac lower_cases :=
  intros d; destruct d as [[] [] [] [] [] [] [] []];
  vm_compute; intros E; try discriminate E; auto.

Lemma lower_t c : PyStr.lower_ascii c = "t"%char ↔ either_case "t" "T" c.
Proof. apply lower_ascii_iff; [done | done | lower_cases]. Qed.
Lemma lower_r c : PyStr.lower_ascii c = "r"%char ↔ either_case "r" "R" c.
Proof. apply lower_ascii_iff; [done | done | lower_cases]. Qed.
Lemma lower_u c : PyStr.lower_ascii c = "u"%char ↔ either_case "u" "U" c.
Proof. apply lower_ascii_iff; [done | done | lower_cases]. Qed.
Lemma lower_e c : PyStr.lower_ascii c = "e"%char ↔ either_case "e" "E" c.
Proof. apply lower_ascii_iff; [done | done | lower_cases]. Qed.

Lemma lower_true_iff (v : string) : PyStr.lower v = "true" ↔ spelled_true v.
Proof.
  split.
  - destruct v as [|c1 [|c2 [|c3 [|c4 [|c5 v]]]]]; simpl; try discriminate.
    intros [= H1 H2 H3 H4].
    exists c1, c2, c3, c4. split; [done|].
    by rewrite <- lower_t, <- lower_r, <- lower_u, <- lower_e.
  - intros (c1 & c2 & c3 & c4 & -> & H1 & H2 & H3 & H4). simpl.
    apply lower_t in H1. apply lower_r in H2.
    apply lower_u in H3. apply lower_e in H4. congruence.
Qed.

Lemma is_enterprise_iff (environ : Environ) :
  is_enterprise environ = true ↔ enterprise_requested environ.
Proof.
  unfold is_enterprise, enterprise_requested, getenv.
  rewrite bool_decide_eq_true.
  destruct (environ !! "DCOS_ENTERPRISE") as [v|]; simpl.
  - rewrite lower_true_iff. split; [eauto|]. by intros (v' & [= <-] & Hv).
  - split; [discriminate|]. by intros (v' & [=] & _).
Qed.

(** Allocation never disturbs the objects already in the store. *)
Lemma deref_alloc_new (h : Store) (l : list string) :
  deref (alloc h l).1 (alloc h l).2 = l.
Proof. unfold deref, alloc. simpl. by rewrite lookup_insert_eq. Qed.

Lemma deref_alloc_old (h : Store) (l : list string) (a : nat) :
  a ∈ dom h → deref (alloc h l).1 a = deref h a.
Proof.
  intros Ha. unfold deref, alloc. simpl.
  rewrite lookup_insert_ne; [done|].
  intros <-. by apply (is_fresh (dom h)).
Qed.

Lemma alloc_dom (h : Store) (l : list string) (a : nat) :
  a ∈ dom h → a ∈ dom (alloc h l).1.
Proof. unfold alloc. simpl. rewrite dom_insert. set_solver. Qed.

Lemma alloc_new_dom (h : Store) (l : list string) :
  (alloc h l).2 ∈ dom (alloc h l).1.
Proof. unfold alloc. simpl. rewrite dom_insert. set_solver. Qed.

Lemma init_base_args environ cert_type (h0 : Store) :
  deref (__init__ environ cert_type h0).1
        (_base_args (__init__ environ cert_type h0).2)
  = _get_base_args environ cert_type.
Proof. unfold __init__. apply deref_alloc_new. Qed.

Lemma init_base_args_dom environ cert_type (h0 : Store) :
  _base_args (__init__ environ cert_type h0).2
    ∈ dom (__init__ environ cert_type h0).1.
Proof. unfold __init__. apply alloc_new_dom. Qed.

Lemma run_argv_spec (self : EtcdCtl) (cmd : list string) (h : Store) :
  _base_args self ∈ dom h →
  (run_argv self cmd h).2 = deref h (_base_args self) ++ cmd
  ∧ deref (run_argv self cmd h).1 (_base_args self) = deref h (_base_args self)
  ∧ _base_args self ∈ dom (run_argv self cmd h).1.
Proof.
  intros Hdom. unfold run_argv, copy, list_add.
  pose proof (deref_alloc_new h (deref h (_base_args self))) as Hnew1.
  pose proof (deref_alloc_old h (deref h (_base_args self)) _ Hdom) as Hold1.
  pose proof (alloc_dom h (deref h (_base_args self)) _ Hdom) as Hdom1.
  destruct (alloc h (deref h (_base_args self))) as [h1 a1]. cbn [fst snd] in *.
  pose proof (deref_alloc_new h1 (deref h1 a1 ++ cmd)) as Hnew2.
  pose proof (deref_alloc_old h1 (deref h1 a1 ++ cmd) _ Hdom1) as Hold2.
  pose proof (alloc_dom h1 (deref h1 a1 ++ cmd) _ Hdom1) as Hdom2.
  destruct (alloc h1 (deref h1 a1 ++ cmd)) as [h2 a2]. cbn [fst snd] in *.
  repeat split; congruence.
Qed.

Lemma run_spec (self : EtcdCtl) os cmd check env (h : Store) :
  run self os cmd check env h
  = (subprocess_run os (run_argv self cmd h).2 env check,
     (run_argv self cmd h).1).
Proof. unfold run. by destruct (run_argv self cmd h). Qed.

(** A series of calls on one instance keeps issuing the same prefix. *)
Lemma run_each_spec (self : EtcdCtl) os (cmds : list (list string)) check env
    (h : Store) :
  _base_args self ∈ dom h →
  (run_each self os cmds check env h).1
  = (λ cmd, subprocess_run os (deref h (_base_args self) ++ cmd) env check)
      <$> cmds
  ∧ deref (run_each self os cmds check env h).2 (_base_args self)
    = deref h (_base_args self).
Proof.
  revert h. induction cmds as [|cmd cmds IH]; intros h Hdom; [done|].
  destruct (run_argv_spec self cmd h Hdom) as (Hargv & Hkeep & Hdom').
  cbn [run_each]. rewrite run_spec.
  destruct (IH _ Hdom') as [Hres Hstore].
  destruct (run_each self os cmds check env (run_argv self cmd h).1)
    as [results h'].
  cbn [fst snd] in *. rewrite Hargv, Hres, Hstore, Hkeep. done.
Qed.

Lemma run_of_fresh_instance
    (environ : Environ) (cert_type : string) (h0 : Store)
    (os : OS) (cmd : list string) (check : bool) (env : Environ) :
  (run (__init__ environ cert_type h0).2 os cmd check env
       (__init__ environ cert_type h0).1).1
  = subprocess_run os
      (deref (__init__ environ cert_type h0).1
             (_base_args (__init__ environ cert_type h0).2) ++ cmd) env check
  ∧ deref (__init__ environ cert_type h0).1
          (_base_args (__init__ environ cert_type h0).2)
    = _get_base_args environ cert_type.
Proof.
  pose proof (init_base_args_dom environ cert_type h0) as Hdom.
  destruct (run_argv_spec _ cmd _ Hdom) as (Hargv & _ & _).
  rewrite run_spec. cbn [fst snd]. rewrite Hargv.
  split; [done | apply init_base_args].
Qed.

(** C8.  Every command issued through [EtcdCtl] runs under a fixed
    prefix: the argument vector handed to the operating system is the
    base arguments computed at construction followed by [cmd]; the base
    arguments begin with [sudo] and the etcdctl path; the HTTPS endpoint
    and the three TLS flags are there exactly when [DCOS_ENTERPRISE] is
    set to [true] in some mix of cases, and the plain HTTP endpoint
    otherwise; the list stored in the instance is the same after the call,
    so that every further call on the instance issues the same prefix. *)
Theorem C8_etcdctl_fixed_prefix
    (environ : Environ) (cert_type : string) (h0 : Store)
    (os : OS) (cmd : list string) (check : bool) (env : Environ) :
  let h := (__init__ environ cert_type h0).1 in
  let self := (__init__ environ cert_type h0).2 in
  let base := deref h (_base_args self) in
  (run_argv self cmd h).2 = base ++ cmd
  ∧ (run self os cmd check env h).1
    = subprocess_run os (base ++ cmd) env check
  ∧ (∃ flags, base = "sudo" :: ETCDCTL_PATH :: flags)
  ∧ (enterprise_requested environ ↔
       base = [ "sudo"; ETCDCTL_PATH;
                "--endpoints=https://127.0.0.1:2379";
                "--cert=/run/dcos/pki/tls/certs/etcd-client-"
                  +:+ cert_type +:+ ".crt";
                "--key=/run/dcos/pki/tls/private/etcd-client-"
                  +:+ cert_type +:+ ".key";
                "--cacert=/run/dcos/pki/CA/ca-bundle.crt" ])
  ∧ (¬ enterprise_requested environ ↔
       base = ["sudo"; ETCDCTL_PATH; "--endpoints=http://127.0.0.1:2379"])
  ∧ deref (run self os cmd check env h).2 (_base_args self) = base
  ∧ (∀ cmds,
       (run_each self os cmds check env h).1
       = (λ cmd, subprocess_run os (base ++ cmd) env check) <$> cmds
       ∧ deref (run_each self os cmds check env h).2 (_base_args self) = base).
Proof.
  intros h self base.
  pose proof (init_base_args environ cert_type h0) as Hbase.
  pose proof (init_base_args_dom environ cert_type h0) as Hdom.
  fold h self in Hbase, Hdom. fold base in Hbase.
  destruct (run_argv_spec self cmd h Hdom) as (Hargv & Hkeep & _).
  fold base in Hargv, Hkeep.
  pose proof (run_each_spec self os) as Heach.
  rewrite run_spec. cbn [fst snd]. rewrite Hargv.
  repeat split; try done.
  - rewrite Hbase. unfold _get_base_args.
    destruct (is_enterprise environ); simpl; eauto.
  - intros Hent. apply is_enterprise_iff in Hent.
    rewrite Hbase. unfold _get_base_args. by rewrite Hent.
  - intros Heq. apply is_enterprise_iff.
    rewrite Hbase in Heq. unfold _get_base_args in Heq.
    by destruct (is_enterprise environ).
  - intros Hent. rewrite Hbase. unfold _get_base_args.
    destruct (is_enterprise environ) eqn:E; [|done].
    by apply is_enterprise_iff in E.
  - intros Heq Hent. apply is_enterprise_iff in Hent.
    rewrite Hbase in Heq. unfold _get_base_args in Heq.
    by rewrite Hent in Heq.
  - by apply (Heach cmds check env h).
  - by apply (Heach cmds check env h).
Qed.

(** C3, as the code has it.  When the process could be started,
    [EtcdCtl.run] hands back exit code, standard output and standard
    error exactly as the process left them: in the completed process when
    [check] is off or the exit code is zero, and otherwise, with [check]
    on (the default), in the [CalledProcessError] it raises. *)
Theorem C3_run_result_verbatim
    (environ : Environ) (cert_type : string) (h0 : Store)
    (os : OS) (cmd : list string) (check : bool) (env : Environ)
    (p : Exited) :
  let h := (__init__ environ cert_type h0).1 in
  let self := (__init__ environ cert_type h0).2 in
  let argv := _get_base_args environ cert_type ++ cmd in
  os argv env = inr p →
  ((check = false ∨ exit_status p = 0) →
     (run self os cmd check env h).1
     = Returns {| args := argv; returncode := exit_status p;
                  stdout := captured_out p; stderr := captured_err p |})
  ∧ (check = true → exit_status p ≠ 0 →
     (run self os cmd check env h).1
     = Raises (CalledProcessError (exit_status p) argv
                 (captured_out p) (captured_err p))).
Proof.
  intros h self argv Hos. subst h self.
  destruct (run_of_fresh_instance environ cert_type h0 os cmd check env)
    as [Hrun Hbase].
  rewrite Hrun, Hbase. fold argv.
  unfold subprocess_run. rewrite Hos.
  split.
  - intros [-> | ->]; [done|]. by rewrite andb_false_r.
  - intros -> Hne. simpl.
    by destruct (Z.eqb_spec (exit_status p) 0).
Qed.

Lemma C3_run_result_verbatim_witness :
  (run (__init__ ∅ "root" ∅).2 (λ _ _, inr exited_ok) ["get"; "k"]
       default_check default_env (__init__ ∅ "root" ∅).1).1
  = Returns {| args := _get_base_args ∅ "root" ++ ["get"; "k"];
               returncode := 0;
               stdout := [x76; x31]; stderr := [] |}.
Proof.
  exact (proj1 (C3_run_result_verbatim ∅ "root" ∅ (λ _ _, inr exited_ok)
                  ["get"; "k"] default_check default_env exited_ok eq_refl)
               (or_intror eq_refl)).
Defined.

(** C3 as the spec words it fails: with the default [check], a command
    that exits with a non-zero status makes [run] raise; no completed
    process is returned. *)
Lemma C3_counterexample :
  ¬ ∃ completed,
      (run (__init__ ∅ "root" ∅).2 (λ _ _, inr exited_2) ["get"; "k"]
           default_check default_env (__init__ ∅ "root" ∅).1).1
      = Returns completed.
Proof.
  intros [completed Hc].
  rewrite (proj1 (run_of_fresh_instance _ _ _ _ _ _ _)) in Hc.
  discriminate Hc.
Qed.

End etcd.

(** ** The vendored VirtualBox errors (error.py) *)

Section vertigo_error.
Import VertigoError.

(** The name [filename] is neither local to [__str__], nor bound at module
    level, nor a builtin. *)
Lemma filename_unbound (frame : gmap string Value) :
  load_name RegistrationError.__str__ frame "filename"
  = Raises (NameError "filename").
Proof. reflexivity. Qed.

Lemma registration_str_raises (self : Value) :
  str_of RegistrationError.__str__ self = Raises (NameError "filename").
Proof. reflexivity. Qed.

Lemma load_local (f : Function) (frame : gmap string Value) x v :
  bool_decide (x ∈ local_names f) = true →
  frame !! x = Some v →
  load_name f frame x = Returns v.
Proof. intros Hx Hv. unfold load_name. by rewrite Hx, Hv. Qed.

Ltac load :=
  erewrite load_local; [| reflexivity | by simplify_map_eq];
  cbn -[str_builtin insert lookup].

Lemma registration_new (filename : Value) (cls : string)
    (attrs : gmap string Value) (rc out : Value) :
  attrs !! "returncode" = Some rc →
  attrs !! "output" = Some out →
  RegistrationError.new filename (VObj cls attrs)
  = Returns (VObj "RegistrationError"
               (<["msg" := out]>
                  (<["code" := VStr (str_builtin rc)]>
                     (<["filename" := filename]> ∅)))).
Proof.
  intros Hrc Hout.
  unfold RegistrationError.new, construct, call.
  cbn -[str_builtin insert lookup].
  load. load. load. rewrite Hrc. cbn -[str_builtin insert lookup].
  load. load. rewrite Hout. cbn -[str_builtin insert lookup].
  load. by simplify_map_eq.
Qed.

(** C9.  For every [RegistrationError] built from a file name and an
    error object that carries [returncode] and [output], converting the
    instance to a string raises [NameError] for the name [filename]; no
    message is returned. *)
Theorem C9_registration_error_str_raises (filename : Value) (cls : string)
    (attrs : gmap string Value) (rc out : Value) :
  attrs !! "returncode" = Some rc →
  attrs !! "output" = Some out →
  ∃ self,
    RegistrationError.new filename (VObj cls attrs) = Returns self
    ∧ str_of RegistrationError.__str__ self = Raises (NameError "filename").
Proof.
  intros Hrc Hout. eexists. split.
  - by eapply registration_new.
  - apply registration_str_raises.
Qed.

Lemma C9_registration_error_str_raises_witness :
  ∃ self,
    RegistrationError.new (VStr "machine.vbox") called_process_error
    = Returns self
    ∧ str_of RegistrationError.__str__ self = Raises (NameError "filename").
Proof.
  exact (C9_registration_error_str_raises (VStr "machine.vbox")
           "CalledProcessError"
           (<["returncode" := VInt 1]>
              (<["output" := VStr "VBoxManage: error"]> ∅))
           (VInt 1) (VStr "VBoxManage: error") eq_refl eq_refl).
Defined.

(** For contrast, a sibling class whose [__str__] reads its attributes
    through [self] renders a message. *)
Example unknown_vm_renders :
  match UnknownVMError.new (VStr "vm") (VInt 7) with
  | Returns self =>
      str_of UnknownVMError.__str__ self
      = Returns "No VM found for name vm and UUID 7"
  | Raises _ => False
  end.
Proof. reflexivity. Qed.
End vertigo_error.

(** ** The release-version generator (prepare_release.py) *)

Section prepare_release.
Import PrepareRelease.

Lemma startswith_iff (s prefix : string) :
  PyStr.startswith s prefix = true ↔ starts_with prefix s.
Proof.
  revert s. induction prefix as [|a prefix IH]; intros s; simpl.
  - split; [|by destruct s]. intros _. by exists s.
  - destruct s as [|b s].
    + split; [done|]. intros [rest Hrest]. discriminate Hrest.
    + rewrite andb_true_iff, bool_decide_eq_true, IH. split.
      * intros [-> [rest ->]]. by exists rest.
      * intros [rest [= -> ->]]. split; [done|]. by exists rest.
Qed.

Lemma filter_startswith (prefix : string) (labels : list string) :
  List.filter (λ item, PyStr.startswith item prefix) labels
  = filter (starts_with prefix) labels.
Proof.
  induction labels as [|s labels IH]; [done|]. simpl.
  rewrite filter_cons, IH.
  destruct (PyStr.startswith s prefix) eqn:E; destruct (decide _) as [Hs|Hs];
    try done.
  - destruct Hs. by apply startswith_iff.
  - apply startswith_iff in Hs. congruence.
Qed.

Lemma decode_all_well_formed (tag_list : list (list byte)) :
  Forall (λ item, utf8_well_formed (Byte.to_N <$> item) = true) tag_list →
  decode_all tag_list = Returns (string_of_list_byte <$> tag_list).
Proof.
  induction 1 as [|item items Hitem _ IH]; [done|].
  simpl. unfold decode. by rewrite Hitem, IH.
Qed.

Lemma append_nil_r (s : string) : s +:+ "" = s.
Proof.
  induction s as [|c s IH]; [done|].
  change (String c (s +:+ "") = String c s). by rewrite IH.
Qed.

Lemma strftime_date_format (d : datetime) : strftime d date_format = ymd d.
Proof.
  unfold date_format, ymd. simpl. unfold PyStr.of_nat.
  by rewrite append_nil_r.
Qed.

Lemma get_version_counts (utc_now : datetime) (tag_list : list (list byte)) :
  Forall (λ item, utf8_well_formed (Byte.to_N <$> item) = true) tag_list →
  get_version utc_now tag_list
  = Returns (ymd utc_now +:+ "." +:+
             pretty (length (filter (starts_with (ymd utc_now))
                                    (string_of_list_byte <$> tag_list)))).
Proof.
  intros Hwf. unfold get_version.
  rewrite (decode_all_well_formed _ Hwf), strftime_date_format.
  by rewrite filter_startswith.
Qed.

(** C10, as the code has it.  When every tag name of the repository
    decodes as UTF-8 and exactly [N] of the labels start with today's UTC
    date written as YYYY.MM.DD, [get_version] returns that date followed by
    a dot and [N] in decimal. *)
Theorem C10_get_version (utc_now : datetime) (tag_list : list (list byte))
    (N : nat) :
  Forall (λ item, utf8_well_formed (Byte.to_N <$> item) = true) tag_list →
  length (filter (starts_with (ymd utc_now))
                 (string_of_list_byte <$> tag_list)) = N →
  get_version utc_now tag_list = Returns (ymd utc_now +:+ "." +:+ pretty N).
Proof.
  intros Hwf HN. unfold get_version.
  rewrite (decode_all_well_formed _ Hwf), strftime_date_format.
  rewrite filter_startswith. unfold PyStr.of_nat.
  by rewrite HN.
Qed.

Lemma C10_get_version_witness :
  get_version release_day release_day_tags = Returns "2018.03.07.2".
Proof.
  refine (eq_trans (C10_get_version release_day release_day_tags 2 _ _) _).
  - repeat constructor.
  - vm_compute. reflexivity.
  - vm_compute. reflexivity.
Defined.

(** C10 as the spec words it fails: a repository whose only tag is named
    [v1-] followed by the byte E9 (an e with acute accent in Latin-1) has
    no tag that starts with today's date, yet [get_version] returns no
    version: decoding the tag name raises. *)
Lemma C10_counterexample :
  length (filter (starts_with (ymd release_day))
                 (string_of_list_byte <$> latin1_tags)) = 0%nat
  ∧ get_version release_day latin1_tags
    = Raises (UnicodeDecodeError [x76; x31; x2d; xe9])
  ∧ get_version release_day latin1_tags
    ≠ Returns (ymd release_day +:+ "." +:+ pretty 0%nat).
Proof. split; [|split]; [vm_compute; reflexivity.. | discriminate]. Qed.

(** The first release of a day ends in [.0], and every further tag of the
    day raises the last component by one. *)
Corollary first_release_of_day (utc_now : datetime)
    (tag_list : list (list byte)) :
  Forall (λ item, utf8_well_formed (Byte.to_N <$> item) = true) tag_list →
  Forall (λ label, ¬ starts_with (ymd utc_now) label)
         (string_of_list_byte <$> tag_list) →
  get_version utc_now tag_list = Returns (ymd utc_now +:+ ".0").
Proof.
  intros Hwf Hnone. rewrite (get_version_counts _ _ Hwf).
  replace (filter _ _) with (@nil string); [done|].
  induction Hnone as [|label labels Hlabel _ IH]; [done|].
  by rewrite filter_cons_False.
Qed.

Corollary next_release_of_day (utc_now : datetime)
    (tag_list : list (list byte)) (item : list byte) (N : nat) :
  Forall (λ item, utf8_well_formed (Byte.to_N <$> item) = true)
         (item :: tag_list) →
  starts_with (ymd utc_now) (string_of_list_byte item) →
  get_version utc_now tag_list = Returns (ymd utc_now +:+ "." +:+ pretty N) →
  get_version utc_now (item :: tag_list)
  = Returns (ymd utc_now +:+ "." +:+ pretty (S N)).
Proof.
  intros Hwf Hitem Hbefore.
  pose proof (Forall_inv_tail Hwf) as Hwf'.
  rewrite (get_version_counts _ _ Hwf') in Hbefore.
  injection Hbefore as Hbefore.
  apply (inj (String.app _)), (inj (String.app _)), (inj pretty) in Hbefore.
  rewrite (get_version_counts _ _ Hwf).
  rewrite fmap_cons, filter_cons_True by done. simpl. by rewrite Hbefore.
Qed.
End prepare_release.

(** ** The doctor subcommand *)

Section doctor.
Import Doctor.
Context {Env : Type}.




(** A battery whose second inspection fails: the failure is an entry. *)
Example doctor_with_a_failing_inspection :
  doctor
    [ {| name := "docker"; inspect := λ _ : bool, Returns (Pass, "") |};
      {| name := "disk";
         inspect := λ full : bool,
           if full then Returns (Warn, "free some space")
           else Raises "df not found" |} ]
    false
  = Completed
      [ {| check_name := "docker"; severity := Pass; detail := "" |};
        {| check_name := "disk"; severity := Fail;
           detail := "df not found" |} ].
Proof. reflexivity. Qed.
End doctor.

(** ** Programs and their traces *)

Section prog_facts.
Context {Cmd : Type} {Reply : Cmd → Type} {Exn : Type}.
Implicit Types t : list (Event Cmd Reply Exn).

(** Every run against a world leaves one of the traces of the program. *)
Lemma execute_emits {W A} (h : Handler Cmd Reply Exn W)
    (p : Prog Cmd Reply Exn A) (w w' : W) res t :
  execute h p w = (res, w', t) → emits p t res.
Proof.
  revert w w' res t. induction p as [a|e|c k IH]; intros w w' res t; simpl.
  - by intros [= <- _ <-].
  - by intros [= <- _ <-].
  - destruct (h w c) as [[r|e] w1].
    + destruct (execute h (k r) w1) as [[res1 w2] t1] eqn:E.
      intros [= <- _ <-]. right. exists r, t1. split; [done|]. by eapply IH.
    + intros [= <- _ <-]. left. by exists e.
Qed.

Lemma emits_bind {A B} (p : Prog Cmd Reply Exn A)
    (f : A → Prog Cmd Reply Exn B) t res :
  emits (bind p f) t res →
  (∃ e, emits p t (Raises e) ∧ res = Raises e)
  ∨ (∃ a t1 t2, emits p t1 (Returns a) ∧ emits (f a) t2 res ∧ t = t1 ++ t2).
Proof.
  revert t. induction p as [a|e|c k IH]; intros t; simpl.
  - intros Hf. right. by exists a, [], t.
  - intros [-> ->]. left. by exists e.
  - intros [(e & -> & ->) | (r & t' & -> & Hk)].
    + left. exists e. split; [|done]. left. by exists e.
    + destruct (IH r t' Hk) as [(e & He & ->) | (a & t1 & t2 & H1 & H2 & ->)].
      * left. exists e. split; [|done]. right. by exists r, t'.
      * right. exists a, (Answered c r :: t1), t2. split; [|done].
        right. by exists r, t1.
Qed.

Lemma calls_only_bind {A B} (P : Cmd → Prop) (p : Prog Cmd Reply Exn A)
    (f : A → Prog Cmd Reply Exn B) :
  calls_only P p → (∀ a, calls_only P (f a)) → calls_only P (bind p f).
Proof.
  intros Hp Hf. induction p as [a|e|c k IH]; simpl in *; [done..|].
  destruct Hp as [Hc Hk]. split; [done|]. intros r. by apply IH.
Qed.

Lemma calls_only_for_each {X} (P : Cmd → Prop) (xs : list X)
    (body : X → Prog Cmd Reply Exn unit) :
  (∀ x, calls_only P (body x)) → calls_only P (for_each xs body).
Proof.
  intros Hbody. induction xs as [|x xs IH]; simpl; [done|].
  by apply calls_only_bind.
Qed.

Lemma emits_calls_only {A} (P : Cmd → Prop) (p : Prog Cmd Reply Exn A) t res :
  calls_only P p → emits p t res → Forall (λ ev, P (event_cmd ev)) t.
Proof.
  revert t. induction p as [a|e|c k IH]; intros t; simpl.
  - by intros _ [-> _].
  - by intros _ [-> _].
  - intros [Hc Hk] [(e & -> & _) | (r & t' & -> & Hemit)].
    + by repeat constructor.
    + constructor; [done|]. by eapply IH.
Qed.

(** A loop that runs to its end has run its body to the end for every
    element. *)
Lemma emits_for_each_returns {X} (xs : list X)
    (body : X → Prog Cmd Reply Exn unit) t u :
  emits (for_each xs body) t (Returns u) →
  ∀ x, x ∈ xs → ∃ tx u', emits (body x) tx (Returns u') ∧ tx ⊆ t.
Proof.
  revert t. induction xs as [|y xs IH]; intros t Ht x Hx.
  - by apply elem_of_nil in Hx.
  - simpl in Ht. apply emits_bind in Ht.
    destruct Ht as [(e & _ & [=]) | (u1 & t1 & t2 & H1 & H2 & ->)].
    apply elem_of_cons in Hx as [-> | Hx].
    + exists t1, u1. split; [done|]. set_solver.
    + destruct (IH t2 H2 x Hx) as (tx & u' & Hx1 & Hsub).
      exists tx, u'. split; [done|]. set_solver.
Qed.

Lemma emits_perform (c : Cmd) t (r : Reply c) :
  emits (perform c) t (Returns r) → t = [Answered c r].
Proof.
  simpl. intros [(e & _ & [=]) | (r' & t' & -> & -> & [= ->])]. done.
Qed.

Lemma never_throws_bind {A B} (p : Prog Cmd Reply Exn A)
    (f : A → Prog Cmd Reply Exn B) :
  never_throws p → (∀ a, never_throws (f a)) → never_throws (bind p f).
Proof.
  intros Hp Hf. induction p as [a|e|c k IH]; simpl in *; [done..|].
  intros r. by apply IH.
Qed.

Lemma never_throws_for_each {X} (xs : list X)
    (body : X → Prog Cmd Reply Exn unit) :
  (∀ x, never_throws (body x)) → never_throws (for_each xs body).
Proof.
  intros Hbody. induction xs as [|x xs IH]; simpl; [done|].
  by apply never_throws_bind.
Qed.

(** Cutting a trace at an event that the first part cannot contain. *)
Lemma split_after_prefix (Q : Event Cmd Reply Exn → Prop) l r t1 ev t2 :
  Forall (λ x, ¬ Q x) l → Q ev → l ++ r = t1 ++ ev :: t2 →
  ∃ t1', t1 = l ++ t1' ∧ r = t1' ++ ev :: t2.
Proof.
  intros Hl Hev. revert t1.
  induction Hl as [|x l Hx _ IH]; intros t1 Heq; simpl in *.
  - by exists t1.
  - destruct t1 as [|y t1]; simplify_eq/=; [done|].
    match goal with Heq : l ++ r = _ |- _ =>
      destruct (IH t1 Heq) as (t1' & -> & ->) end.
    by exists t1'.
Qed.
End prog_facts.

(** ** The size options (cluster_size.py) *)

Section cluster_size.

Lemma to_int_proper (n : Z) :
  Z.to_int n ≠ Decimal.Pos Decimal.Nil ∧ Z.to_int n ≠ Decimal.Neg Decimal.Nil.
Proof.
  destruct n as [|p|p]; simpl; split; try discriminate;
    intros [= Hp]; by apply DecimalPos.Unsigned.to_uint_nonnil in Hp.
Qed.

Lemma numeral_unsigned (n : Z) :
  match numeral n with String "+" _ => False | _ => True end.
Proof.
  unfold numeral. destruct n as [|p|p]; simpl; try done.
  pose proof (DecimalPos.Unsigned.to_uint_nonnil p) as Hp.
  by destruct (Pos.to_uint p).
Qed.

Lemma INT_numeral (n : Z) : Click.INT (numeral n) = Returns n.
Proof.
  unfold Click.INT.
  assert (Z.of_int <$> NilZero.int_of_string (numeral n) = Some n) as Hn.
  { unfold numeral. destruct (to_int_proper n) as [Hpos Hneg].
    rewrite NilZero.isi by done. simpl. by rewrite DecimalZ.of_to. }
  pose proof (numeral_unsigned n) as Hsign.
  destruct (numeral n) as [|c rest]; [by rewrite Hn|].
  destruct c as [[] [] [] [] [] [] [] []]; try (by rewrite Hn).
  done.
Qed.

(** An option of type [click.INT] admits every integer, and hands the
    default to the command when it is left out. *)
Lemma consume_numeral (o : Click.IntOption) (n : Z) :
  Click.consume o (Some (numeral n)) = Returns n.
Proof. apply INT_numeral. Qed.
End cluster_size.

(** ** Creating a cluster with the Docker backend (create.py) *)

Section docker_create.
Import DockerCreate.
Context `{Common}.

Implicit Types t : list (Event Cmd Reply Exn).

#[local] Abbreviation perform := (@perform Cmd Reply Exn).
#[local] Abbreviation for_each := (@for_each Cmd Reply Exn).

Lemma add_authorized_key_calls (cluster : Cluster.t) (path : Path) :
  calls_only key_cmd (_add_authorized_key cluster path).
Proof.
  unfold _add_authorized_key. apply calls_only_for_each.
  intros node. simpl. repeat split.
Qed.

Lemma send_files_calls (a : Args.t) (nodes : list Node) :
  calls_only is_send_file
    (for_each nodes (λ node,
       for_each (Args.copy_to_master a) (λ path_pair,
         let '(local_path, remote_path) := path_pair in
         perform (node_send_file node local_path remote_path)))).
Proof.
  apply calls_only_for_each. intros node.
  apply calls_only_for_each. intros [l r]. simpl. repeat split.
Qed.

Lemma send_files_all (a : Args.t) (nodes : list Node) t u :
  emits
    (for_each nodes (λ node,
       for_each (Args.copy_to_master a) (λ path_pair,
         let '(local_path, remote_path) := path_pair in
         perform (node_send_file node local_path remote_path)))) t (Returns u) →
  ∀ node l r, node ∈ nodes → (l, r) ∈ Args.copy_to_master a →
    Answered (node_send_file node l r) tt ∈ t.
Proof.
  intros Ht node l r Hnode Hpair.
  destruct (emits_for_each_returns _ _ _ _ Ht node Hnode)
    as (t1 & u1 & Ht1 & Hsub1).
  destruct (emits_for_each_returns _ _ _ _ Ht1 (l, r) Hpair)
    as (t2 & u2 & Ht2 & Hsub2).
  apply (emits_perform (node_send_file node l r) t2 u2) in Ht2.
  subst t2. destruct u2. set_solver.
Qed.

Ltac prelude_events :=
  repeat (constructor; [exact I|]); try constructor.

(** A run that stops in the prelude. *)
Ltac stopped_early :=
  eexists; split;
  [| left; split; [reflexivity | eexists; reflexivity]];
  prelude_events.

Ltac next_call H :=
  let e := fresh "e" in
  destruct H as [(e & -> & ->) | (? & ? & -> & H)]; [stopped_early|].

Lemma create_emits_shape (a : Args.t) t res :
  emits (create a) t res → create_shape a t res.
Proof.
  unfold create. simpl. intros H0.
  destruct H0 as [(e & -> & ->) | (ids & t0 & -> & H0)]; [stopped_early|].
  unfold check_cluster_id_unique in H0.
  destruct (decide (Args.cluster_id a ∈ ids)) as [Hid|Hid];
    [rewrite (bool_decide_eq_true_2 _ Hid) in H0
    |rewrite (bool_decide_eq_false_2 _ Hid) in H0]; simpl in H0.
  { destruct H0 as [-> ->]. stopped_early. }
  do 6 next_call H0.
  match goal with
  | |- create_shape _ (?e0 :: ?e1 :: ?e2 :: ?e3 :: ?e4 :: ?e5 :: ?e6 :: _) _ =>
      exists [e0; e1; e2; e3; e4; e5; e6]; split; [prelude_events|];
      right; exists ids, [e1; e2; e3; e4; e5; e6]
  end.
  eexists. split; [reflexivity|]. split; [done|].
  destruct H0 as [(e & -> & ->) | (cluster & rest & -> & H0)].
  { left. by exists e. }
  right. exists cluster, rest. split; [done|].
  unfold mbind, M_bind in H0.
  apply emits_bind in H0.
  destruct H0 as [(e & Hk & ->) | (u & keys & t2 & Hk & H0 & ->)].
  { exists rest. split.
    - eapply emits_calls_only; [apply add_authorized_key_calls | done].
    - left. split; [done | by exists e]. }
  exists keys. split.
  { eapply emits_calls_only; [apply add_authorized_key_calls | done]. }
  right. apply emits_bind in H0.
  destruct H0 as [(e & Hs & ->) | (u' & sends & tail & Hs & H0 & ->)].
  { exists t2. split.
    - eapply emits_calls_only; [apply send_files_calls | done].
    - left. split; [done | by exists e]. }
  exists sends. split.
  { eapply emits_calls_only; [apply send_files_calls | done]. }
  right. split.
  { intros node l r Hnode Hpair. by eapply send_files_all. }
  exists tail. split; [done|]. simpl in H0.
  destruct H0 as [(e & -> & ->) | (cfg & t3 & -> & H0)].
  { left. by repeat eexists. }
  right. do 6 eexists.
  destruct H0 as [(e & -> & ->) | (r1 & t4 & -> & H0)].
  { do 2 eexists. split; [|split; [reflexivity | constructor]]. reflexivity. }
  destruct H0 as [(e & -> & ->) | (r2 & t5 & -> & -> & ->)].
  { do 2 eexists.
    split; [|split; [reflexivity | by repeat constructor]]. reflexivity. }
  do 2 eexists.
  split; [|split; [reflexivity | by repeat constructor]]. reflexivity.
Qed.

(** Events of one kind are not events of another. *)
Lemma kinds_apart (P Q : Cmd → Prop) t :
  (∀ c, P c → ¬ Q c) → Forall (on P) t → Forall (λ ev, ¬ on Q ev) t.
Proof.
  intros HPQ Ht. eapply Forall_impl; [done|]. intros ev. apply HPQ.
Qed.

Lemma absent_from_trace (Q : Cmd → Prop) t t1 ev t2 :
  Forall (λ ev, ¬ on Q ev) t → t = t1 ++ ev :: t2 → ¬ on Q ev.
Proof.
  intros Ht ->. rewrite Forall_app, Forall_cons in Ht. tauto.
Qed.

Ltac apart :=
  let c := fresh "c" in intros c; destruct c; simpl; tauto.

Ltac each_event :=
  repeat match goal with
    | |- Forall _ (_ ++ _) => apply Forall_app; split
    | |- Forall _ (_ :: _) => constructor
    | |- Forall _ [] => constructor
    | |- ¬ on _ _ => by intros []
    | |- on _ _ => exact I
    | _ => assumption
    end.

Lemma copy_before_install (a : Args.t) t res :
  emits (create a) t res →
  (∀ t1 ev t2, t = t1 ++ ev :: t2 → on is_install ev →
     (∃ msg cluster,
        Answered (create_cluster (cluster_backend_of a) (Args.masters a)
                    (Args.agents a) (Args.public_agents a) msg) cluster ∈ t1
        ∧ ∀ node l r, node ∈ Cluster.masters cluster →
            (l, r) ∈ Args.copy_to_master a →
            Answered (node_send_file node l r) tt ∈ t1)
     ∧ (∃ t0 x y z u v cfg,
          t1 = t0 ++ [Answered (get_config x y z u v) cfg]
          ∧ is_install_of cfg (event_cmd ev))
     ∧ Forall (λ e, ¬ on is_install e) t1
     ∧ Forall (λ e, ¬ on is_install e ∧ ¬ on is_send_file e) t2)
  ∧ (res = Returns tt → ∃ t1 ev t2, t = t1 ++ ev :: t2 ∧ on is_install ev).
Proof.
  intros Hemits. apply create_emits_shape in Hemits.
  destruct Hemits as (pre & Hpre & Hshape).
  assert (Forall (λ e, ¬ on is_install e) pre) as Hpre'.
  { eapply kinds_apart; [|done]. apart. }
  destruct Hshape as [[-> [e ->]] | (ids & pre' & msg & Epre & Hid & Hshape)].
  { split; [|done]. intros t1 ev t2 Ht Hev.
    by destruct (absent_from_trace is_install _ _ _ _ Hpre' Ht). }
  destruct Hshape as [(e & -> & ->) | (cluster & rest & -> & Hafter)].
  { split; [|done]. intros t1 ev t2 Ht Hev.
    eapply absent_from_trace in Ht; [done|]. each_event. }
  destruct Hafter as (keys & Hkeys & Hafter).
  assert (Forall (λ e, ¬ on is_install e) keys) as Hkeys'.
  { eapply kinds_apart; [|done]. apart. }
  destruct Hafter as [[-> [e ->]] | (sends & Hsends & Hafter)].
  { split; [|done]. intros t1 ev t2 Ht Hev.
    eapply absent_from_trace in Ht; [done|]. each_event. }
  assert (Forall (λ e, ¬ on is_install e) sends) as Hsends'.
  { eapply kinds_apart; [|done]. apart. }
  destruct Hafter as [[-> [e ->]] | (Hall & tail & -> & Hfinish)].
  { split; [|done]. intros t1 ev t2 Ht Hev.
    eapply absent_from_trace in Ht; [done|]. each_event. }
  destruct Hfinish as [(x & y & z & u & v & e & -> & ->)
                      | (x & y & z & u & v & cfg & inst & last
                         & Hinst & -> & Hlast)].
  { split; [|done]. intros t1 ev t2 Ht Hev.
    eapply absent_from_trace in Ht; [done|]. each_event. }
  assert (on is_install inst) as Hinst'.
  { unfold on. destruct (event_cmd inst); simpl in *; done. }
  assert (Forall (λ e, ¬ on is_install e ∧ ¬ on is_send_file e) last) as Hlast'.
  { eapply Forall_impl; [done|]. intros ev. unfold on.
    destruct (event_cmd ev); simpl; tauto. }
  set (cc := Answered (create_cluster _ _ _ _ _) cluster).
  set (gc := Answered (get_config x y z u v) cfg).
  assert (Forall (λ e, ¬ on is_install e) (pre ++ cc :: keys ++ sends ++ [gc]))
    as Hbefore.
  { subst cc gc. each_event. }
  split.
  - intros t1 ev t2 Ht Hev.
    assert ((pre ++ cc :: keys ++ sends ++ [gc]) ++ inst :: last
            = t1 ++ ev :: t2) as Ht'.
    { rewrite <- Ht. by rewrite <- !app_assoc, <- !app_comm_cons, <- !app_assoc. }
    apply (split_after_prefix (on is_install)) in Ht'; [|done..].
    destruct Ht' as (t1' & -> & Ht').
    destruct t1' as [|ev' t1'].
    + simpl in Ht'. injection Ht' as <- <-. rewrite app_nil_r.
      split; [|split; [|done]].
      * exists msg, cluster. split; [set_solver|].
        intros node l r Hnode Hpair. specialize (Hall node l r Hnode Hpair).
        set_solver.
      * exists (pre ++ cc :: keys ++ sends), x, y, z, u, v, cfg.
        split; [|done].
        by rewrite <- !app_assoc, <- !app_comm_cons, <- !app_assoc.
    + injection Ht' as <- ->.
      apply Forall_app in Hlast' as [_ Hlast'].
      apply Forall_cons in Hlast' as [[Hno _] _]. done.
  - intros _. exists (pre ++ cc :: keys ++ sends ++ [gc]), inst, last.
    split; [|done].
    by rewrite <- !app_assoc, <- !app_comm_cons, <- !app_assoc.
Qed.

(** A run of [create] provisions at most once, with the backend built
    from its parameters, after the enumeration of the existing ids and
    only when the requested id was not among them. *)
Lemma provisioning_once (a : Args.t) t res :
  emits (create a) t res →
  (Forall (λ e, ¬ on is_create_cluster e) t ∧ failed res)
  ∨ ∃ ids pre' msg ev rest,
      t = (Answered existing_cluster_ids ids :: pre') ++ ev :: rest
      ∧ (Args.cluster_id a ∉ ids)
      ∧ Forall (λ e, ¬ on is_create_cluster e) pre'
      ∧ Forall (λ e, ¬ on is_create_cluster e) rest
      ∧ ((∃ e, ev = Raised (create_cluster (cluster_backend_of a)
                              (Args.masters a) (Args.agents a)
                              (Args.public_agents a) msg) e
               ∧ rest = [] ∧ res = Raises e)
         ∨ ∃ cluster,
             ev = Answered (create_cluster (cluster_backend_of a)
                              (Args.masters a) (Args.agents a)
                              (Args.public_agents a) msg) cluster).
Proof.
  intros Hemits. apply create_emits_shape in Hemits.
  destruct Hemits as (pre & Hpre & Hshape).
  assert (Forall (λ e, ¬ on is_create_cluster e) pre) as Hpre'.
  { eapply kinds_apart; [|done]. apart. }
  destruct Hshape as [[-> Hres] | (ids & pre' & msg & -> & Hid & Hshape)].
  { by left. }
  right. exists ids, pre', msg.
  apply Forall_cons in Hpre' as [_ Hpre'].
  destruct Hshape as [(e & -> & ->) | (cluster & rest & -> & Hafter)].
  { eexists _, []. split; [done|]. do 3 (split; [done|]). left. by exists e. }
  eexists _, rest. split; [done|]. do 2 (split; [done|]).
  split; [|right; by exists cluster].
  destruct Hafter as (keys & Hkeys & Hafter).
  assert (Forall (λ e, ¬ on is_create_cluster e) keys) as Hkeys'.
  { eapply kinds_apart; [|done]. apart. }
  destruct Hafter as [[-> _] | (sends & Hsends & Hafter)]; [done|].
  assert (Forall (λ e, ¬ on is_create_cluster e) sends) as Hsends'.
  { eapply kinds_apart; [|done]. apart. }
  destruct Hafter as [[-> _] | (_ & tail & -> & Hfinish)]; [each_event|].
  destruct Hfinish as [(x & y & z & u & v & e & -> & _)
                      | (x & y & z & u & v & cfg & inst & last
                         & Hinst & -> & Hlast)]; [each_event|].
  each_event.
  - unfold on. destruct (event_cmd inst); simpl in *; tauto.
  - eapply kinds_apart; [|done]. apart.
Qed.

Lemma check_before_provisioning (a : Args.t) t res :
  emits (create a) t res →
  ∀ t1 ev t2, t = t1 ++ ev :: t2 → on is_create_cluster ev →
    ∃ ids t1',
      t1 = Answered existing_cluster_ids ids :: t1'
      ∧ (Args.cluster_id a ∉ ids)
      ∧ Forall (λ e, ¬ on is_create_cluster e) t1'
      ∧ Forall (λ e, ¬ on is_create_cluster e) t2.
Proof.
  intros Hemits t1 ev t2 Ht Hev.
  destruct (provisioning_once _ _ _ Hemits)
    as [[Hnone _] | (ids & pre' & msg & cc & rest & -> & Hid & Hpre' & Hrest & _)].
  { by destruct (absent_from_trace is_create_cluster _ _ _ _ Hnone Ht). }
  apply (split_after_prefix (on is_create_cluster)) in Ht;
    [| each_event | done].
  destruct Ht as (t1' & -> & Ht).
  destruct t1' as [|ev' t1'].
  - simpl in Ht. injection Ht as <- <-. rewrite app_nil_r.
    by exists ids, pre'.
  - injection Ht as <- ->.
    apply Forall_app in Hrest as [_ Hrest].
    apply Forall_cons in Hrest as [Hno _]. done.
Qed.

(** A request whose id is enumerated is refused at once. *)
Lemma enumerated_id_refused {W} (h : Handler Cmd Reply Exn W) (w w1 : W)
    (a : Args.t) (ids : gset string) :
  h w existing_cluster_ids = (Returns ids, w1) →
  Args.cluster_id a ∈ ids →
  ∃ e, execute h (create a) w
       = (Raises (UsageError e), w1, [Answered existing_cluster_ids ids]).
Proof.
  intros Hq Hin. unfold create. simpl. rewrite Hq.
  unfold check_cluster_id_unique.
  rewrite (bool_decide_eq_true_2 _ Hin). simpl. by eexists.
Qed.

(** *** The container engine during a run *)

Lemma provision_same_setup (w w' : World) b m ag pa :
  same_setup w w' → provision w' b m ag pa = provision w b m ag pa.
Proof. intros (_ & _ & Hid & _). unfold provision. by rewrite Hid. Qed.

Lemma allocation_same_setup (w w' : World) ev :
  same_setup w w' → allocation w' ev = allocation w ev.
Proof.
  intros Hs. pose proof Hs as (_ & Hk & _).
  destruct ev as [c r|c e]; destruct c; simpl; try done.
  - by apply provision_same_setup.
  - by rewrite Hk, (provision_same_setup w w').
Qed.

Lemma handler_effect (w : World) (c : Cmd) :
  same_setup w (handler w c).2
  ∧ containers (handler w c).2
    = containers w
        ++ allocation w
             match (handler w c).1 with
             | Returns r => Answered c r
             | Raises e => Raised c e
             end.
Proof.
  unfold handler. destruct (raising w c); simpl.
  - destruct c; simpl; by rewrite ?app_nil_r.
  - destruct c; simpl; by rewrite ?app_nil_r.
Qed.

Lemma execute_containers {A} (p : M A) (w w' : World) res t :
  execute handler p w = (res, w', t) →
  same_setup w w'
  ∧ containers w' = containers w ++ concat (allocation w <$> t).
Proof.
  revert w w' res t. induction p as [x|e|c k IH]; intros w w' res t; simpl.
  - intros [= _ <- <-]. by rewrite app_nil_r.
  - intros [= _ <- <-]. by rewrite app_nil_r.
  - pose proof (handler_effect w c) as [Hsame Hcs].
    destruct (handler w c) as [[r|e] w1]; simpl in *.
    + destruct (execute handler (k r) w1) as [[res1 w2] t1] eqn:E.
      intros [= _ <- <-].
      destruct (IH r _ _ _ _ E) as [Hsame' Hcs'].
      split.
      * destruct Hsame as (? & ? & ? & ?), Hsame' as (? & ? & ? & ?).
        repeat split; congruence.
      * rewrite Hcs', Hcs. simpl. rewrite <- app_assoc. do 2 f_equal.
        f_equal. apply list_fmap_ext. intros _ ev _.
        by apply allocation_same_setup.
    + intros [= _ <- <-]. simpl. by rewrite app_nil_r.
Qed.

Lemma allocation_none (w : World) t :
  Forall (λ e, ¬ on is_create_cluster e) t → concat (allocation w <$> t) = [].
Proof.
  induction 1 as [|ev t Hev _ IH]; [done|].
  rewrite fmap_cons. cbn [concat]. rewrite IH, app_nil_r.
  destruct ev as [c r|c e]; destruct c; simpl; try done;
    by destruct Hev.
Qed.

(** *** Labels *)

Lemma backend_labels (a : Args.t) (r : Role) :
  label_keys_distinct →
  let labels := role_labels (cluster_backend_of a) r
                  ∪ Docker.docker_container_labels (cluster_backend_of a) in
  labels !! CLUSTER_ID_LABEL_KEY = Some (Args.cluster_id a)
  ∧ labels !! WORKSPACE_DIR_LABEL_KEY = Some (str_path (Args.workspace_dir a))
  ∧ labels !! NODE_TYPE_LABEL_KEY = Some (node_type_value r).
Proof.
  intros (Hcw & Hnc & Hnw) labels. subst labels.
  rewrite !lookup_union. destruct r; simpl; by simplify_map_eq.
Qed.

Lemma provision_tagged (w : World) (a : Args.t) m ag pa :
  label_keys_distinct →
  Forall (tagged a) (provision w (cluster_backend_of a) m ag pa).
Proof.
  intros Hkeys. unfold provision.
  rewrite !Forall_app, !Forall_fmap.
  repeat split; apply Forall_forall; intros i _;
    apply (backend_labels a _ Hkeys).
Qed.

Lemma provision_length (w : World) b m ag pa :
  length (provision w b m ag pa)
  = (Z.to_nat m + Z.to_nat ag + Z.to_nat pa)%nat.
Proof.
  unfold provision.
  rewrite !length_app, !length_fmap, !length_seq. lia.
Qed.

Lemma created_cluster_recoverable (a : Args.t) (w : World)
    (old new : list Container) :
  containers w = old ++ new → new ≠ [] → Forall (tagged a) new →
  Args.cluster_id a ∈ cluster_ids w.
Proof.
  intros Hcs Hne Htagged. destruct new as [|c new]; [done|].
  apply Forall_cons in Htagged as [(Hid & _) _].
  unfold cluster_ids. rewrite elem_of_list_to_set, list_elem_of_omap.
  exists c. split; [|done]. rewrite Hcs. set_solver.
Qed.

(** What a run of [create] leaves in the engine. *)
Lemma create_allocates (w : World) (a : Args.t) res w' t :
  execute handler (create a) w = (res, w', t) →
  ∃ new,
    containers w' = containers w ++ new
    ∧ (new = [] ∧ failed res
       ∨ new = take (allocated_before_failure w)
                 (provision w (cluster_backend_of a) (Args.masters a)
                    (Args.agents a) (Args.public_agents a))
         ∧ failed res
       ∨ new = provision w (cluster_backend_of a) (Args.masters a)
                 (Args.agents a) (Args.public_agents a)).
Proof.
  intros E. pose proof (execute_containers _ _ _ _ _ E) as [_ Hcs].
  apply execute_emits in E.
  destruct (provisioning_once _ _ _ E)
    as [[Hnone Hres]
       | (ids & pre' & msg & ev & rest & -> & Hid & Hpre' & Hrest & Hev)].
  { exists []. rewrite Hcs, allocation_none by done. split; [done|]. by left. }
  rewrite fmap_app, concat_app, fmap_cons in Hcs. simpl in Hcs.
  rewrite !allocation_none in Hcs by done.
  rewrite app_nil_r in Hcs. simpl in Hcs.
  eexists. split; [exact Hcs|].
  destruct Hev as [(e & -> & -> & ->) | (cluster & ->)]; simpl.
  - right. left. split; [done | by exists e].
  - by do 2 right.
Qed.

(** C1.  Every container that a run of [create] leaves in the engine,
    whether the run completes or stops partway, carries the cluster id,
    the workspace directory and the label of its own role; a run that
    completes has allocated the requested numbers of nodes; and as soon
    as one container is allocated the cluster id can be enumerated from
    the engine's labels. *)
Theorem C1_containers_labelled (w : World) (a : Args.t) :
  label_keys_distinct →
  let res := (execute handler (create a) w).1.1 in
  let w' := (execute handler (create a) w).1.2 in
  ∃ new,
    containers w' = containers w ++ new
    ∧ Forall (tagged a) new
    ∧ (res = Returns tt →
         new = provision w (cluster_backend_of a) (Args.masters a)
                 (Args.agents a) (Args.public_agents a)
         ∧ length new = (Z.to_nat (Args.masters a)
                         + Z.to_nat (Args.agents a)
                         + Z.to_nat (Args.public_agents a))%nat)
    ∧ (new ≠ [] → Args.cluster_id a ∈ cluster_ids w').
Proof.
  intros Hkeys res w'. subst res w'.
  destruct (execute handler (create a) w) as [[res w'] t] eqn:E. simpl.
  destruct (create_allocates _ _ _ _ _ E) as (new & Hcs & Hnew).
  pose proof (provision_tagged w a (Args.masters a) (Args.agents a)
                (Args.public_agents a) Hkeys) as Hall.
  assert (Forall (tagged a) new) as Htagged.
  { destruct Hnew as [[-> _] | [[-> _] | ->]]; [constructor | | done].
    by apply Forall_take. }
  exists new. split; [done|]. split; [done|]. split.
  - intros ->.
    destruct Hnew as [[_ [e [=]]] | [[_ [e [=]]] | ->]].
    split; [done | apply provision_length].
  - intros Hne. by eapply created_cluster_recoverable.
Qed.

(** *** Two requests for the same id *)

Lemma both_requests_provision (a : Args.t) :
  let provisioned :=
    provision quiet_world (cluster_backend_of a) (Args.masters a)
      (Args.agents a) (Args.public_agents a) in
  let r := interleave handler race_schedule (create a) (create a)
             quiet_world [] [] in
  (∃ msg, last r.1.2 = Some (Answered
            (create_cluster (cluster_backend_of a) (Args.masters a)
               (Args.agents a) (Args.public_agents a) msg)
            (cluster_of provisioned)))
  ∧ (∃ msg, last r.2 = Some (Answered
            (create_cluster (cluster_backend_of a) (Args.masters a)
               (Args.agents a) (Args.public_agents a) msg)
            (cluster_of provisioned)))
  ∧ containers r.1.1.2 = provisioned ++ provisioned.
Proof.
  intros provisioned r. subst r provisioned.
  split; [|split]; [eexists | eexists | ]; reflexivity.
Qed.

(** *** Runs in which nothing fails *)

Lemma execute_returns {A} (p : M A) (w : World) :
  never_throws p → raising w = (λ _, false) →
  ∃ x w' t, execute handler p w = (Returns x, w', t).
Proof.
  revert w. induction p as [x|e|c k IH]; intros w Hp Hw; simpl in *.
  - by eexists _, _, _.
  - done.
  - pose proof (handler_effect w c) as [(Hr & _) _].
    unfold handler in *. rewrite Hw in *. simpl in *.
    destruct (IH (answer_of w c) (effect w c true) (Hp _))
      as (x & w' & t & E); [by rewrite Hr|].
    rewrite E. by eexists _, _, _.
Qed.

Lemma execute_call {A} (c : Cmd) (k : Reply c → M A) (w : World) :
  execute handler (Call c k) w
  = match handler w c with
    | (Returns r, w') =>
        let '(res, w'', t) := execute handler (k r) w' in
        (res, w'', Answered c r :: t)
    | (Raises e, w') => (Raises e, w', [Raised c e])
    end.
Proof. reflexivity. Qed.

Lemma create_completes (a : Args.t) (w : World) :
  raising w = (λ _, false) →
  Args.cluster_id a ∉ cluster_ids w →
  ∃ w' t, execute handler (create a) w = (Returns tt, w', t).
Proof.
  intros Hw Hid. unfold create. cbn -[execute handler].
  rewrite execute_call. unfold handler at 1. rewrite Hw.
  cbn -[execute handler].
  unfold check_cluster_id_unique.
  rewrite (bool_decide_eq_false_2 _ Hid). cbn -[execute handler].
  match goal with
  | |- context [execute handler ?p ?w0] =>
      destruct (execute_returns p w0) as ([] & w' & t & E)
  end.
  - simpl. intros ? ? ? ? ? ? cluster.
    unfold mbind, M_bind. apply never_throws_bind.
    { unfold _add_authorized_key. apply never_throws_for_each.
      intros node. by simpl. }
    intros _. apply never_throws_bind.
    { apply never_throws_for_each. intros node.
      apply never_throws_for_each. intros [lp rp]. by simpl. }
    intros _. by simpl.
  - done.
  - rewrite E. by eexists _, _.
Qed.

Lemma same_setup_trans (w w1 w2 : World) :
  same_setup w w1 → same_setup w1 w2 → same_setup w w2.
Proof.
  intros (? & ? & ? & ?) (? & ? & ? & ?). repeat split; congruence.
Qed.

Lemma execute_answers {A} (p : M A) (w w' : World) res t :
  execute handler p w = (res, w', t) → Forall (engine_answer w) t.
Proof.
  revert w w' res t. induction p as [x|e|c k IH]; intros w w' res t; simpl.
  - intros [= _ _ <-]. constructor.
  - intros [= _ _ <-]. constructor.
  - pose proof (handler_effect w c) as [Hsame _].
    assert (∀ r w1, handler w c = (Returns r, w1) → r = answer_of w c) as Hr.
    { unfold handler. destruct (raising w c); [done|]. by intros r w1 [= <- _]. }
    destruct (handler w c) as [[r|e] w1]; simpl in Hsame.
    + destruct (execute handler (k r) w1) as [[res1 w2] t1] eqn:E.
      intros [= _ _ <-]. constructor.
      * exists w. split; [done | by eapply Hr].
      * eapply Forall_impl; [by eapply IH|].
        intros [c' r'|c' e']; simpl; [|done].
        intros (w3 & Hs1 & ->). exists w3. split; [|done].
        by eapply same_setup_trans.
    + intros [= _ _ <-]. by repeat constructor.
Qed.

Lemma filter_role_allocated (f : nat → Container) (r r' : Role)
    (l : list nat) :
  (∀ i, container_role (f i) = r') →
  length (List.filter (λ c, bool_decide (container_role c = r)) (f <$> l))
  = if decide (r' = r) then length l else 0%nat.
Proof.
  intros Hrole. induction l as [|i l IH].
  - by destruct (decide _).
  - rewrite fmap_cons. cbn [List.filter]. rewrite Hrole.
    destruct (decide (r' = r)) as [Heq|Hne].
    + rewrite (bool_decide_eq_true_2 _ Heq). simpl. by rewrite IH.
    + by rewrite (bool_decide_eq_false_2 _ Hne).
Qed.

Lemma provisioned_roles (w : World) b m ag pa :
  let cluster := cluster_of (provision w b m ag pa) in
  length (Cluster.masters cluster) = Z.to_nat m
  ∧ length (Cluster.agents cluster) = Z.to_nat ag
  ∧ length (Cluster.public_agents cluster) = Z.to_nat pa.
Proof.
  unfold cluster_of, provision, nodes_with_role. simpl.
  rewrite !length_fmap, !List.filter_app, !length_app.
  repeat split.
  all: rewrite (filter_role_allocated _ _ Master) by done.
  all: rewrite (filter_role_allocated _ _ Agent) by done.
  all: rewrite (filter_role_allocated _ _ PublicAgent) by done.
  all: rewrite !length_seq; simpl; lia.
Qed.

(** With no failure and an id that is not yet enumerated, [create] runs
    to its end and provisions once, with the counts it was given. *)
Lemma create_fault_free (a : Args.t) (w : World) :
  raising w = (λ _, false) →
  Args.cluster_id a ∉ cluster_ids w →
  let provisioned :=
    provision w (cluster_backend_of a) (Args.masters a) (Args.agents a)
      (Args.public_agents a) in
  ∃ w' t1 msg t2,
    execute handler (create a) w
    = (Returns tt, w',
       t1 ++ Answered (create_cluster (cluster_backend_of a) (Args.masters a)
                         (Args.agents a) (Args.public_agents a) msg)
                      (cluster_of provisioned) :: t2)
    ∧ containers w' = containers w ++ provisioned.
Proof.
  intros Hw Hid provisioned.
  destruct (create_completes a w Hw Hid) as (w' & t & E).
  pose proof (execute_answers _ _ _ _ _ E) as Hanswers.
  destruct (create_allocates _ _ _ _ _ E) as (new & Hcs & Hnew).
  pose proof (execute_emits _ _ _ _ _ _ E) as Hemits.
  destruct (provisioning_once _ _ _ Hemits)
    as [[_ [e [=]]]
       | (ids & pre' & msg & ev & rest & -> & _ & _ & _ & Hev)].
  destruct Hev as [(e & _ & _ & [=]) | (cluster & ->)].
  apply Forall_app in Hanswers as [_ Hanswers].
  apply Forall_cons in Hanswers as [(w1 & Hs1 & ->) _].
  cbn [answer_of] in E. rewrite (provision_same_setup w w1) in E by done.
  exists w', (Answered existing_cluster_ids ids :: pre'), msg, rest.
  split; [exact E|].
  by destruct Hnew as [[_ [e [=]]] | [[_ [e [=]]] | ->]].
Qed.

(** C4.  Whatever the outside world does, in a run of [create] every
    invocation of the installer comes after the cluster was allocated and
    after every requested file was sent to every master; the
    configuration is generated immediately before it and is the one the
    installer is given; nothing is sent and the installer is not invoked
    again afterwards.  A run that returns has invoked the installer, and
    on an engine where nothing fails and the id is free the run returns. *)
Theorem C4_copy_before_install {W} (h : Handler Cmd Reply Exn W) (w : W)
    (a : Args.t) :
  let res := (execute h (create a) w).1.1 in
  let t := (execute h (create a) w).2 in
  (∀ t1 ev t2, t = t1 ++ ev :: t2 → on is_install ev →
     (∃ msg cluster,
        Answered (create_cluster (cluster_backend_of a) (Args.masters a)
                    (Args.agents a) (Args.public_agents a) msg) cluster ∈ t1
        ∧ ∀ node l r, node ∈ Cluster.masters cluster →
            (l, r) ∈ Args.copy_to_master a →
            Answered (node_send_file node l r) tt ∈ t1)
     ∧ (∃ t0 x y z u v cfg,
          t1 = t0 ++ [Answered (get_config x y z u v) cfg]
          ∧ is_install_of cfg (event_cmd ev))
     ∧ Forall (λ e, ¬ on is_install e) t1
     ∧ Forall (λ e, ¬ on is_install e ∧ ¬ on is_send_file e) t2)
  ∧ (res = Returns tt → ∃ t1 ev t2, t = t1 ++ ev :: t2 ∧ on is_install ev)
  ∧ (∀ engine : World,
       raising engine = (λ _, false) →
       Args.cluster_id a ∉ cluster_ids engine →
       (execute handler (create a) engine).1.1 = Returns tt).
Proof.
  intros res t. subst res t.
  destruct (execute h (create a) w) as [[res w'] t] eqn:E. cbn [fst snd].
  apply execute_emits in E.
  destruct (copy_before_install a t res E) as [Horder Honce].
  split; [exact Horder | split; [exact Honce|]].
  intros engine Hquiet Hfree.
  destruct (create_completes a engine Hquiet Hfree) as (w1 & t1 & ->). done.
Qed.

(** C2.  In every run of [create], provisioning comes after the
    enumeration of the existing cluster ids, which is the first call, and
    happens only when the requested id was not among the enumerated ones;
    an id that is enumerated is refused with no further call.  Nothing
    else excludes a second cluster with the same id: two requests that
    both enumerate before either provisions both provision. *)
Theorem C2_uniqueness_checked_before_provisioning
    {W} (h : Handler Cmd Reply Exn W) (w : W) (a : Args.t) :
  let t := (execute h (create a) w).2 in
  (∀ t1 ev t2, t = t1 ++ ev :: t2 → on is_create_cluster ev →
     ∃ ids t1',
       t1 = Answered existing_cluster_ids ids :: t1'
       ∧ (Args.cluster_id a ∉ ids)
       ∧ Forall (λ e, ¬ on is_create_cluster e) t1'
       ∧ Forall (λ e, ¬ on is_create_cluster e) t2)
  ∧ (∀ ids w1, h w existing_cluster_ids = (Returns ids, w1) →
       Args.cluster_id a ∈ ids →
       ∃ e, execute h (create a) w
            = (Raises (UsageError e), w1,
               [Answered existing_cluster_ids ids]))
  ∧ (let provisioned :=
       provision quiet_world (cluster_backend_of a) (Args.masters a)
         (Args.agents a) (Args.public_agents a) in
     let r := interleave handler race_schedule (create a) (create a)
                quiet_world [] [] in
     (∃ msg, last r.1.2 = Some (Answered
               (create_cluster (cluster_backend_of a) (Args.masters a)
                  (Args.agents a) (Args.public_agents a) msg)
               (cluster_of provisioned)))
     ∧ (∃ msg, last r.2 = Some (Answered
               (create_cluster (cluster_backend_of a) (Args.masters a)
                  (Args.agents a) (Args.public_agents a) msg)
               (cluster_of provisioned)))
     ∧ containers r.1.1.2 = provisioned ++ provisioned).
Proof.
  intros t. subst t. split; [|split].
  - destruct (execute h (create a) w) as [[res w'] t] eqn:E.
    apply execute_emits in E. by eapply check_before_provisioning.
  - intros ids w1. apply enumerated_id_refused.
  - apply both_requests_provision.
Qed.

Lemma create_command_numerals (rest : Args.t) (m ag pa : Z) :
  create_command (Some (numeral m)) (Some (numeral ag)) (Some (numeral pa))
    rest
  = create (with_sizes rest m ag pa).
Proof. unfold create_command. by rewrite !consume_numeral. Qed.

(** C5, as the code has it.  The size options admit every integer and
    default to 1; [create] hands the counts to provisioning as they are.
    In a world where nothing fails and the id is free, a request with any
    masters count, also one below 1, runs to its end, and the cluster it
    provisions has as many masters as the count says: none when the count
    is below 1.  Agent and public-agent counts of zero are accepted the
    same way. *)
Theorem C5_masters_count_not_bounded (rest : Args.t) (m ag pa : Z)
    (w : World) :
  raising w = (λ _, false) →
  Args.cluster_id rest ∉ cluster_ids w →
  Click.consume ClusterSize.masters_option (Some (numeral m)) = Returns m
  ∧ Click.consume ClusterSize.masters_option None = Returns 1
  ∧ Click.consume ClusterSize.agents_option (Some (numeral 0)) = Returns 0
  ∧ Click.consume ClusterSize.public_agents_option (Some (numeral 0))
    = Returns 0
  ∧ ∃ w' t1 b msg cluster t2,
      execute handler
        (create_command (Some (numeral m)) (Some (numeral ag))
           (Some (numeral pa)) rest) w
      = (Returns tt, w',
         t1 ++ Answered (create_cluster b m ag pa msg) cluster :: t2)
      ∧ length (Cluster.masters cluster) = Z.to_nat m
      ∧ length (Cluster.agents cluster) = Z.to_nat ag
      ∧ length (Cluster.public_agents cluster) = Z.to_nat pa
      ∧ (m < 1 → Cluster.masters cluster = []).
Proof.
  intros Hw Hid. rewrite !consume_numeral. do 4 (split; [done|]).
  rewrite create_command_numerals.
  destruct (create_fault_free (with_sizes rest m ag pa) w Hw Hid)
    as (w' & t1 & msg & t2 & E & _).
  simpl in E. eexists w', t1, _, msg, _, t2. split; [exact E|].
  destruct (provisioned_roles w (cluster_backend_of (with_sizes rest m ag pa))
              m ag pa) as (Hm & Hag & Hpa).
  do 3 (split; [done|]). intros Hlt.
  apply length_zero_iff_nil. rewrite Hm. lia.
Qed.
End docker_create.

(** *** A request on an empty engine *)

Section docker_scenario.
Import DockerCreate.

Lemma sample_keys_distinct : @label_keys_distinct sample_common.
Proof. repeat split; discriminate. Defined.

Lemma C1_containers_labelled_witness :
  ∃ new,
    containers (execute (@handler sample_common)
                  (@create sample_common sample_args) quiet_world).1.2
    = containers quiet_world ++ new
    ∧ Forall (@tagged sample_common sample_args) new
    ∧ ((execute (@handler sample_common)
          (@create sample_common sample_args) quiet_world).1.1 = Returns tt →
         new = provision quiet_world
                 (@cluster_backend_of sample_common sample_args) 1 1 0
         ∧ length new = 2%nat)
    ∧ (new ≠ [] →
         "test1" ∈ @cluster_ids sample_common
                     (execute (@handler sample_common)
                        (@create sample_common sample_args) quiet_world).1.2).
Proof.
  exact (@C1_containers_labelled sample_common quiet_world sample_args
           sample_keys_distinct).
Defined.

(** The run behind the witness: it returns, and its two containers are a
    master and an agent. *)
Example sample_run :
  let r := execute (@handler sample_common)
             (@create sample_common sample_args) quiet_world in
  r.1.1 = Returns tt
  ∧ container_role <$> containers r.1.2 = [Master; Agent]
  ∧ length r.2 = 18%nat.
Proof. vm_compute. done. Qed.

Lemma free_id_in_quiet_world :
  "test1" ∉ @cluster_ids sample_common quiet_world.
Proof. exact (not_elem_of_empty (C:=gset string) "test1"). Defined.

Lemma C5_masters_count_not_bounded_witness :
  Click.consume ClusterSize.masters_option (Some (numeral 0)) = Returns 0
  ∧ Click.consume ClusterSize.masters_option None = Returns 1
  ∧ Click.consume ClusterSize.agents_option (Some (numeral 0)) = Returns 0
  ∧ Click.consume ClusterSize.public_agents_option (Some (numeral 0))
    = Returns 0
  ∧ ∃ w' t1 b msg cluster t2,
      execute (@handler sample_common)
        (@create_command sample_common (Some (numeral 0))
           (Some (numeral 0)) (Some (numeral 0)) sample_args) quiet_world
      = (Returns tt, w',
         t1 ++ Answered (create_cluster b 0 0 0 msg) cluster :: t2)
      ∧ length (Cluster.masters cluster) = Z.to_nat 0
      ∧ length (Cluster.agents cluster) = Z.to_nat 0
      ∧ length (Cluster.public_agents cluster) = Z.to_nat 0
      ∧ (0 < 1 → Cluster.masters cluster = []).
Proof.
  exact (@C5_masters_count_not_bounded sample_common sample_args 0 0 0
           quiet_world eq_refl free_id_in_quiet_world).
Defined.

(** C5 as the spec words it fails: [--masters 0] is admitted by the option
    and by [create]; provisioning is reached with a masters count of 0,
    and the command returns with a cluster that has no master. *)
Lemma C5_counterexample :
  let r := execute (@handler sample_common)
             (@create_command sample_common (Some "0") None None sample_args)
             quiet_world in
  r.1.1 = Returns tt
  ∧ (∃ b msg cluster,
       r.2 !! 7%nat = Some (Answered (create_cluster b 0 1 1 msg) cluster)
       ∧ Cluster.masters cluster = [])
  ∧ container_role <$> containers r.1.2 = [Agent; PublicAgent].
Proof.
  split; [|split].
  - vm_compute. reflexivity.
  - do 3 eexists. split; reflexivity.
  - vm_compute. reflexivity.
Qed.
End docker_scenario.

(** ** Waiting for a cluster of virtual machines (wait.py) *)

Section vagrant_wait.
Import VagrantWait.
Implicit Types t : list (Event Cmd Reply Exn).

Ltac quiet :=
  repeat match goal with
    | |- Forall _ (_ :: _) => constructor; [by intros []|]
    | |- Forall _ [] => constructor
    end.

(** The traces of [wait]. *)
Lemma wait_traces (ctx : Opaque) (id user password : string) (verbose : Z)
    t res :
  emits (wait ctx id user password verbose) t res →
  let handle := {| ClusterVMs.cluster_id := id |} in
  (Forall (λ ev, ¬ is_wait_for_dcos (event_cmd ev)) t ∧ res ≠ Returns tt)
  ∨ ∃ ids variant members last,
      event_cmd last
      = wait_for_dcos variant members user password true "doctor" ctx
      ∧ t = [ Answered existing_cluster_ids ids;
              Answered (check_cluster_id_exists id ids) tt;
              Answered (set_logging verbose) tt;
              Answered (dcos_variant handle) variant;
              Answered (cluster handle) members;
              last ].
Proof.
  unfold wait. simpl. intros Ht.
  destruct Ht as [(e & -> & ->) | (ids & t0 & -> & Ht)].
  { left. split; [|done]. quiet. }
  destruct Ht as [(e & -> & ->) | ([] & t1 & -> & Ht)].
  { left. split; [|done]. quiet. }
  destruct Ht as [(e & -> & ->) | ([] & t1' & -> & Ht)].
  { left. split; [|done]. quiet. }
  destruct Ht as [(e & -> & ->) | (variant & t2 & -> & Ht)].
  { left. split; [|done]. quiet. }
  destruct Ht as [(e & -> & ->) | (members & t3 & -> & Ht)].
  { left. split; [|done]. quiet. }
  right. exists ids, variant, members.
  destruct Ht as [(e & -> & ->) | ([] & t4 & -> & -> & ->)].
  - by exists (Raised
                 (wait_for_dcos variant members user password true "doctor"
                    ctx) e).
  - by exists (Answered
                 (wait_for_dcos variant members user password true "doctor"
                    ctx) tt).
Qed.

(** X28.  Whatever the calls of [wait] answer: the first call enumerates
    the existing cluster ids; the second is [check_cluster_id_exists] on
    the given id and the ids just enumerated; when that check raises,
    [wait] ends with its exception and no further call.  [wait_for_dcos]
    is called only as the last call, after the check has returned, with
    the variant and the cluster read in this run through
    [ClusterVMs(cluster_id=id)], the credentials given, [http_checks]
    set and the doctor command named; and it is called, and [wait]
    returns, when every call before it is answered. *)
Theorem wait_checks_before_waiting
    {W} (h : Handler Cmd Reply Exn W) (w : W)
    (ctx : Opaque) (id user password : string) (verbose : Z) :
  let r := execute h (wait ctx id user password verbose) w in
  let handle := {| ClusterVMs.cluster_id := id |} in
  (∃ ev rest, r.2 = ev :: rest ∧ event_cmd ev = existing_cluster_ids)
  ∧ (∀ ids w1, h w existing_cluster_ids = (Returns ids, w1) →
       (∃ ev rest,
          r.2 = Answered existing_cluster_ids ids :: ev :: rest
          ∧ event_cmd ev = check_cluster_id_exists id ids)
       ∧ ∀ e w2, h w1 (check_cluster_id_exists id ids) = (Raises e, w2) →
           r = (Raises e, w2,
                [ Answered existing_cluster_ids ids;
                  Raised (check_cluster_id_exists id ids) e ]))
  ∧ (∀ t1 ev t2, r.2 = t1 ++ ev :: t2 → is_wait_for_dcos (event_cmd ev) →
       ∃ ids variant members,
         t1 = [ Answered existing_cluster_ids ids;
                Answered (check_cluster_id_exists id ids) tt;
                Answered (set_logging verbose) tt;
                Answered (dcos_variant handle) variant;
                Answered (cluster handle) members ]
         ∧ event_cmd ev
           = wait_for_dcos variant members user password true "doctor" ctx
         ∧ t2 = [])
  ∧ (∀ ids variant members w1 w2 w3 w4 w5 w6,
       h w existing_cluster_ids = (Returns ids, w1) →
       h w1 (check_cluster_id_exists id ids) = (Returns tt, w2) →
       h w2 (set_logging verbose) = (Returns tt, w3) →
       h w3 (dcos_variant handle) = (Returns variant, w4) →
       h w4 (cluster handle) = (Returns members, w5) →
       h w5 (wait_for_dcos variant members user password true "doctor" ctx)
       = (Returns tt, w6) →
       r = (Returns tt, w6,
            [ Answered existing_cluster_ids ids;
              Answered (check_cluster_id_exists id ids) tt;
              Answered (set_logging verbose) tt;
              Answered (dcos_variant handle) variant;
              Answered (cluster handle) members;
              Answered (wait_for_dcos variant members user password true
                          "doctor" ctx) tt ])).
Proof.
  intros r handle. subst r. split; [|split; [|split]].
  - unfold wait. simpl.
    repeat match goal with
      | |- context [h ?w0 ?c] => destruct (h w0 c) as [[?|?] ?]; simpl
      end; by eexists _, _.
  - intros ids w1 Hq. unfold wait. simpl. rewrite Hq. split.
    + repeat match goal with
        | |- context [h ?w0 ?c] => destruct (h w0 c) as [[?|?] ?]; simpl
        end;
        repeat match goal with u : () |- _ => destruct u end;
        by eexists _, _.
    + intros e w2 Hc. by rewrite Hc.
  - intros t1 ev t2 Ht Hev.
    destruct (execute h _ w) as [[res w'] t] eqn:E. simpl in Ht.
    apply execute_emits, wait_traces in E.
    destruct E as [[Hnone _] | (ids & variant & mem & last & Hlast & ->)].
    { subst t. apply Forall_app in Hnone as [_ Hnone].
      apply Forall_cons in Hnone as [Hno _]. done. }
    exists ids, variant, mem.
    do 5 (destruct t1 as [|? t1];
          [injection Ht as <-; intros; subst; by destruct Hev|];
          injection Ht as <- Ht).
    destruct t1 as [|? t1].
    + injection Ht as <- <-. done.
    + injection Ht as _ Ht. by destruct t1.
  - intros ids variant members w1 w2 w3 w4 w5 w6 H1 H2 H3 H4 H5 H6.
    unfold wait. simpl. rewrite H1, H2, H3. fold handle.
    by rewrite H4, H5, H6.
Qed.

Lemma wait_checks_before_waiting_witness :
  let h : Handler Cmd Reply Exn unit := λ w c,
    match c return PyResult Exn (Reply c) * unit with
    | existing_cluster_ids => (Returns {["a"; "b"]}, w)
    | check_cluster_id_exists _ _ => (Returns tt, w)
    | set_logging _ => (Returns tt, w)
    | dcos_variant _ => (Returns "oss", w)
    | cluster _ => (Returns {| vm_names := ["a-master-0"] |}, w)
    | wait_for_dcos _ _ _ _ _ _ _ => (Returns tt, w)
    end in
  let handle := {| ClusterVMs.cluster_id := "a" |} in
  execute h (wait "ctx" "a" "admin" "secret" 0) tt
  = (Returns tt, tt,
     [ Answered existing_cluster_ids {["a"; "b"]};
       Answered (check_cluster_id_exists "a" {["a"; "b"]}) tt;
       Answered (set_logging 0) tt;
       Answered (dcos_variant handle) "oss";
       Answered (cluster handle) {| vm_names := ["a-master-0"] |};
       Answered (wait_for_dcos "oss" {| vm_names := ["a-master-0"] |}
                   "admin" "secret" true "doctor" "ctx") tt ]).
Proof.
  intros h handle.
  apply (proj2 (proj2 (proj2
           (wait_checks_before_waiting h tt "ctx" "a" "admin" "secret" 0)))
           {["a"; "b"]} "oss" {| vm_names := ["a-master-0"] |}
           tt tt tt tt tt tt); reflexivity.
Defined.
End vagrant_wait.

(** * Further properties of the code *)

(** ** Strings *)

Section string_facts.

Lemma append_cons (c : ascii) (s t : string) :
  String c s +:+ t = String c (s +:+ t).
Proof. reflexivity. Qed.

Lemma append_assoc (s t u : string) : (s +:+ t) +:+ u = s +:+ (t +:+ u).
Proof.
  induction s as [|c s IH]; [done|]. rewrite !append_cons. by rewrite IH.
Qed.

Lemma length_append (s t : string) :
  String.length (s +:+ t) = (String.length s + String.length t)%nat.
Proof.
  induction s as [|c s IH]; [done|]. rewrite append_cons. simpl. by rewrite IH.
Qed.

(** Cancelling a common suffix. *)
Lemma append_cancel_r (s1 s2 t : string) : s1 +:+ t = s2 +:+ t → s1 = s2.
Proof.
  revert s2. induction s1 as [|c s1 IH]; intros [|d s2] Heq; [done| | |].
  - apply (f_equal String.length) in Heq.
    rewrite !length_append in Heq. simpl in Heq. lia.
  - apply (f_equal String.length) in Heq.
    rewrite !length_append in Heq. simpl in Heq. lia.
  - rewrite !append_cons in Heq. injection Heq as -> Heq.
    by rewrite (IH s2 Heq).
Qed.

Lemma append_cancel_l (s t1 t2 : string) : s +:+ t1 = s +:+ t2 → t1 = t2.
Proof.
  induction s as [|c s IH]; [done|]. rewrite !append_cons. intros [= Heq]. auto.
Qed.
End string_facts.

(** ** The other vendored errors (error.py) *)

Section vertigo_classes.
Import VertigoError VertigoClasses.

Ltac run_body :=
  repeat first
    [ erewrite load_local; [| reflexivity | by simplify_map_eq]
    | progress cbn -[str_builtin insert lookup String.append] ].

Lemma unknown_vm_new (name uuid : Value) :
  UnknownVMError.new name uuid
  = Returns (VObj "UnknownVMError"
               (<["uuid" := VStr (str_builtin uuid)]>
                  (<["name" := VStr (str_builtin name)]> ∅))).
Proof.
  unfold UnknownVMError.new, construct, VertigoError.call.
  run_body. by simplify_map_eq.
Qed.

Ltac read_attrs :=
  repeat first
    [ rewrite lookup_insert_eq
    | rewrite lookup_insert_ne by discriminate
    | erewrite load_local; [| reflexivity | by simplify_map_eq]
    | progress cbn -[str_builtin insert lookup String.append] ].

(** X1.  The errors that only format what they were given render when
    these are [None], integers or strings: the VM's name and UUID pass
    through [str] when the error is built, the option and the command
    when it is rendered. *)
Theorem formatting_errors_render (name uuid cmd option : Value) :
  plain name → plain uuid → plain cmd → plain option →
  (∃ self, UnknownVMError.new name uuid = Returns self
           ∧ str_of UnknownVMError.__str__ self
             = Returns ("No VM found for name " +:+ str_builtin name
                        +:+ " and UUID " +:+ str_builtin uuid))
  ∧ (∃ self, UnknownOptionError.new cmd option = Returns self
             ∧ str_of UnknownOptionError.__str__ self
               = Returns ("Unknown Option " +:+ str_builtin option
                          +:+ " for command " +:+ str_builtin cmd)).
Proof.
  intros _ _ _ _. split; eexists; (split; [|]).
  - apply unknown_vm_new.
  - unfold str_of, VertigoError.call. read_attrs.
    by rewrite !append_assoc.
  - unfold UnknownOptionError.new, construct, VertigoError.call.
    read_attrs. by simplify_map_eq.
  - unfold str_of, VertigoError.call. read_attrs.
    by rewrite !append_assoc.
Qed.

Lemma formatting_errors_render_witness :
  (∃ self, UnknownVMError.new (VStr "web") (VInt 7) = Returns self
           ∧ str_of UnknownVMError.__str__ self
             = Returns "No VM found for name web and UUID 7")
  ∧ (∃ self, UnknownOptionError.new (VStr "showvminfo") VNone = Returns self
             ∧ str_of UnknownOptionError.__str__ self
               = Returns "Unknown Option None for command showvminfo").
Proof.
  exact (formatting_errors_render (VStr "web") (VInt 7) (VStr "showvminfo")
           VNone I I I I).
Defined.

Lemma join_strings (sep : string) (words : list string) :
  join sep (VStr <$> words) = Returns (String.concat sep words).
Proof.
  induction words as [|w [|w' words] IH]; [done..|].
  change (join sep (VStr <$> w :: w' :: words))
    with (match join sep (VStr <$> w' :: words) with
          | Returns r => Returns (w +:+ sep +:+ r)
          | Raises e => Raises e
          end).
  by rewrite IH.
Qed.

Lemma join_not_str (sep : string) (items : list Value) :
  existsb (λ v, negb (is_str v)) items = true →
  join sep items = Raises TypeError.
Proof.
  induction items as [|item [|item' items] IH]; [done|..].
  - by destruct item.
  - intros H. destruct item; try done.
    change (join sep (VStr s :: item' :: items))
      with (match join sep (item' :: items) with
            | Returns r => Returns (s +:+ sep +:+ r)
            | Raises e => Raises e
            end).
    by rewrite IH.
Qed.

(** X2.  [CommandError], for an exit code and an output that are [None],
    integers or strings: the command is joined with single spaces and
    the exit code rendered when the error is built; the rendering
    succeeds when the recorded output is a [str], and raises [TypeError]
    when it is [None] (the output of a process that was not captured) or
    an integer. *)
Theorem command_error_str (words : list string) (error rc out : Value) :
  getattr error "returncode" = Returns rc →
  getattr error "output" = Returns out →
  plain rc → plain out →
  ∃ self,
    CommandError.__init__ (VStr <$> words) error = Returns self
    ∧ str_of CommandError.__str__ self
      = match out with
        | VStr m =>
            Returns ("Command " +:+ String.concat " " words
                     +:+ " failed with code " +:+ str_builtin rc
                     +:+ " and message:" +:+ nl +:+ m)
        | _ => Raises TypeError
        end.
Proof.
  intros Hrc Hout _ _. eexists. split.
  { unfold CommandError.__init__.
    by rewrite join_strings, Hrc, Hout. }
  unfold str_of, VertigoError.call. read_attrs.
  destruct out; try done.
  cbn -[str_builtin insert lookup String.append].
  by rewrite !append_assoc.
Qed.

Lemma command_error_str_witness :
  ∃ self,
    CommandError.__init__ (VStr <$> ["VBoxManage"; "list"; "vms"])
      (VObj "CalledProcessError"
         (<["output" := VNone]> (<["returncode" := VInt 1]> ∅)))
    = Returns self
    ∧ str_of CommandError.__str__ self = Raises TypeError.
Proof.
  apply (command_error_str ["VBoxManage"; "list"; "vms"]
           (VObj "CalledProcessError"
              (<["output" := VNone]> (<["returncode" := VInt 1]> ∅)))
           (VInt 1) VNone); first [reflexivity | exact I].
Defined.

(** X3.  [CommandError] cannot be built from a command with an item that is not
    a [str]: the join raises [TypeError] before the error is looked at, so
    for every error, also one without [returncode] or [output]. *)
Theorem command_error_init_raises (cmd : list Value) (error : Value) :
  existsb (λ v, negb (is_str v)) cmd = true →
  CommandError.__init__ cmd error = Raises TypeError.
Proof.
  intros H. unfold CommandError.__init__. by rewrite join_not_str.
Qed.

Lemma command_error_init_raises_witness :
  CommandError.__init__ [VStr "VBoxManage"; VInt 3] VNone = Raises TypeError.
Proof.
  apply (command_error_init_raises [VStr "VBoxManage"; VInt 3] VNone).
  reflexivity.
Defined.

(** X4.  [CloseMediumError] built without an error, or with a false one, records
    the empty message: its rendering is the headline followed by a line
    break, for every device and target that is [None], an integer or a
    string. *)
Theorem close_medium_without_error (device target error : Value) :
  plain device → plain target →
  truthy error = false →
  ∃ self,
    CloseMediumError.new device target error = Returns self
    ∧ getattr self "msg" = Returns (VStr "")
    ∧ str_of CloseMediumError.__str__ self
      = Returns ("Cannot close device " +:+ str_builtin device
                 +:+ " with target " +:+ str_builtin target +:+ nl).
Proof.
  intros _ _ Hfalse. eexists. split; [|split].
  - unfold CloseMediumError.new, CloseMediumError.__init__.
    by rewrite Hfalse.
  - cbn -[insert lookup]. by rewrite lookup_insert_eq.
  - unfold str_of, VertigoError.call. read_attrs.
    by rewrite !append_assoc, append_nil_r.
Qed.

Lemma close_medium_without_error_witness :
  ∃ self,
    CloseMediumError.new (VStr "sda") (VStr "disk.vdi")
      CloseMediumError.default_error = Returns self
    ∧ getattr self "msg" = Returns (VStr "")
    ∧ str_of CloseMediumError.__str__ self
      = Returns ("Cannot close device sda with target disk.vdi" +:+ nl).
Proof.
  exact (close_medium_without_error (VStr "sda") (VStr "disk.vdi")
           CloseMediumError.default_error I I eq_refl).
Defined.

(** X5.  [CloseMediumError] built with a true error reads its [output]: a missing
    attribute fails the construction; otherwise the error is built, and
    for a device, a target and an output that are [None], integers or
    strings, an output that is not a [str] fails the rendering with
    [TypeError] and a [str] output follows the headline on a line of its
    own. *)
Theorem close_medium_with_error (device target error : Value) :
  truthy error = true →
  match getattr error "output" with
  | Raises e => CloseMediumError.new device target error = Raises e
  | Returns out =>
      ∃ self,
        CloseMediumError.new device target error = Returns self
        ∧ (plain device → plain target → plain out →
           str_of CloseMediumError.__str__ self
           = match out with
             | VStr m =>
                 Returns ("Cannot close device " +:+ str_builtin device
                          +:+ " with target " +:+ str_builtin target
                          +:+ nl +:+ m)
             | _ => Raises TypeError
             end)
  end.
Proof.
  intros Htrue. unfold CloseMediumError.new, CloseMediumError.__init__.
  rewrite Htrue. destruct (getattr error "output") as [out|e]; [|done].
  eexists. split; [done|]. intros _ _ _.
  unfold str_of, VertigoError.call. read_attrs.
  destruct out; try done.
  cbn -[str_builtin insert lookup String.append].
  by rewrite !append_assoc.
Qed.

Lemma close_medium_with_error_witness :
  ∃ self,
    CloseMediumError.new (VStr "sda") (VStr "disk.vdi")
      (VObj "CalledProcessError" (<["output" := VStr "busy"]> ∅))
    = Returns self
    ∧ str_of CloseMediumError.__str__ self
      = Returns ("Cannot close device sda with target disk.vdi"
                 +:+ nl +:+ "busy").
Proof.
  destruct (close_medium_with_error (VStr "sda") (VStr "disk.vdi")
              (VObj "CalledProcessError" (<["output" := VStr "busy"]> ∅))
              eq_refl) as (self & Hnew & Hstr).
  exists self. split; [exact Hnew | exact (Hstr I I I)].
Defined.

(** X6.  [NoMediumError] shares the constructor of [CloseMediumError] but its
    rendering reads the device only: every instance that was built on a
    device that is [None], an integer or a string renders, whatever its
    target and message are, also where the rendering of
    [CloseMediumError] raises. *)
Theorem no_medium_error_renders (device target error self : Value) :
  plain device →
  NoMediumError.new device target error = Returns self →
  str_of NoMediumError.__str__ self
  = Returns (str_builtin device +:+ " is not a valid device")
  ∧ ∃ self', CloseMediumError.new device target error = Returns self'
             ∧ getattr self' "msg" = getattr self "msg".
Proof.
  intros _.
  unfold NoMediumError.new, CloseMediumError.new, CloseMediumError.__init__.
  destruct (if truthy error then _ else _) as [msg|e]; [|done].
  intros [= <-]. split.
  - unfold str_of, VertigoError.call. read_attrs.
    by rewrite !append_assoc.
  - eexists. split; [done|]. cbn -[insert lookup].
    by rewrite !lookup_insert_eq.
Qed.

Lemma no_medium_error_renders_witness :
  str_of NoMediumError.__str__
    (VObj "NoMediumError"
       (<["msg" := VNone]>
          (<["target" := VNone]> (<["device" := VStr "sda"]> ∅))))
  = Returns "sda is not a valid device"
  ∧ str_of CloseMediumError.__str__
      (VObj "CloseMediumError"
         (<["msg" := VNone]>
            (<["target" := VNone]> (<["device" := VStr "sda"]> ∅))))
    = Raises TypeError.
Proof.
  split; [|reflexivity].
  apply (no_medium_error_renders (VStr "sda") VNone
           (VObj "E" (<["output" := VNone]> ∅))); first [exact I | reflexivity].
Defined.
End vertigo_classes.


(** ** More on the key-value-store control wrapper (etcd.py) *)

Section etcd_more.
Import Etcd.

(** X7.  The certificate type reaches the argument vector only in enterprise
    mode: without it the base arguments are the same for every certificate
    type, with it different certificate types give different base
    arguments. *)
Theorem cert_type_only_for_enterprise (environ : Environ) (c1 c2 : string) :
  _get_base_args environ c1 = _get_base_args environ c2
  ↔ is_enterprise environ = false ∨ c1 = c2.
Proof.
  unfold _get_base_args. destruct (is_enterprise environ); simpl.
  - split.
    + intros [= Hcert _]. right.
      apply append_cancel_l in Hcert. by apply append_cancel_r in Hcert.
    + by intros [? | ->].
  - split; auto.
Qed.

(** A call of [run] leaves every list object that was there before it as it
    was. *)
Lemma run_argv_frame (self : EtcdCtl) (cmd : list string) (h : Store)
    (a : nat) :
  a ∈ dom h →
  deref (run_argv self cmd h).1 a = deref h a
  ∧ a ∈ dom (run_argv self cmd h).1.
Proof.
  intros Hdom. unfold run_argv, copy, list_add.
  pose proof (deref_alloc_old h (deref h (_base_args self)) _ Hdom) as Hold1.
  pose proof (alloc_dom h (deref h (_base_args self)) _ Hdom) as Hdom1.
  destruct (alloc h (deref h (_base_args self))) as [h1 a1]. cbn [fst snd] in *.
  pose proof (deref_alloc_old h1 (deref h1 a1 ++ cmd) _ Hdom1) as Hold2.
  pose proof (alloc_dom h1 (deref h1 a1 ++ cmd) _ Hdom1) as Hdom2.
  destruct (alloc h1 (deref h1 a1 ++ cmd)) as [h2 a2]. cbn [fst snd] in *.
  split; congruence.
Qed.

Lemma run_each_frame (self : EtcdCtl) os (cmds : list (list string)) check env
    (h : Store) (a : nat) :
  a ∈ dom h →
  deref (run_each self os cmds check env h).2 a = deref h a.
Proof.
  revert h. induction cmds as [|cmd cmds IH]; intros h Hdom; [done|].
  destruct (run_argv_frame self cmd h a Hdom) as [Hkeep Hdom'].
  cbn [run_each]. rewrite run_spec.
  specialize (IH _ Hdom').
  destruct (run_each self os cmds check env (run_argv self cmd h).1)
    as [results h'].
  cbn [fst snd] in *. congruence.
Qed.

(** X8.  Two instances never share their base arguments: each holds a list
    object of its own, built for its own certificate type, and any series
    of commands run through the second instance issues the second
    instance's prefix and leaves the list of the first as it was. *)
Theorem instances_do_not_share_base_args
    (environ1 environ2 : Environ) (cert1 cert2 : string) (h0 : Store)
    (os : OS) (cmds : list (list string)) (check : bool) (env : Environ) :
  let first := (__init__ environ1 cert1 h0).2 in
  let h1 := (__init__ environ1 cert1 h0).1 in
  let second := (__init__ environ2 cert2 h1).2 in
  let h2 := (__init__ environ2 cert2 h1).1 in
  _base_args first ≠ _base_args second
  ∧ deref h2 (_base_args first) = _get_base_args environ1 cert1
  ∧ deref h2 (_base_args second) = _get_base_args environ2 cert2
  ∧ (run_each second os cmds check env h2).1
    = (λ cmd, subprocess_run os (_get_base_args environ2 cert2 ++ cmd)
                env check) <$> cmds
  ∧ deref (run_each second os cmds check env h2).2 (_base_args first)
    = _get_base_args environ1 cert1.
Proof.
  intros first h1 second h2.
  pose proof (init_base_args environ1 cert1 h0) as Hfirst.
  pose proof (init_base_args_dom environ1 cert1 h0) as Hdom1.
  pose proof (init_base_args environ2 cert2 h1) as Hsecond.
  pose proof (init_base_args_dom environ2 cert2 h1) as Hdom2.
  fold first h1 in Hfirst, Hdom1. fold second h2 in Hsecond, Hdom2.
  assert (_base_args first ≠ _base_args second) as Hne.
  { unfold second, __init__, alloc. simpl. intros Heq.
    apply (is_fresh (dom h1)). by rewrite <- Heq. }
  assert (deref h2 (_base_args first) = _get_base_args environ1 cert1
          ∧ _base_args first ∈ dom h2) as [Hkept Hdom1'].
  { unfold h2, __init__.
    pose proof (deref_alloc_old h1 (_get_base_args environ2 cert2) _ Hdom1).
    pose proof (alloc_dom h1 (_get_base_args environ2 cert2) _ Hdom1).
    destruct (alloc h1 (_get_base_args environ2 cert2)). cbn [fst snd] in *.
    split; congruence. }
  destruct (run_each_spec second os cmds check env h2 Hdom2) as [Hres _].
  repeat split; try done.
  - by rewrite Hres, Hsecond.
  - by rewrite run_each_frame.
Qed.
End etcd_more.


(** ** More on the release version (prepare_release.py) *)

Section get_version_more.
Import PrepareRelease.

Lemma decode_all_returns (tag_list : list (list byte)) (labels : list string) :
  decode_all tag_list = Returns labels →
  Forall (λ item, utf8_well_formed (Byte.to_N <$> item) = true) tag_list.
Proof.
  revert labels. induction tag_list as [|item items IH]; intros labels;
    [constructor|].
  simpl. unfold decode.
  destruct (utf8_well_formed (Byte.to_N <$> item)) eqn:Hitem; [|done].
  destruct (decode_all items) as [labels'|]; [|done].
  intros _. constructor; [done | by eapply IH].
Qed.

Lemma get_version_returns (utc_now : datetime) (tag_list : list (list byte))
    (version : string) :
  get_version utc_now tag_list = Returns version →
  Forall (λ item, utf8_well_formed (Byte.to_N <$> item) = true) tag_list
  ∧ version = ymd utc_now +:+ "." +:+
              pretty (length (labels_of_day utc_now tag_list)).
Proof.
  intros Hv.
  assert (Forall (λ item, utf8_well_formed (Byte.to_N <$> item) = true)
            tag_list) as Hwf.
  { unfold get_version in Hv.
    destruct (decode_all tag_list) eqn:Hd; [|done].
    by eapply decode_all_returns. }
  split; [done|]. rewrite (get_version_counts _ _ Hwf) in Hv.
  by injection Hv as <-.
Qed.

(** X9.  The order in which the repository lists its tags does not matter. *)
Theorem get_version_any_order (utc_now : datetime)
    (tag_list tag_list' : list (list byte)) (version : string) :
  tag_list ≡ₚ tag_list' →
  get_version utc_now tag_list = Returns version →
  get_version utc_now tag_list' = Returns version.
Proof.
  intros Hperm Hv. apply get_version_returns in Hv as [Hwf ->].
  rewrite get_version_counts by (by rewrite <- Hperm).
  unfold labels_of_day. by rewrite Hperm.
Qed.

Lemma get_version_any_order_witness :
  get_version release_day (reverse release_day_tags)
  = Returns "2018.03.07.2".
Proof.
  apply (get_version_any_order release_day release_day_tags).
  - symmetry. apply reverse_Permutation.
  - vm_compute. reflexivity.
Defined.

(** X10.  When the tags of today are versions handed out earlier in the day
    (the date, a dot and a number below their count), the version returned
    is not the label of any existing tag. *)
Theorem get_version_is_fresh (utc_now : datetime)
    (tag_list : list (list byte)) (version : string) :
  labels_of_day utc_now tag_list
    ⊆ versions_of_day utc_now (length (labels_of_day utc_now tag_list)) →
  get_version utc_now tag_list = Returns version →
  version ∉ string_of_list_byte <$> tag_list.
Proof.
  intros Hkept Hv Hin. apply get_version_returns in Hv as [_ ->].
  assert (ymd utc_now +:+ "." +:+
            pretty (length (labels_of_day utc_now tag_list))
          ∈ labels_of_day utc_now tag_list) as Htoday.
  { apply list_elem_of_filter. split; [|done]. by eexists. }
  apply Hkept, list_elem_of_fmap in Htoday as (micro & Heq & Hmicro).
  apply (inj (String.app _)), (inj (String.app _)), (inj pretty) in Heq.
  apply elem_of_seq in Hmicro. lia.
Qed.

Lemma get_version_is_fresh_witness :
  "2018.03.07.2" ∉ string_of_list_byte <$> release_day_tags.
Proof.
  apply (get_version_is_fresh release_day release_day_tags).
  - vm_compute. intros label Hlabel.
    repeat (apply elem_of_cons in Hlabel as [-> | Hlabel];
            [set_solver|]).
    by apply elem_of_nil in Hlabel.
  - vm_compute. reflexivity.
Defined.
End get_version_more.


(** ** The width of a version *)

Section version_width.
Import PrepareRelease.

Lemma pretty_N_go_length_ge (x : N) (s : string) :
  (String.length s ≤ String.length (pretty_N_go x s))%nat.
Proof.
  revert s. induction (N.lt_wf_0 x) as [x _ IH]; intros s.
  destruct (decide (x = 0)%N) as [->|Hx]; [by rewrite pretty_N_go_0|].
  rewrite pretty_N_go_step by lia.
  etrans; [|apply IH; apply N.div_lt; lia]. simpl. lia.
Qed.

Lemma pretty_N_go_length_le (k : nat) (x : N) (s : string) :
  (x < 10 ^ N.of_nat k)%N →
  (String.length (pretty_N_go x s) ≤ String.length s + k)%nat.
Proof.
  revert x s. induction k as [|k IH]; intros x s Hx.
  - assert (x = 0%N) as -> by (simpl in Hx; lia).
    rewrite pretty_N_go_0. lia.
  - destruct (decide (x = 0)%N) as [->|Hx0].
    { rewrite pretty_N_go_0. lia. }
    rewrite pretty_N_go_step by lia.
    etrans; [apply IH|simpl; lia].
    rewrite Nat2N.inj_succ, N.pow_succ_r' in Hx.
    apply N.Div0.div_lt_upper_bound. lia.
Qed.

Lemma pretty_N_go_length_gt (k : nat) (x : N) (s : string) :
  (10 ^ N.of_nat k ≤ x)%N →
  (String.length s + k < String.length (pretty_N_go x s))%nat.
Proof.
  revert x s. induction k as [|k IH]; intros x s Hx.
  - rewrite pretty_N_go_step by (simpl in Hx; lia).
    eapply Nat.lt_le_trans; [|apply pretty_N_go_length_ge]. simpl. lia.
  - rewrite Nat2N.inj_succ, N.pow_succ_r' in Hx.
    rewrite pretty_N_go_step by lia.
    eapply Nat.le_lt_trans; [|apply IH].
    + simpl. lia.
    + apply N.div_le_lower_bound; lia.
Qed.

(** The number of digits of a decimal rendering. *)
Lemma pretty_N_length (k : nat) (x : N) :
  (10 ^ N.of_nat k ≤ x < 10 ^ N.of_nat (S k))%N →
  String.length (pretty x) = S k.
Proof.
  intros [Hlo Hhi]. unfold pretty, pretty_N.
  pose proof (N.pow_nonzero 10 (N.of_nat k) ltac:(lia)).
  destruct (decide (x = 0)%N) as [->|_]; [lia|].
  pose proof (pretty_N_go_length_le (S k) x "" Hhi).
  pose proof (pretty_N_go_length_gt k x "" Hlo).
  simpl in *. lia.
Qed.

Lemma pretty_N_length_1 (x : N) :
  String.length (pretty x) = 1%nat ↔ (x < 10)%N.
Proof.
  split.
  - intros Hlen. destruct (decide (x < 10)%N) as [|Hx]; [done|].
    unfold pretty, pretty_N in Hlen.
    destruct (decide (x = 0)%N) as [->|_]; [lia|].
    pose proof (pretty_N_go_length_gt 1 x "" ltac:(simpl; lia)).
    simpl in *. lia.
  - intros Hx. destruct (decide (x = 0)%N) as [->|Hx0]; [done|].
    apply (pretty_N_length 0). simpl. lia.
Qed.

Lemma length_zeros (n : nat) : String.length (zeros n) = n.
Proof. induction n as [|n IH]; simpl; by rewrite ?IH. Qed.

Lemma length_zfill (width : nat) (s : string) :
  String.length (zfill width s) = (width `max` String.length s)%nat.
Proof. unfold zfill. rewrite length_append, length_zeros. lia. Qed.

(** The date of a version is ten characters wide. *)
Lemma length_ymd (d : datetime) :
  four_digit_year d → String.length (ymd d) = 10%nat.
Proof.
  intros (Hy & Hm & Hd). unfold ymd.
  rewrite !length_append, !length_zfill.
  change (pretty (year d)) with (pretty (N.of_nat (year d))).
  change (pretty (month d)) with (pretty (N.of_nat (month d))).
  change (pretty (day d)) with (pretty (N.of_nat (day d))).
  rewrite (pretty_N_length 3 (N.of_nat (year d))) by (simpl; lia).
  assert (∀ n, (1 ≤ n ≤ 31)%nat →
            (String.length (pretty (N.of_nat n)) ≤ 2)%nat) as Hshort.
  { intros n Hn.
    destruct (decide (n < 10)%nat).
    - rewrite (proj2 (pretty_N_length_1 (N.of_nat n))); lia.
    - rewrite (pretty_N_length 1 (N.of_nat n)); simpl; lia. }
  pose proof (Hshort (month d) ltac:(lia)).
  pose proof (Hshort (day d) ltac:(lia)).
  simpl. lia.
Qed.

(** X11.  [update_changelog] underlines the version with twelve dashes.  The
    version is as wide as its underline exactly while fewer than ten tags
    of the day exist; from the eleventh release of a day on the title is
    wider than the underline. *)
Theorem version_as_wide_as_underline (utc_now : datetime)
    (tag_list : list (list byte)) (version : string) :
  four_digit_year utc_now →
  get_version utc_now tag_list = Returns version →
  (String.length version = String.length "------------"
   ↔ (length (labels_of_day utc_now tag_list) < 10)%nat)
  ∧ (String.length "------------" ≤ String.length version)%nat.
Proof.
  intros Hdate Hv. apply get_version_returns in Hv as [_ ->].
  rewrite !length_append, (length_ymd _ Hdate).
  set (n := length (labels_of_day utc_now tag_list)).
  change (pretty n) with (pretty (N.of_nat n)).
  pose proof (pretty_N_length_1 (N.of_nat n)) as H1.
  assert (1 ≤ String.length (pretty (N.of_nat n)))%nat as Hpos.
  { unfold pretty, pretty_N.
    destruct (decide (N.of_nat n = 0)%N) as [|Hne]; [done|].
    pose proof (pretty_N_go_length_gt 0 (N.of_nat n) "" ltac:(simpl; lia)).
    simpl in *. lia. }
  simpl String.length. split; [split|].
  - intros Hlen. assert (N.of_nat n < 10)%N by (apply H1; lia). lia.
  - intros Hlt. assert (N.of_nat n < 10)%N as Hn by lia.
    apply H1 in Hn. lia.
  - lia.
Qed.

Lemma version_as_wide_as_underline_witness :
  (String.length "2018.03.07.2" = String.length "------------"
   ↔ (length (labels_of_day release_day release_day_tags) < 10)%nat)
  ∧ (String.length "------------" ≤ String.length "2018.03.07.2")%nat.
Proof.
  apply (version_as_wide_as_underline release_day release_day_tags).
  - unfold four_digit_year. simpl. lia.
  - vm_compute. reflexivity.
Defined.
End version_width.


(** ** The changelog (prepare_release.py) *)

Section changelog.
Import Release.

#[local] Abbreviation perform := (@perform Cmd Reply Exn).

Lemma startswith_nil (s : string) : PyStr.startswith s "" = true.
Proof. by destruct s. Qed.

Lemma startswith_app_same (old post : string) :
  PyStr.startswith (old +:+ post) old = true.
Proof.
  induction old as [|a old IH]; [apply startswith_nil|].
  rewrite append_cons. simpl. by rewrite bool_decide_eq_true_2, IH.
Qed.

Lemma startswith_longer (x y old : string) :
  (String.length old ≤ String.length x)%nat →
  PyStr.startswith (x +:+ y) old = PyStr.startswith x old.
Proof.
  revert x. induction old as [|a old IH]; intros x Hlen.
  { by rewrite !startswith_nil. }
  destruct x as [|b x]; simpl in Hlen; [lia|].
  rewrite append_cons. simpl. rewrite IH by lia. done.
Qed.

Lemma contains_cons (c : ascii) (s old : string) :
  contains (String c s) old = PyStr.startswith (String c s) old || contains s old.
Proof. reflexivity. Qed.

Lemma contains_app_r (x y old : string) :
  contains (x +:+ y) old = false → contains y old = false.
Proof.
  induction x as [|c x IH]; [done|].
  rewrite append_cons, contains_cons. intros [_ ?]%orb_false_iff. auto.
Qed.

Lemma replace_from_skip (old new x rest : string) :
  replace_from old new (x +:+ rest) (String.length x)
  = replace_from old new rest 0.
Proof. induction x as [|c x IH]; [done|]. by rewrite append_cons. Qed.

Lemma replace_from_absent (old new s : string) :
  contains s old = false → replace_from old new s 0 = s.
Proof.
  induction s as [|c s IH]; [done|].
  rewrite contains_cons. intros [Hhere Hlater]%orb_false_iff.
  cbn [replace_from]. by rewrite Hhere, IH.
Qed.

(** The first occurrence: [old] is [old'] followed by [c], and no
    occurrence begins before the one at [pre]. *)
Lemma replace_from_first (old' : string) (c : ascii) (new pre post : string) :
  let old := old' +:+ String c "" in
  contains (pre +:+ old') old = false →
  replace_from old new (pre +:+ old +:+ post) 0
  = pre +:+ new +:+ replace_from old new post 0.
Proof.
  intros old. induction pre as [|a pre IH]; intros Hfirst.
  - change ("" +:+ old +:+ post) with (old +:+ post).
    change ("" +:+ new +:+ replace_from old new post 0)
      with (new +:+ replace_from old new post 0).
    pose proof (startswith_app_same old post) as Hstart.
    destruct old as [|o old1] eqn:Hold.
    { subst old. by destruct old'. }
    rewrite append_cons in Hstart |- *. cbn [replace_from].
    rewrite Hstart.
    replace (String.length (String o old1) - 1)%nat
      with (String.length old1) by (simpl; lia).
    by rewrite replace_from_skip.
  - rewrite append_cons, contains_cons in Hfirst.
    apply orb_false_iff in Hfirst as [Hhere Hlater].
    rewrite !append_cons. cbn [replace_from].
    assert (PyStr.startswith (String a (pre +:+ old +:+ post)) old = false)
      as ->.
    { rewrite <- Hhere. unfold old.
      rewrite <- (append_cons a pre), <- (append_cons a pre old').
      rewrite (append_assoc old'), <- (append_assoc (String a pre) old').
      apply startswith_longer.
      rewrite !length_append. simpl. lia. }
    by rewrite IH.
Qed.

(** No occurrence of the heading crosses into a heading that follows:
    its first letter occurs nowhere else in it. *)
Lemma startswith_before_heading (x : string) :
  PyStr.startswith (x +:+ "Next" +:+ nl +:+ "---") next_heading
  = PyStr.startswith x next_heading.
Proof.
  do 9 (destruct x as [|? x];
        [ cbv [PyStr.startswith String.append next_heading nl];
          repeat (case_bool_decide; subst; cbn [andb]; try done) |]).
  apply startswith_longer. simpl. lia.
Qed.

Lemma contains_before_heading (seg : string) :
  contains (seg +:+ "Next" +:+ nl +:+ "---") next_heading
  = contains seg next_heading.
Proof.
  induction seg as [|c seg IH]; [done|].
  rewrite append_cons, !contains_cons, IH. f_equal.
  rewrite <- append_cons. apply startswith_before_heading.
Qed.

(** [replace] on segments without the heading, joined by the heading. *)
Lemma replace_from_concat (new first : string) (rest : list string) :
  Forall (λ seg, contains seg next_heading = false) (first :: rest) →
  replace_from next_heading new (String.concat next_heading (first :: rest)) 0
  = String.concat new (first :: rest).
Proof.
  revert first. induction rest as [|second rest IH]; intros first Hall.
  - apply Forall_cons in Hall as [Hfirst _]. cbn [String.concat].
    by apply replace_from_absent.
  - apply Forall_cons in Hall as [Hfirst Hrest].
    change (String.concat next_heading (first :: second :: rest))
      with (first +:+ next_heading
              +:+ String.concat next_heading (second :: rest)).
    change (String.concat new (first :: second :: rest))
      with (first +:+ new +:+ String.concat new (second :: rest)).
    pose proof (replace_from_first ("Next" +:+ nl +:+ "---") "-" new first
                  (String.concat next_heading (second :: rest))) as Hrepl.
    change (("Next" +:+ nl +:+ "---") +:+ "-") with next_heading in Hrepl.
    cbv zeta in Hrepl. rewrite Hrepl.
    + by rewrite IH.
    + by rewrite contains_before_heading.
Qed.

Lemma new_changelog_contents_concat (version first : string)
    (rest : list string) :
  Forall (λ seg, contains seg next_heading = false) (first :: rest) →
  new_changelog_contents version (String.concat next_heading (first :: rest))
  = String.concat
      (next_heading +:+ nl +:+ nl +:+ version +:+ nl +:+ "------------")
      (first :: rest).
Proof.
  intros Hall. unfold new_changelog_contents, replace.
  change next_heading with (String "N" ("ext" +:+ nl +:+ "----")) at 2.
  cbv iota.
  change ("Next" +:+ nl +:+ "----" +:+ nl +:+ nl +:+ version +:+ nl
            +:+ "------------")
    with (next_heading +:+ nl +:+ nl +:+ version +:+ nl +:+ "------------").
  by apply replace_from_concat.
Qed.

(** A text before which nothing begins with the first letter of [old]
    adds no occurrence of [old]. *)
Lemma contains_after_other_letters (a : ascii) (old' p s : string) :
  contains p (String a "") = false →
  contains (p +:+ s) (String a old') = contains s (String a old').
Proof.
  induction p as [|c p IH]; [done|].
  rewrite contains_cons. intros [Hhere Hlater]%orb_false_iff.
  rewrite append_cons, contains_cons, IH by done.
  cbn [PyStr.startswith] in Hhere |- *.
  rewrite ?startswith_nil, andb_true_r in Hhere. by rewrite Hhere.
Qed.

Lemma contains_letter_app (a : ascii) (x y : string) :
  contains (x +:+ y) (String a "")
  = contains x (String a "") || contains y (String a "").
Proof.
  induction x as [|c x IH].
  - change ("" +:+ y) with y. by destruct y.
  - rewrite append_cons, !contains_cons, IH. cbn [PyStr.startswith].
    rewrite ?startswith_nil. by rewrite orb_assoc.
Qed.

Lemma concat_sep_app (sep p first : string) (rest : list string) :
  String.concat (sep +:+ p) (first :: rest)
  = String.concat sep (first :: (String.append p <$> rest)).
Proof.
  revert first. induction rest as [|second rest IH]; intros first; [done|].
  change (String.concat (sep +:+ p) (first :: second :: rest))
    with (first +:+ (sep +:+ p) +:+ String.concat (sep +:+ p) (second :: rest)).
  rewrite IH. rewrite append_assoc.
  change (String.append p <$> second :: rest)
    with ((p +:+ second) :: (String.append p <$> rest)).
  change (String.concat sep (first :: (p +:+ second) :: (String.append p <$> rest)))
    with (first +:+ sep
            +:+ String.concat sep ((p +:+ second) :: (String.append p <$> rest))).
  do 2 f_equal.
  destruct rest as [|third rest]; [done|].
  change (String.concat sep (second :: (String.append p <$> third :: rest)))
    with (second +:+ sep +:+ String.concat sep (String.append p <$> third :: rest)).
  change (String.concat sep ((p +:+ second) :: (String.append p <$> third :: rest)))
    with ((p +:+ second) +:+ sep
            +:+ String.concat sep (String.append p <$> third :: rest)).
  by rewrite append_assoc.
Qed.

(** X12.  Without a [Next] heading in the changelog, [update_changelog]
    writes the file back as it read it, whatever the version, and raises
    nothing of its own: it returns when the write returns, and raises
    what the write raises. *)
Theorem update_changelog_without_heading {W}
    (h : Handler Cmd Reply Exn W) (w w1 : W) (version source : string) :
  h w (read_text "CHANGELOG.rst") = (Returns source, w1) →
  contains source next_heading = false →
  (∀ w2, h w1 (write_text "CHANGELOG.rst" source) = (Returns tt, w2) →
     execute h (update_changelog version) w
     = (Returns tt, w2,
        [ Answered (read_text "CHANGELOG.rst") source;
          Answered (write_text "CHANGELOG.rst" source) tt ]))
  ∧ (∀ e w2, h w1 (write_text "CHANGELOG.rst" source) = (Raises e, w2) →
       execute h (update_changelog version) w
       = (Raises e, w2,
          [ Answered (read_text "CHANGELOG.rst") source;
            Raised (write_text "CHANGELOG.rst" source) e ])).
Proof.
  intros Hread Habsent. unfold update_changelog. cbn -[new_changelog_contents].
  rewrite Hread.
  assert (new_changelog_contents version source = source) as ->.
  { unfold new_changelog_contents, replace.
    change next_heading with (String "N" ("ext" +:+ nl +:+ "----")) at 1.
    cbv iota. by apply replace_from_absent. }
  split; [intros w2 Hwrite | intros e w2 Hwrite]; by rewrite Hwrite.
Qed.

Lemma update_changelog_without_heading_witness :
  execute Checkout.run (update_changelog "2018.03.07.2")
    (Checkout.on_release_day "Changelog")
  = (Returns tt,
     Checkout.write (Checkout.on_release_day "Changelog")
       "CHANGELOG.rst" "Changelog",
     [ Answered (read_text "CHANGELOG.rst") "Changelog";
       Answered (write_text "CHANGELOG.rst" "Changelog") tt ]).
Proof.
  apply (proj1 (update_changelog_without_heading Checkout.run
                  (Checkout.on_release_day "Changelog")
                  (Checkout.on_release_day "Changelog")
                  "2018.03.07.2" "Changelog" eq_refl eq_refl)).
  reflexivity.
Defined.

(** X13.  [update_changelog]'s replacement puts the heading of the version
    right under every [Next] heading, as [str.replace] rewrites every
    occurrence: for a changelog cut at its [Next] headings into pieces,
    the pieces stay as they were and each heading is followed by the
    version's.  A second release puts its heading above that of the
    first, for a first version without the letter N. *)
Theorem update_changelog_inserts_heading (v1 v2 first : string)
    (rest : list string) :
  Forall (λ piece, contains piece next_heading = false) (first :: rest) →
  new_changelog_contents v1 (String.concat next_heading (first :: rest))
  = String.concat
      (next_heading +:+ nl +:+ nl +:+ v1 +:+ nl +:+ "------------")
      (first :: rest)
  ∧ (contains v1 "N" = false →
     new_changelog_contents v2
       (new_changelog_contents v1
          (String.concat next_heading (first :: rest)))
     = String.concat
         (next_heading +:+ nl +:+ nl +:+ v2 +:+ nl +:+ "------------"
            +:+ nl +:+ nl +:+ v1 +:+ nl +:+ "------------")
         (first :: rest)).
Proof.
  intros Hall. split; [by apply new_changelog_contents_concat|].
  intros Hv1. rewrite new_changelog_contents_concat by done.
  pose (entry := nl +:+ nl +:+ v1 +:+ nl +:+ "------------").
  change (next_heading +:+ nl +:+ nl +:+ v1 +:+ nl +:+ "------------")
    with (next_heading +:+ entry).
  rewrite concat_sep_app, new_changelog_contents_concat.
  - rewrite <- concat_sep_app. by rewrite !append_assoc.
  - apply Forall_cons in Hall as [Hfirst Hrest].
    constructor; [done|]. apply Forall_fmap.
    eapply Forall_impl; [exact Hrest|]. intros piece Hpiece. simpl.
    change next_heading with (String "N" ("ext" +:+ nl +:+ "----")).
    rewrite contains_after_other_letters; [done|].
    unfold entry. rewrite !contains_letter_app, Hv1. reflexivity.
Qed.

Lemma update_changelog_inserts_heading_witness :
  new_changelog_contents "2018.03.07.1"
    (new_changelog_contents "2018.03.07.0"
       ("Changelog" +:+ nl +:+ nl +:+ next_heading +:+ nl +:+ nl
          +:+ "1.0" +:+ nl +:+ "---" +:+ nl +:+ nl +:+ "To do" +:+ nl
          +:+ next_heading +:+ nl))
  = "Changelog" +:+ nl +:+ nl +:+ next_heading +:+ nl +:+ nl
      +:+ "2018.03.07.1" +:+ nl +:+ "------------" +:+ nl +:+ nl
      +:+ "2018.03.07.0" +:+ nl +:+ "------------" +:+ nl +:+ nl
      +:+ "1.0" +:+ nl +:+ "---" +:+ nl +:+ nl +:+ "To do" +:+ nl
      +:+ next_heading +:+ nl +:+ nl
      +:+ "2018.03.07.1" +:+ nl +:+ "------------" +:+ nl +:+ nl
      +:+ "2018.03.07.0" +:+ nl +:+ "------------" +:+ nl.
Proof.
  refine (eq_trans
            (eq_trans _
               (proj2 (update_changelog_inserts_heading
                         "2018.03.07.0" "2018.03.07.1"
                         ("Changelog" +:+ nl +:+ nl)
                         [ nl +:+ nl +:+ "1.0" +:+ nl +:+ "---" +:+ nl
                             +:+ nl +:+ "To do" +:+ nl;
                           nl ] _) _)) _).
  - vm_compute. reflexivity.
  - repeat constructor.
  - reflexivity.
  - vm_compute. reflexivity.
Defined.
End changelog.


(** ** The release steps in order (prepare_release.py) *)

Section release_main.
Import Release.

#[local] Abbreviation perform := (@perform Cmd Reply Exn).
Implicit Types t : list (Event Cmd Reply Exn).

Lemma get_version_calls :
  calls_only changelog_and_release_only get_version.
Proof.
  unfold get_version. cbn. split; [done|]. intros now.
  split; [done|]. intros repo. split; [done|]. intros tags.
  by destruct (PrepareRelease.get_version now tags) as [v|[item]].
Qed.

Lemma get_changelog_contents_calls :
  calls_only changelog_and_release_only get_changelog_contents.
Proof.
  unfold get_changelog_contents. cbn. split; [done|]. intros source.
  split; [done|]. intros name. split; [done|].
  by intros [|[items|] [|??]].
Qed.

Lemma update_changelog_calls (version : string) :
  calls_only changelog_and_release_only (update_changelog version).
Proof. unfold update_changelog. cbn -[new_changelog_contents]. auto. Qed.

Lemma create_github_release_calls (notes token version : string) :
  calls_only changelog_and_release_only
    (create_github_release notes token version).
Proof.
  unfold create_github_release. cbn. split; [done|]. intros gh.
  split; [done|]. intros org. split; [done|]. intros repository.
  split; [done|]. by intros [|sha commits].
Qed.

(** X14.  [main] asks for the token before anything else, and a failed lookup
    ends the run with no other call made.  Whatever happens later, the
    run never stages, commits or pushes, starts no other program, and
    reads and writes no file but the changelog. *)
Theorem main_leaves_the_rest_alone {W} (h : Handler Cmd Reply Exn W) (w : W) :
  (∀ e w1, h w (environ_getitem "GITHUB_TOKEN") = (Raises e, w1) →
     execute h main w
     = (Raises e, w1, [Raised (environ_getitem "GITHUB_TOKEN") e]))
  ∧ (∃ ev rest, (execute h main w).2 = ev :: rest
                ∧ event_cmd ev = environ_getitem "GITHUB_TOKEN")
  ∧ Forall (λ ev, changelog_and_release_only (event_cmd ev))
      (execute h main w).2.
Proof.
  split; [|split].
  - intros e w1 Hh. unfold main. cbn. by rewrite Hh.
  - destruct (execute h main w) as [[res w'] t] eqn:Hrun.
    apply execute_emits in Hrun. cbn [snd].
    unfold main in Hrun. cbn in Hrun.
    destruct Hrun as [(e & -> & _) | (token & t' & -> & _)];
      by eexists _, _.
  - destruct (execute h main w) as [[res w'] t] eqn:Hrun.
    apply execute_emits in Hrun. cbn [snd].
    refine (emits_calls_only _ _ _ _ _ Hrun).
    unfold main. apply calls_only_bind; [by cbn|]. intros token.
    apply calls_only_bind; [apply get_version_calls|]. intros version.
    apply calls_only_bind; [apply get_changelog_contents_calls|]. intros notes.
    apply calls_only_bind; [apply update_changelog_calls|]. intros _.
    apply create_github_release_calls.
Qed.

(** A run that stopped before the release was attempted. *)
Ltac no_release :=
  split; [done|];
  let ev := fresh "ev" in
  let Hev := fresh "Hev" in
  let Hrel := fresh "Hrel" in
  intros ev Hev Hrel;
  repeat (apply elem_of_cons in Hev as [-> | Hev]; [by cbn in Hrel|]);
  by apply elem_of_nil in Hev.

Ltac next_event H :=
  let e := fresh "e" in
  destruct H as [(e & -> & ->) | (? & ? & -> & H)];
  [no_release | cbn -[new_changelog_contents render_items] in H].

Lemma main_emits_release t res :
  emits main t res →
  (res = Returns tt → ∃ ev, ev ∈ t ∧ is_release (event_cmd ev))
  ∧ (∀ ev, ev ∈ t → is_release (event_cmd ev) →
       ∃ token now repo tags version source name next_section contents
         gh org repository sha more,
         PrepareRelease.get_version now tags = Returns version
         ∧ event_cmd ev
           = create_git_tag_and_release repository version
               ("Release " +:+ version) ("Release " +:+ version)
               (notes_of next_section) "commit" sha
         ∧ t = [ Answered (environ_getitem "GITHUB_TOKEN") token;
                 Answered utcnow now;
                 Answered (Repo ".") repo;
                 Answered (tag_list repo) tags;
                 Answered (read_text "CHANGELOG.rst") source;
                 Answered uuid4_hex name;
                 Answered (next_sections source name) [next_section];
                 Answered (read_text "CHANGELOG.rst") contents;
                 Answered (write_text "CHANGELOG.rst"
                             (new_changelog_contents version contents)) tt;
                 Answered (Github token) gh;
                 Answered (get_organization gh "mesosphere") org;
                 Answered (get_repo org "dcos-e2e") repository;
                 Answered (get_commits repository) (sha :: more);
                 ev ]).
Proof.
  intros H. unfold main in H.
  cbn -[new_changelog_contents render_items] in H.
  do 4 next_event H.
  destruct (PrepareRelease.get_version _ _) as [version|[item]] eqn:Hversion;
    cbn -[new_changelog_contents render_items] in H;
    [|destruct H as [-> ->]; no_release].
  do 3 next_event H.
  match type of H with
  | context [match ?sections with [] => _ | _ :: _ => _ end] =>
      destruct sections as [|next_section [|??]]
  end;
    [destruct H as [-> ->]; no_release | | destruct H as [-> ->]; no_release].
  destruct next_section as [list_items|];
    cbn -[new_changelog_contents render_items] in H.
  all: do 6 next_event H.
  all: match type of H with
       | context [match ?commits with [] => _ | _ :: _ => _ end] =>
           destruct commits as [|sha more]
       end;
    cbn -[new_changelog_contents render_items] in H;
    [destruct H as [-> ->]; no_release|].
  all: destruct H as [(e & -> & ->) | ([] & ? & -> & -> & ->)].
  all: repeat match goal with u : () |- _ => destruct u end.
  all: match goal with
       | |- _ ∧ _ =>
           split;
           [ first
               [ done
               | intros _; eexists; split;
                 [do 13 apply list_elem_of_further; apply list_elem_of_here
                 | exact I] ]
           | intros ev Hev Hrel;
             repeat (apply elem_of_cons in Hev as [-> | Hev];
                     [by cbn in Hrel|]);
             apply elem_of_cons in Hev as [-> | Hev];
             [| by apply elem_of_nil in Hev];
             do 7 eexists;
             first [exists (Some list_items) | exists None];
             do 6 eexists; split; [exact Hversion|]; split; reflexivity ]
       end.
Qed.

(** X15.  The release is the last thing [main] does.  When the tag and release
    are requested, every other call has been answered: the version was
    computed from the clock and the tags, the notes were taken from the
    single [Next] section of the changelog as it was before the new
    heading went in, the changelog was rewritten, and the release is
    requested for the version, titled [Release] and the version, on the
    first of the commits listed.  A run that returns has made the
    request. *)
Theorem main_releases_last {W} (h : Handler Cmd Reply Exn W) (w : W) :
  let res := (execute h main w).1.1 in
  let t := (execute h main w).2 in
  (res = Returns tt → ∃ ev, ev ∈ t ∧ is_release (event_cmd ev))
  ∧ (∀ ev, ev ∈ t → is_release (event_cmd ev) →
       ∃ token now repo tags version source name next_section contents
         gh org repository sha more,
         PrepareRelease.get_version now tags = Returns version
         ∧ event_cmd ev
           = create_git_tag_and_release repository version
               ("Release " +:+ version) ("Release " +:+ version)
               (notes_of next_section) "commit" sha
         ∧ t = [ Answered (environ_getitem "GITHUB_TOKEN") token;
                 Answered utcnow now;
                 Answered (Repo ".") repo;
                 Answered (tag_list repo) tags;
                 Answered (read_text "CHANGELOG.rst") source;
                 Answered uuid4_hex name;
                 Answered (next_sections source name) [next_section];
                 Answered (read_text "CHANGELOG.rst") contents;
                 Answered (write_text "CHANGELOG.rst"
                             (new_changelog_contents version contents)) tt;
                 Answered (Github token) gh;
                 Answered (get_organization gh "mesosphere") org;
                 Answered (get_repo org "dcos-e2e") repository;
                 Answered (get_commits repository) (sha :: more);
                 ev ]).
Proof.
  intros res t. subst res t.
  destruct (execute h main w) as [[res w'] t] eqn:Hrun.
  apply execute_emits in Hrun. cbn [fst snd].
  by apply main_emits_release.
Qed.

End release_main.


(** ** The release notes and the Homebrew requirements (prepare_release.py) *)

Section release_notes.
Import Release.

#[local] Abbreviation perform := (@perform Cmd Reply Exn).
Implicit Types t : list (Event Cmd Reply Exn).

(** X16.  The changelog is rewritten before the release is requested and is not
    put back when the request cannot be made: in a checkout whose
    changelog has one [Next] heading and one section of that name, and
    with no commit to release from, [main] raises [IndexError]; the
    changelog then has the heading of the version under [Next], which it
    had not before, and no release was made. *)
Theorem changelog_stays_rewritten_when_release_fails
    (w : Checkout.t) (token version pre post : string)
    (next_section : SectionNode) :
  let changelog := pre +:+ next_heading +:+ post in
  let rewritten :=
    pre +:+ next_heading +:+ nl +:+ nl +:+ version +:+ nl +:+ "------------"
      +:+ post in
  Checkout.environ w !! "GITHUB_TOKEN" = Some token →
  PrepareRelease.get_version (Checkout.now w) (Checkout.tags w)
  = Returns version →
  Checkout.files w !! "CHANGELOG.rst" = Some changelog →
  contains pre next_heading = false →
  contains post next_heading = false →
  Checkout.sections_of w changelog = [next_section] →
  Checkout.commits w = [] →
  execute Checkout.run main w
  = (Raises IndexError,
     Checkout.write w "CHANGELOG.rst" rewritten,
     [ Answered (environ_getitem "GITHUB_TOKEN") token;
       Answered utcnow (Checkout.now w);
       Answered (Repo ".") ".";
       Answered (tag_list ".") (Checkout.tags w);
       Answered (read_text "CHANGELOG.rst") changelog;
       Answered uuid4_hex "0";
       Answered (next_sections changelog "0") [next_section];
       Answered (read_text "CHANGELOG.rst") changelog;
       Answered (write_text "CHANGELOG.rst" rewritten) tt;
       Answered (Github token) token;
       Answered (get_organization token "mesosphere") "mesosphere";
       Answered (get_repo "mesosphere" "dcos-e2e") "dcos-e2e";
       Answered (get_commits "dcos-e2e") [] ])
  ∧ Checkout.files (Checkout.write w "CHANGELOG.rst" rewritten)
      !! "CHANGELOG.rst" = Some rewritten
  ∧ rewritten ≠ changelog
  ∧ Checkout.releases (Checkout.write w "CHANGELOG.rst" rewritten)
    = Checkout.releases w.
Proof.
  intros changelog rewritten Htoken Hversion Hfile Hpre Hpost Hsections
    Hcommits.
  assert (new_changelog_contents version changelog = rewritten) as Hnew.
  { pose proof (new_changelog_contents_concat version pre [post]) as Hcat.
    cbn [String.concat] in Hcat. unfold changelog, rewritten.
    rewrite Hcat by (by repeat constructor).
    by rewrite !append_assoc. }
  split; [|split; [|split]].
  - unfold main, get_version, get_changelog_contents, update_changelog,
      create_github_release.
    repeat first
      [ rewrite Htoken | rewrite Hversion | rewrite Hfile
      | rewrite Hsections | rewrite Hcommits | rewrite Hnew
      | progress cbn -[lookup insert new_changelog_contents render_items
                       PrepareRelease.get_version String.append] ].
    destruct next_section;
      repeat first
        [ rewrite Hfile | rewrite Hcommits | rewrite Hnew
        | progress cbn -[lookup insert new_changelog_contents render_items
                         PrepareRelease.get_version String.append] ];
      reflexivity.
  - cbn -[lookup insert]. apply lookup_insert_eq.
  - unfold rewritten, changelog. intros Heq.
    do 2 apply append_cancel_l in Heq.
    apply (f_equal String.length) in Heq.
    rewrite !length_append in Heq. simpl in Heq. lia.
  - reflexivity.
Qed.

Lemma changelog_stays_rewritten_when_release_fails_witness :
  let changelog :=
    "Changelog" +:+ nl +:+ nl +:+ next_heading +:+ nl +:+ nl
      +:+ "* Fix the wait" +:+ nl in
  let rewritten :=
    "Changelog" +:+ nl +:+ nl +:+ next_heading +:+ nl +:+ nl
      +:+ "2018.03.07.2" +:+ nl +:+ "------------" +:+ nl +:+ nl
      +:+ "* Fix the wait" +:+ nl in
  (execute Checkout.run main (Checkout.on_release_day changelog)).1
  = (Raises IndexError,
     Checkout.write (Checkout.on_release_day changelog)
       "CHANGELOG.rst" rewritten).
Proof.
  intros changelog rewritten.
  pose proof (proj1 (changelog_stays_rewritten_when_release_fails
                (Checkout.on_release_day changelog) "secret" "2018.03.07.2"
                ("Changelog" +:+ nl +:+ nl)
                (nl +:+ nl +:+ "* Fix the wait" +:+ nl)
                (Some ["Fix the wait"])
                eq_refl eq_refl eq_refl eq_refl eq_refl eq_refl eq_refl))
    as Hrun.
  exact (f_equal fst Hrun).
Defined.
End release_notes.


(** ** White space at the ends (prepare_release.py) *)

Section stripping.
Import Release.

Lemma isspace_all_app (x : string) (a : ascii) (y : string) :
  separates a →
  isspace_all (x +:+ String a y) = isspace_all x && isspace_all (String a y).
Proof.
  intros (H2 & H3 & H3').
  remember (String.length x) as n eqn:Hn.
  revert x Hn. induction (lt_wf n) as [n _ IH]; intros x ->.
  assert (∀ x', (String.length x' < String.length x)%nat →
            isspace_all (x' +:+ String a y)
            = isspace_all x' && isspace_all (String a y)) as IH'.
  { intros x' Hx'. by eapply IH. }
  clear IH. destruct x as [|p [|q [|r x]]].
  - done.
  - change (String p "" +:+ String a y) with (String p (String a y)).
    cbn [isspace_all]. destruct (space1 p); [done|].
    rewrite H2. destruct y as [|c y]; [done|]. by rewrite H3.
  - change (String p (String q "") +:+ String a y)
      with (String p (String q (String a y))).
    pose proof (IH' (String q "") ltac:(simpl; lia)) as IH1.
    change (String q "" +:+ String a y) with (String q (String a y)) in IH1.
    cbn [isspace_all] in IH1 |- *.
    destruct (space1 p); [done|].
    destruct (space2 p q); [by destruct (space1 a)|].
    by rewrite H3'.
  - rewrite !append_cons.
    pose proof (IH' (String q (String r x)) ltac:(simpl; lia)) as IH1.
    pose proof (IH' (String r x) ltac:(simpl; lia)) as IH2.
    pose proof (IH' x ltac:(simpl; lia)) as IH3.
    rewrite !append_cons in IH1, IH2.
    cbn [isspace_all] in IH1, IH2 |- *.
    destruct (space1 p); [done|].
    destruct (space2 p q); [done|].
    rewrite IH3. by rewrite andb_assoc.
Qed.

Lemma separates_newline : separates (ascii_of_nat 10).
Proof.
  split; [|split]; intros; unfold space2, space3; cbn;
    by rewrite ?andb_false_r.
Qed.

Lemma separates_star : separates "*".
Proof.
  split; [|split]; intros; unfold space2, space3; cbn;
    by rewrite ?andb_false_r.
Qed.

Lemma isspace_all_star (u z : string) :
  isspace_all (u +:+ String "*" z) = false.
Proof.
  rewrite isspace_all_app by apply separates_star.
  apply andb_false_iff. right. by destruct z as [|b [|c z]].
Qed.

Lemma rstrip_app_visible (x y : string) :
  (∀ u, isspace_all (u +:+ y) = false) →
  rstrip (x +:+ y) = x +:+ rstrip y.
Proof.
  intros Hy. induction x as [|c x IH]; [done|].
  rewrite !append_cons. cbn [rstrip].
  rewrite <- (append_cons c x y), Hy. by rewrite IH.
Qed.

Lemma rstrip_fixed (c : ascii) (s : string) :
  rstrip (String c s) = String c s →
  isspace_all (String c s) = false ∧ rstrip s = s.
Proof.
  cbn [rstrip]. destruct (isspace_all (String c s)); [done|].
  by intros [= ->].
Qed.

Lemma rstrip_blank_line (s : string) :
  rstrip s = s → rstrip (s +:+ nl +:+ nl) = s.
Proof.
  change (nl +:+ nl) with (String (ascii_of_nat 10) nl).
  induction s as [|c s IH]; [done|]. intros Hs.
  apply rstrip_fixed in Hs as [Hvisible Hs].
  rewrite append_cons. cbn [rstrip].
  rewrite <- (append_cons c s).
  rewrite isspace_all_app, Hvisible by apply separates_newline.
  cbn [andb]. by rewrite IH.
Qed.

Lemma lstrip_star (z : string) : lstrip (String "*" z) = String "*" z.
Proof. by destruct z as [|b [|c z]]. Qed.

Lemma bullets_concat (items : list string) (last acc : string) :
  fold_left (λ result item, result +:+ "* " +:+ item +:+ nl +:+ nl) items acc
    +:+ bullet last
  = acc +:+ String.concat (nl +:+ nl) (bullet <$> items ++ [last]).
Proof.
  revert acc. induction items as [|item items IH]; intros acc; [done|].
  cbn [fold_left]. rewrite IH.
  change (bullet <$> (item :: items) ++ [last])
    with (bullet item :: (bullet <$> items ++ [last])).
  destruct (bullet <$> items ++ [last]) as [|b bs] eqn:Hbs.
  { by destruct items. }
  change (String.concat (nl +:+ nl) (bullet item :: b :: bs))
    with (bullet item +:+ (nl +:+ nl)
            +:+ String.concat (nl +:+ nl) (b :: bs)).
  unfold bullet. by rewrite !append_assoc.
Qed.

Lemma bullets_start (items : list string) (z : string) :
  ∃ z',
    fold_left (λ result item, result +:+ "* " +:+ item +:+ nl +:+ nl) items
      (String "*" z)
    = String "*" z'.
Proof.
  revert z. induction items as [|item items IH]; intros z; [by eexists|].
  cbn [fold_left]. rewrite append_cons. apply IH.
Qed.

(** X18.  The notes are the items as bullets, one blank line between two of
    them and none at the end, when the last item is not empty and does not
    end in white space. *)
Theorem render_items_bullets (items : list string) (last : string) :
  last ≠ "" → rstrip last = last →
  render_items (items ++ [last])
  = String.concat (nl +:+ nl) ((λ item, "* " +:+ item) <$> items ++ [last]).
Proof.
  intros Hlast Hrstrip. unfold render_items. rewrite fold_left_app.
  cbn [fold_left].
  set (before := fold_left _ items "").
  assert (∃ z, before +:+ "* " +:+ last +:+ nl +:+ nl = String "*" z)
    as [z Hz].
  { subst before. destruct items as [|item items]; [by eexists|].
    cbn [fold_left].
    destruct (bullets_start items (" " +:+ item +:+ nl +:+ nl)) as [z' Hz'].
    change ("" +:+ "* " +:+ item +:+ nl +:+ nl)
      with (String "*" (" " +:+ item +:+ nl +:+ nl)).
    rewrite Hz', append_cons. by eexists. }
  unfold strip. rewrite Hz, lstrip_star, <- Hz.
  rewrite rstrip_app_visible by (intros u; apply isspace_all_star).
  change ("* " +:+ last +:+ nl +:+ nl)
    with (String "*" (String " " (last +:+ nl +:+ nl))).
  assert (isspace_all last = false) as Hvisible.
  { destruct last as [|c last]; [done|].
    by apply rstrip_fixed in Hrstrip as [? _]. }
  assert (isspace_all (last +:+ nl +:+ nl) = false) as Hvisible'.
  { change (nl +:+ nl) with (String (ascii_of_nat 10) nl).
    rewrite isspace_all_app by apply separates_newline.
    by rewrite Hvisible. }
  cbn [rstrip].
  pose proof (isspace_all_star "" (String " " (last +:+ nl +:+ nl)))
    as Hstar.
  change (isspace_all (String "*" (String " " (last +:+ nl +:+ nl))) = false)
    in Hstar.
  rewrite Hstar.
  change (isspace_all (String " " (last +:+ nl +:+ nl)))
    with (isspace_all (last +:+ nl +:+ nl)).
  rewrite Hvisible', rstrip_blank_line by done.
  apply (bullets_concat items last "").
Qed.

Lemma render_items_bullets_witness :
  render_items (["Fix the wait command"] ++ ["Add a doctor check"])
  = "* Fix the wait command" +:+ nl +:+ nl +:+ "* Add a doctor check".
Proof.
  refine (eq_trans (render_items_bullets ["Fix the wait command"]
                      "Add a doctor check" _ _) _).
  - discriminate.
  - vm_compute. reflexivity.
  - vm_compute. reflexivity.
Defined.

Lemma no_requirement_iff (lines : list string) :
  List.filter (λ line, negb (PyStr.startswith line "#")) lines = []
  ↔ Forall (λ line, PyStr.startswith line "#" = true) lines.
Proof.
  induction lines as [|line lines IH]; [by split; [constructor|]|].
  cbn [List.filter].
  destruct (PyStr.startswith line "#") eqn:Hline; cbn [negb].
  - rewrite IH. split; [by constructor|]. by intros [_ ?]%Forall_cons.
  - split; [done|]. intros [Hcomment _]%Forall_cons. congruence.
Qed.

(** X19.  The arguments for [poet]: a first line that is not a comment is
    needed, so a requirements file of comments only raises [IndexError],
    while an empty one asks for the empty requirement.  The arguments
    start with [poet], hold two entries for every line that is not a
    comment, and never a comment. *)
Theorem poet_args_skip_comments (text : string) :
  let lines := split (strip text) (ascii_of_nat 10) in
  (poet_args text = Raises IndexError
   ↔ Forall (λ line, PyStr.startswith line "#" = true) lines)
  ∧ (strip text = "" → poet_args text = Returns ["poet"; ""])
  ∧ ∀ args, poet_args text = Returns args →
      head args = Some "poet"
      ∧ Forall (λ arg, PyStr.startswith arg "#" = false) args
      ∧ length args
        = (2 * length (List.filter
                         (λ line, negb (PyStr.startswith line "#")) lines))%nat.
Proof.
  intros lines. unfold poet_args. fold lines.
  assert (∀ requirements : list string,
            length (flat_map (λ requirement, ["--also"; requirement])
                      requirements)
            = (2 * length requirements)%nat) as Hlen.
  { induction requirements as [|r rs IH]; simpl in *; lia. }
  split; [|split].
  - clearbody lines. rewrite <- no_requirement_iff.
    by destruct (List.filter _ lines).
  - intros Hempty. subst lines. by rewrite Hempty.
  - clearbody lines. intros args.
    assert (Forall (λ line, PyStr.startswith line "#" = false)
              (List.filter (λ line, negb (PyStr.startswith line "#")) lines))
      as Hfiltered.
    { apply List.Forall_forall. intros line [_ Hline]%List.filter_In.
      by apply negb_true_iff. }
    destruct (List.filter _ lines) as [|first rest]; [done|].
    intros [= <-]. split; [done|]. split.
    + apply Forall_cons in Hfiltered as [Hfirst Hrest].
      constructor; [done|]. constructor; [done|].
      induction Hrest as [|r rs Hr _ IH]; [constructor|].
      simpl. by repeat constructor.
    + simpl. rewrite Hlen. simpl. lia.
Qed.
End stripping.


(** ** More on creating a cluster (create.py) *)

Section docker_create_more.
Import DockerCreate.
Context `{Common}.

Implicit Types t : list (Event Cmd Reply Exn).

#[local] Abbreviation perform := (@perform Cmd Reply Exn).
#[local] Abbreviation for_each := (@for_each Cmd Reply Exn).

(** A loop that runs to its end has left the trace of its body, in one
    piece, for every element. *)
Lemma emits_for_each_piece {X} (xs : list X) (body : X → M unit) t u :
  emits (for_each xs body) t (Returns u) →
  ∀ x, x ∈ xs →
    ∃ tx t1 t2 u', emits (body x) tx (Returns u') ∧ t = t1 ++ tx ++ t2.
Proof.
  revert t. induction xs as [|x' xs IH]; intros t Ht x Hx.
  { by apply elem_of_nil in Hx. }
  simpl in Ht.
  apply emits_bind in Ht
    as [(e & _ & [=]) | (u' & t1 & t2 & Hbody & Hrest & ->)].
  apply elem_of_cons in Hx as [-> | Hx].
  - exists t1, [], t2, u'. by split.
  - destruct (IH _ Hrest x Hx) as (tx & t3 & t4 & u'' & Hx' & ->).
    exists tx, (t1 ++ t3), t4, u''. split; [done|]. by rewrite <- !app_assoc.
Qed.

(** X20.  [_add_authorized_key] does nothing but append to the authorized keys
    of nodes, through a shell, and read the public key file.  When it
    returns, every node of the cluster has received an empty line and then
    the key, which was read from the file anew for that node. *)
Theorem add_authorized_key_every_node {W} (h : Handler Cmd Reply Exn W)
    (w : W) (cluster : Cluster.t) (path : Path) :
  let res := (execute h (_add_authorized_key cluster path) w).1.1 in
  let t := (execute h (_add_authorized_key cluster path) w).2 in
  Forall (λ ev, appends_key path (event_cmd ev)) t
  ∧ (res = Returns tt →
     ∀ node,
       node ∈ Cluster.masters cluster ++ Cluster.agents cluster
                ++ Cluster.public_agents cluster →
       ∃ key t1 t2, t = t1 ++ authorised node path key ++ t2).
Proof.
  intros res t. subst res t.
  destruct (execute h (_add_authorized_key cluster path) w)
    as [[res w'] t] eqn:Hrun.
  apply execute_emits in Hrun as Ht. cbn [fst snd]. split.
  - refine (emits_calls_only _ _ _ _ _ Ht).
    unfold _add_authorized_key. apply calls_only_for_each.
    intros node. simpl. repeat split; eauto.
  - intros -> node Hnode. unfold _add_authorized_key in Ht.
    destruct (emits_for_each_piece _ _ _ _ Ht node Hnode)
      as (tx & t1 & t2 & u' & Hbody & ->).
    simpl in Hbody.
    destruct Hbody as [(e & _ & [=]) | ([] & t3 & -> & Hbody)].
    destruct Hbody as [(e & _ & [=]) | (key & t4 & -> & Hbody)].
    destruct Hbody as [(e & _ & [=]) | ([] & t5 & -> & -> & _)].
    by exists key, t1, t2.
Qed.

Ltac other_kind :=
  let c := fresh "c" in intros c; destruct c; simpl; tauto.

Ltac none_of_kind :=
  repeat match goal with
    | |- Forall _ (_ ++ _) => apply Forall_app; split
    | |- Forall _ (_ :: _) => constructor
    | |- Forall _ [] => constructor
    | |- ¬ on _ _ => by intros []
    | _ => assumption
    end.

(** The first event of a kind in a trace is where it is. *)
Lemma first_of_kind (Q : Event Cmd Reply Exn → Prop) l1 x1 r1 l2 x2 r2 :
  Forall (λ ev, ¬ Q ev) l1 → Forall (λ ev, ¬ Q ev) l2 → Q x1 → Q x2 →
  l1 ++ x1 :: r1 = l2 ++ x2 :: r2 → l1 = l2 ∧ x1 = x2 ∧ r1 = r2.
Proof.
  intros H1. revert l2. induction H1 as [|y l1 Hy _ IH]; intros l2 H2 Q1 Q2.
  - destruct H2 as [|z l2 Hz _]; simpl; [by intros [= -> ->]|].
    intros [= -> _]. done.
  - destruct H2 as [|z l2 Hz H2]; simpl.
    + intros [= -> _]. done.
    + intros [= -> Heq]. destruct (IH l2 H2 Q1 Q2 Heq) as (-> & -> & ->).
      done.
Qed.

Lemma create_emits_prelude (a : Args.t) t res :
  emits (create a) t res →
  Forall (λ e, ¬ on is_create_cluster e) t
  ∨ ∃ ids wait_name doctor_name msg variant ev rest,
      t = [ Answered existing_cluster_ids ids;
            Answered (command_path (Args.ctx a) "wait") wait_name;
            Answered (command_path (Args.ctx a) "doctor") doctor_name;
            Answered (get_doctor_message doctor_name) msg;
            Answered (mkdir (joinpath (Args.workspace_dir a) "ssh")) tt;
            Answered (write_key_pair
                        (joinpath (joinpath (Args.workspace_dir a) "ssh")
                           "id_rsa.pub")
                        (joinpath (joinpath (Args.workspace_dir a) "ssh")
                           "id_rsa")) tt;
            Answered (get_install_variant (Args.variant a) (Args.installer a)
                        (Args.workspace_dir a) msg) variant ]
          ++ ev :: rest
      ∧ event_cmd ev
        = create_cluster (cluster_backend_of a) (Args.masters a)
            (Args.agents a) (Args.public_agents a) msg.
Proof.
  unfold create. simpl. intros H0.
  destruct H0 as [(e & -> & ->) | (ids & t0 & -> & H0)];
    [left; none_of_kind|].
  unfold check_cluster_id_unique in H0.
  destruct (decide (Args.cluster_id a ∈ ids)) as [Hid|Hid];
    [rewrite (bool_decide_eq_true_2 _ Hid) in H0
    |rewrite (bool_decide_eq_false_2 _ Hid) in H0]; simpl in H0.
  { destruct H0 as [-> ->]. left. none_of_kind. }
  do 6 (let e := fresh "e" in
        destruct H0 as [(e & -> & ->) | (? & ? & -> & H0)];
        [left; none_of_kind|]).
  repeat match goal with u : () |- _ => destruct u end.
  right.
  destruct H0 as [(e & -> & ->) | (cluster & rest & -> & H0)];
    by repeat eexists.
Qed.

(** X21.  Provisioning is preceded by exactly seven answered calls: the ids are
    enumerated, the names of the sibling commands and the doctor message
    are looked up, the directory [ssh] is made in the workspace and the
    key pair written into it, and the installer's variant is found.  The
    cluster is then requested from the backend built from the arguments,
    with the sizes as given. *)
Theorem key_pair_before_provisioning {W} (h : Handler Cmd Reply Exn W) (w : W)
    (a : Args.t) t1 ev t2 :
  (execute h (create a) w).2 = t1 ++ ev :: t2 →
  on is_create_cluster ev →
  ∃ ids wait_name doctor_name msg variant,
    t1 = [ Answered existing_cluster_ids ids;
           Answered (command_path (Args.ctx a) "wait") wait_name;
           Answered (command_path (Args.ctx a) "doctor") doctor_name;
           Answered (get_doctor_message doctor_name) msg;
           Answered (mkdir (joinpath (Args.workspace_dir a) "ssh")) tt;
           Answered (write_key_pair
                       (joinpath (joinpath (Args.workspace_dir a) "ssh")
                          "id_rsa.pub")
                       (joinpath (joinpath (Args.workspace_dir a) "ssh")
                          "id_rsa")) tt;
           Answered (get_install_variant (Args.variant a) (Args.installer a)
                       (Args.workspace_dir a) msg) variant ]
    ∧ event_cmd ev
      = create_cluster (cluster_backend_of a) (Args.masters a)
          (Args.agents a) (Args.public_agents a) msg.
Proof.
  destruct (execute h (create a) w) as [[res w'] t] eqn:Hrun.
  apply execute_emits in Hrun. cbn [snd]. intros -> Hev.
  destruct (check_before_provisioning a _ _ Hrun t1 ev t2 eq_refl Hev)
    as (ids0 & t1' & -> & _ & Hbefore & _).
  destruct (create_emits_prelude a _ _ Hrun)
    as [Hnone | (ids & wait_name & doctor_name & msg & variant & ev' & rest
                 & Heq & Hev')].
  { apply Forall_app in Hnone as [_ Hnone].
    apply Forall_cons in Hnone as [Hnone _]. done. }
  apply first_of_kind with (Q := on is_create_cluster) in Heq
    as (Heq & -> & _); [| |none_of_kind|done|].
  - rewrite Heq. by exists ids, wait_name, doctor_name, msg, variant.
  - constructor; [by intros []|done].
  - unfold on. by rewrite Hev'.
Qed.

Lemma create_emits_finish (a : Args.t) t res :
  emits (create a) t res →
  (Forall (λ e, ¬ on is_post_install e) t ∧ failed res)
  ∨ ∃ ids wait_name doctor_name msg variant cluster mid cfg last,
      Forall (λ e, ¬ on is_post_install e) mid
      ∧ t = [ Answered existing_cluster_ids ids;
              Answered (command_path (Args.ctx a) "wait") wait_name;
              Answered (command_path (Args.ctx a) "doctor") doctor_name;
              Answered (get_doctor_message doctor_name) msg;
              Answered (mkdir (joinpath (Args.workspace_dir a) "ssh")) tt;
              Answered (write_key_pair
                          (joinpath (joinpath (Args.workspace_dir a) "ssh")
                             "id_rsa.pub")
                          (joinpath (joinpath (Args.workspace_dir a) "ssh")
                             "id_rsa")) tt;
              Answered (get_install_variant (Args.variant a)
                          (Args.installer a) (Args.workspace_dir a) msg)
                       variant;
              Answered (create_cluster (cluster_backend_of a) (Args.masters a)
                          (Args.agents a) (Args.public_agents a) msg)
                       cluster ]
            ++ mid
            ++ [ Answered (get_config
                             {| ClusterContainers.cluster_id :=
                                  Args.cluster_id a;
                                ClusterContainers.transport :=
                                  Args.transport a |}
                             (Args.extra_config a) variant
                             (Args.security_mode a) (Args.license_key a)) cfg;
                 Answered (install_dcos_from_path
                             {| ClusterContainers.cluster_id :=
                                  Args.cluster_id a;
                                ClusterContainers.transport :=
                                  Args.transport a |}
                             cfg
                             (joinpath (Args.workspace_dir a) "ip-detect")
                             msg (Args.installer a) (Args.genconf_dir a)) tt;
                 last ]
      ∧ event_cmd last
        = run_post_install_steps cluster (Args.cluster_id a) cfg
            doctor_name (bool_decide (Args.transport a = SSH)) wait_name
            (Args.wait_for_dcos a)
      ∧ (res = Returns tt ↔ answered last).
Proof.
  unfold create. simpl. intros H0.
  destruct H0 as [(e & -> & ->) | (ids & t0 & -> & H0)];
    [left; split; [none_of_kind | by eexists]|].
  unfold check_cluster_id_unique in H0.
  destruct (decide (Args.cluster_id a ∈ ids)) as [Hid|Hid];
    [rewrite (bool_decide_eq_true_2 _ Hid) in H0
    |rewrite (bool_decide_eq_false_2 _ Hid) in H0]; simpl in H0.
  { destruct H0 as [-> ->]. left. split; [none_of_kind | by eexists]. }
  do 7 (let e := fresh "e" in
        destruct H0 as [(e & -> & ->) | (? & ? & -> & H0)];
        [left; split; [none_of_kind | by eexists]|]).
  repeat match goal with u : () |- _ => destruct u end.
  unfold mbind, M_bind in H0.
  apply emits_bind in H0.
  destruct H0 as [(e & Hk & ->) | (u & keys & t2 & Hk & H0 & ->)].
  { pose proof (kinds_apart key_cmd is_post_install _ ltac:(other_kind)
                  (emits_calls_only _ _ _ _
                     (add_authorized_key_calls _ _) Hk)).
    left. split; [none_of_kind | by eexists]. }
  pose proof (kinds_apart key_cmd is_post_install _ ltac:(other_kind)
                (emits_calls_only _ _ _ _
                   (add_authorized_key_calls _ _) Hk)) as Hkeys.
  apply emits_bind in H0.
  destruct H0 as [(e & Hs & ->) | (u' & sends & tail & Hs & H0 & ->)].
  { pose proof (kinds_apart is_send_file is_post_install _ ltac:(other_kind)
                  (emits_calls_only _ _ _ _ (send_files_calls a _) Hs)).
    left. split; [none_of_kind | by eexists]. }
  pose proof (kinds_apart is_send_file is_post_install _ ltac:(other_kind)
                (emits_calls_only _ _ _ _ (send_files_calls a _) Hs))
    as Hsends.
  simpl in H0.
  do 2 (let e := fresh "e" in
        destruct H0 as [(e & -> & ->) | (? & ? & -> & H0)];
        [left; split; [none_of_kind | by eexists]|]).
  repeat match goal with u : () |- _ => destruct u end.
  right.
  destruct H0 as [(e & -> & ->) | ([] & ? & -> & -> & ->)].
  - do 6 eexists. exists (keys ++ sends). do 2 eexists.
    split; [none_of_kind|]. split; [by rewrite <- !app_assoc|].
    split; [reflexivity|]. split; [done|]. by intros [].
  - do 6 eexists. exists (keys ++ sends). do 2 eexists.
    split; [none_of_kind|]. split; [by rewrite <- !app_assoc|].
    split; [reflexivity|]. done.
Qed.

(** X22.  The post-install steps are the last call of [create] and are made only
    when the installer has returned: for the cluster that was
    provisioned, with the configuration that was installed, with HTTP
    checks exactly when the transport is SSH, and waiting as the
    [wait_for_dcos] flag says.  The command returns exactly when these
    steps return. *)
Theorem post_install_steps_come_last {W} (h : Handler Cmd Reply Exn W) (w : W)
    (a : Args.t) :
  let res := (execute h (create a) w).1.1 in
  let t := (execute h (create a) w).2 in
  (∀ t1 ev t2, t = t1 ++ ev :: t2 → on is_post_install ev →
     t2 = []
     ∧ ∃ (wait_name doctor_name msg : string) (cluster : Cluster.t)
         (cfg : Opaque) t0 x y z u v (ip i : Path) (g : option Path),
         Answered (command_path (Args.ctx a) "wait") wait_name ∈ t1
         ∧ Answered (command_path (Args.ctx a) "doctor") doctor_name ∈ t1
         ∧ Answered (create_cluster (cluster_backend_of a) (Args.masters a)
                       (Args.agents a) (Args.public_agents a) msg) cluster
           ∈ t1
         ∧ t1 = t0 ++ [ Answered (get_config x y z u v) cfg;
                        Answered (install_dcos_from_path x cfg ip msg i g)
                          tt ]
         ∧ event_cmd ev
           = run_post_install_steps cluster (Args.cluster_id a) cfg
               doctor_name (bool_decide (Args.transport a = SSH)) wait_name
               (Args.wait_for_dcos a))
  ∧ (res = Returns tt
     ↔ ∃ t1 ev, t = t1 ++ [ev] ∧ on is_post_install ev ∧ answered ev).
Proof.
  intros res t. subst res t.
  destruct (execute h (create a) w) as [[res w'] t] eqn:Hrun.
  apply execute_emits in Hrun. cbn [fst snd].
  destruct (create_emits_finish a _ _ Hrun)
    as [[Hnone [e ->]]
       | (ids & wait_name & doctor_name & msg & variant & cluster & mid
          & cfg & last & Hmid & -> & Hlast & Hres)].
  { split.
    - intros t1 ev t2 -> Hev. apply Forall_app in Hnone as [_ Hnone].
      by apply Forall_cons in Hnone as [Hnone _].
    - split; [done|]. intros (t1 & ev & -> & Hev & _).
      apply Forall_app in Hnone as [_ Hnone].
      by apply Forall_cons in Hnone as [Hnone _]. }
  assert (on is_post_install last) as Hpost.
  { unfold on. by rewrite Hlast. }
  match goal with
  | |- context [?pre ++ mid ++ [?cfg_ev; ?inst_ev; last]] =>
      assert (Forall (λ e, ¬ on is_post_install e)
                (pre ++ mid ++ [cfg_ev; inst_ev])) as Hbefore
        by none_of_kind;
      replace (pre ++ mid ++ [cfg_ev; inst_ev; last])
        with ((pre ++ mid ++ [cfg_ev; inst_ev]) ++ last :: [])
        by (by rewrite <- !app_assoc);
      set (before := pre ++ mid ++ [cfg_ev; inst_ev]) in *
  end.
  split.
  - intros t1 ev t2 Heq Hev.
    assert (Forall (λ e, ¬ on is_post_install e) t1) as Ht1.
    { clear -Heq Hbefore Hpost Hev. revert t1 Heq.
      induction Hbefore as [|x before' Hx _ IH]; intros t1 Heq.
      - destruct t1 as [|y t1]; [constructor|].
        injection Heq as _ Heq. by destruct t1.
      - destruct t1 as [|y t1]; [constructor|].
        injection Heq as <- Heq. constructor; [done|]. by apply IH. }
    apply first_of_kind with (Q := on is_post_install) in Heq
      as (<- & <- & <-); [|done..].
    split; [done|].
    exists wait_name, doctor_name, msg, cluster, cfg.
    subst before. do 9 eexists.
    split; [|split; [|split; [|split; [|done]]]].
    + apply elem_of_app. left.
      do 1 apply list_elem_of_further. apply list_elem_of_here.
    + apply elem_of_app. left.
      do 2 apply list_elem_of_further. apply list_elem_of_here.
    + apply elem_of_app. left.
      do 7 apply list_elem_of_further. apply list_elem_of_here.
    + apply app_assoc.
  - rewrite Hres. split.
    + intros Hanswered. by exists before, last.
    + intros (t1 & ev & Heq & Hev & Hanswered).
      apply app_inj_tail in Heq as [_ <-]. done.
Qed.
End docker_create_more.

Section docker_scenario_more.
Import DockerCreate.

Lemma key_pair_before_provisioning_witness :
  ∃ ids wait_name doctor_name msg variant,
    take 7 (execute (@handler sample_common)
              (@create sample_common sample_args) quiet_world).2
    = [ Answered existing_cluster_ids ids;
        Answered (command_path "minidcos docker" "wait") wait_name;
        Answered (command_path "minidcos docker" "doctor") doctor_name;
        Answered (get_doctor_message doctor_name) msg;
        Answered (mkdir (joinpath "/tmp/workspace" "ssh")) tt;
        Answered (write_key_pair
                    (joinpath (joinpath "/tmp/workspace" "ssh") "id_rsa.pub")
                    (joinpath (joinpath "/tmp/workspace" "ssh") "id_rsa")) tt;
        Answered (get_install_variant "auto" "/tmp/dcos_generate_config.sh"
                    "/tmp/workspace" msg) variant ]
    ∧ create_cluster (@cluster_backend_of sample_common sample_args) 1 1 0 ""
      = create_cluster (@cluster_backend_of sample_common sample_args) 1 1 0
          msg.
Proof.
  apply (@key_pair_before_provisioning sample_common World
           (@handler sample_common) quiet_world sample_args
           (take 7 (execute (@handler sample_common)
                      (@create sample_common sample_args) quiet_world).2)
           (Answered
              (create_cluster (@cluster_backend_of sample_common sample_args)
                 1 1 0 "")
              (cluster_of (provision quiet_world
                             (@cluster_backend_of sample_common sample_args)
                             1 1 0)))
           (drop 8 (execute (@handler sample_common)
                      (@create sample_common sample_args) quiet_world).2)).
  - vm_compute. reflexivity.
  - exact I.
Defined.
End docker_scenario_more.


(** ** The help texts of the command line interface (test_cli.py) *)

Section test_help.
Import TestHelp.

Lemma read_text_written (dir : HelpOutputs) (filename data : string) :
  read_text (write_text (touch (mkdir dir) filename) filename data) filename
  = Returns data.
Proof.
  unfold read_text, write_text, touch, mkdir. simpl.
  by rewrite lookup_insert_eq.
Qed.

(** X23.  With [FIX_CLI_TESTS] set to [1], a test whose command exits with
    code 0 passes whatever the expected file says, or whether it is
    there; the file then holds the help text shown, and the test passes
    on it under any environment and leaves the directory alone. *)
Theorem test_help_fix_round_trip (invoke : list string → PyResult Exn Result)
    (environ environ' : gmap string string) (command : list string)
    (dir : HelpOutputs) (result : Result) :
  invoke (command ++ ["--help"]) = Returns result →
  exit_code result = 0 →
  environ !! "FIX_CLI_TESTS" = Some "1" →
  let dir' := (test_help invoke environ command dir).2 in
  (test_help invoke environ command dir).1 = Returns tt
  ∧ read_text dir' (help_output_filename command) = Returns (output result)
  ∧ test_help invoke environ' command dir' = (Returns tt, dir').
Proof.
  intros Hinvoke Hexit Hfix dir'.
  assert (read_text dir' (help_output_filename command)
          = Returns (output result)
          ∧ (test_help invoke environ command dir).1 = Returns tt)
    as [Hread Hpass].
  { subst dir'. unfold test_help. rewrite Hinvoke, Hexit. cbn [Z.eqb negb].
    destruct (read_text dir (help_output_filename command))
      as [expected|e] eqn:Hread.
    - destruct (decide (output result = expected)) as [<-|Hne].
      + by rewrite bool_decide_eq_true_2.
      + rewrite (bool_decide_eq_false_2 _ Hne).
        rewrite (bool_decide_eq_true_2 _ Hfix). cbn [fst snd].
        by rewrite read_text_written.
    - rewrite (bool_decide_eq_true_2 _ Hfix). cbn [fst snd].
      by rewrite read_text_written. }
  split; [done|]. split; [done|].
  unfold test_help at 1. rewrite Hinvoke, Hexit. cbn [Z.eqb negb].
  rewrite Hread. by rewrite bool_decide_eq_true_2.
Qed.

Lemma test_help_fix_round_trip_witness :
  let invoke := λ _ : list string,
    Returns {| exit_code := 0; output := "Usage: dcos-aws doctor" |} in
  let dir' := (test_help invoke {["FIX_CLI_TESTS" := "1"]} ["doctor"] None).2 in
  (test_help invoke {["FIX_CLI_TESTS" := "1"]} ["doctor"] None).1 = Returns tt
  ∧ read_text dir' (help_output_filename ["doctor"])
    = Returns "Usage: dcos-aws doctor"
  ∧ test_help invoke ∅ ["doctor"] dir' = (Returns tt, dir').
Proof.
  apply (test_help_fix_round_trip
           (λ _, Returns {| exit_code := 0;
                            output := "Usage: dcos-aws doctor" |})
           {["FIX_CLI_TESTS" := "1"]} ∅ ["doctor"] None
           {| exit_code := 0; output := "Usage: dcos-aws doctor" |});
    reflexivity.
Defined.

(** X24.  Unless [FIX_CLI_TESTS] is exactly [1], the test writes nothing, and it
    passes exactly when the command exits with code 0 and the expected
    file is there and holds the help text shown. *)
Theorem test_help_only_compares (invoke : list string → PyResult Exn Result)
    (environ : gmap string string) (command : list string)
    (dir : HelpOutputs) :
  environ !! "FIX_CLI_TESTS" ≠ Some "1" →
  (test_help invoke environ command dir).2 = dir
  ∧ ((test_help invoke environ command dir).1 = Returns tt
     ↔ ∃ result,
         invoke (command ++ ["--help"]) = Returns result
         ∧ exit_code result = 0
         ∧ read_text dir (help_output_filename command)
           = Returns (output result)).
Proof.
  intros Hfix. unfold test_help.
  rewrite (bool_decide_eq_false_2 _ Hfix).
  destruct (invoke (command ++ ["--help"])) as [result|e].
  2: { split; [done|]. split; [done|]. by intros (? & [=] & _). }
  destruct (Z.eqb_spec (exit_code result) 0) as [Hexit|Hexit]; cbn [negb].
  2: { split; [done|]. split; [done|]. by intros (? & [= <-] & ? & _). }
  destruct (read_text dir (help_output_filename command)) as [expected|e].
  2: { split; [done|]. split; [done|]. by intros (? & _ & _ & [=]). }
  destruct (decide (output result = expected)) as [<-|Hne].
  - rewrite bool_decide_eq_true_2 by done.
    split; [done|]. split; [|done]. intros _. by exists result.
  - rewrite (bool_decide_eq_false_2 _ Hne).
    split; [done|]. split; [done|]. intros (? & [= <-] & _ & [= ?]).
    congruence.
Qed.

Lemma test_help_only_compares_witness :
  let invoke := λ _ : list string,
    Returns {| exit_code := 0; output := "Usage: dcos-aws doctor" |} in
  (test_help invoke {["FIX_CLI_TESTS" := "true"]} ["doctor"] None).2 = None
  ∧ ((test_help invoke {["FIX_CLI_TESTS" := "true"]} ["doctor"] None).1
     = Returns tt
     ↔ ∃ result,
         invoke (["doctor"] ++ ["--help"]) = Returns result
         ∧ exit_code result = 0
         ∧ read_text None (help_output_filename ["doctor"])
           = Returns (output result)).
Proof.
  apply (test_help_only_compares
           (λ _, Returns {| exit_code := 0;
                            output := "Usage: dcos-aws doctor" |})
           {["FIX_CLI_TESTS" := "true"]} ["doctor"] None).
  by rewrite lookup_singleton_eq.
Defined.

(** X25.  The commands under test have files of their own: two commands of
    [_COMMANDS] with the same file name are the same command, so that
    fixing the help text of one command leaves the expected texts of the
    others as they were. *)
Theorem help_output_files_apart (commands : list string)
    (command command' : list string) :
  command ∈ _COMMANDS commands → command' ∈ _COMMANDS commands →
  (help_output_filename command = help_output_filename command' →
   command = command')
  ∧ (command ≠ command' →
     ∀ invoke environ dir,
       read_text (test_help invoke environ command dir).2
         (help_output_filename command')
       = read_text dir (help_output_filename command')).
Proof.
  intros Hc Hc'.
  assert (help_output_filename command = help_output_filename command' →
          command = command') as Hinj.
  { unfold _COMMANDS, _BASE_COMMAND, _SUBCOMMANDS in Hc, Hc'.
    apply elem_of_cons in Hc as [-> | Hc];
      apply elem_of_cons in Hc' as [-> | Hc']; [done|..].
    - apply list_elem_of_fmap in Hc' as (item' & -> & _).
      intros Heq. exfalso.
      change (help_output_filename [])
        with ("dcos-aws" +:+ ".txt") in Heq.
      change (help_output_filename [item'])
        with (("dcos-aws" +:+ "-" +:+ item') +:+ ".txt") in Heq.
      rewrite append_assoc in Heq. apply append_cancel_l in Heq.
      rewrite append_assoc in Heq. discriminate Heq.
    - apply list_elem_of_fmap in Hc as (item & -> & _).
      intros Heq. exfalso.
      change (help_output_filename [])
        with ("dcos-aws" +:+ ".txt") in Heq.
      change (help_output_filename [item])
        with (("dcos-aws" +:+ "-" +:+ item) +:+ ".txt") in Heq.
      rewrite append_assoc in Heq. apply append_cancel_l in Heq.
      rewrite append_assoc in Heq. discriminate Heq.
    - apply list_elem_of_fmap in Hc as (item & -> & _).
      apply list_elem_of_fmap in Hc' as (item' & -> & _).
      intros Heq.
      change (help_output_filename [item])
        with (("dcos-aws" +:+ "-" +:+ item) +:+ ".txt") in Heq.
      change (help_output_filename [item'])
        with (("dcos-aws" +:+ "-" +:+ item') +:+ ".txt") in Heq.
      apply append_cancel_r in Heq. apply append_cancel_l in Heq.
      apply append_cancel_l in Heq. by rewrite Heq. }
  split; [done|]. intros Hne invoke environ dir.
  assert (help_output_filename command ≠ help_output_filename command')
    as Hfiles by auto.
  unfold test_help.
  destruct (invoke (command ++ ["--help"])) as [result|e]; [|done].
  destruct (negb (exit_code result =? 0)); [done|].
  assert (read_text
            (write_text (touch (mkdir dir) (help_output_filename command))
               (help_output_filename command) (output result))
            (help_output_filename command')
          = read_text dir (help_output_filename command')) as Hfixed.
  { unfold read_text, write_text, touch, mkdir.
    destruct dir as [files|]; simpl.
    - destruct (files !! help_output_filename command).
      + rewrite lookup_insert_ne by exact Hfiles. done.
      + rewrite !lookup_insert_ne by exact Hfiles. done.
    - rewrite lookup_empty.
      rewrite !lookup_insert_ne by exact Hfiles. by rewrite lookup_empty. }
  destruct (read_text dir (help_output_filename command)) as [expected|e].
  - destruct (bool_decide (output result = expected)); [done|].
    by destruct (bool_decide (environ !! "FIX_CLI_TESTS" = Some "1")).
  - by destruct (bool_decide (environ !! "FIX_CLI_TESTS" = Some "1")).
Qed.

Lemma help_output_files_apart_witness :
  (help_output_filename [] = help_output_filename ["doctor"] →
   [] = ["doctor"])
  ∧ ([] ≠ ["doctor"] →
     ∀ invoke environ dir,
       read_text (test_help invoke environ [] dir).2
         (help_output_filename ["doctor"])
       = read_text dir (help_output_filename ["doctor"])).
Proof.
  apply (help_output_files_apart ["doctor"; "create"] [] ["doctor"]).
  - apply list_elem_of_here.
  - apply list_elem_of_further, list_elem_of_here.
Defined.
End test_help.


(** ** The Homebrew formula (prepare_release.py) *)

Section homebrew.
Import Release.

#[local] Abbreviation perform := (@perform Cmd Reply Exn).
Implicit Types t : list (Event Cmd Reply Exn).

Lemma update_homebrew_emits (version : string) t res :
  emits (update_homebrew version) t res →
  ∀ ev, ev ∈ t → is_write (event_cmd ev) →
    ∃ text args stdout resource_stanzas,
      poet_args text = Returns args
      ∧ PrepareRelease.decode stdout = Returns resource_stanzas
      ∧ t = [ Answered (read_text requirements_file) text;
              Answered (subprocess_run args) stdout;
              ev ]
      ∧ event_cmd ev
        = write_text "dcosdocker.rb" (formula version resource_stanzas).
Proof.
  unfold update_homebrew, get_homebrew_formula.
  cbn -[formula poet_args]. intros Ht ev Hev Hwrite.
  destruct Ht as [(e & -> & ->) | (text & t1 & -> & Ht)].
  { apply elem_of_cons in Hev as [-> | Hev]; [done|].
    by apply elem_of_nil in Hev. }
  destruct (poet_args text) as [args|e] eqn:Hargs;
    cbn -[formula poet_args] in Ht.
  2: { destruct Ht as [-> ->].
       apply elem_of_cons in Hev as [-> | Hev]; [done|].
       by apply elem_of_nil in Hev. }
  destruct Ht as [(e & -> & ->) | (stdout & t2 & -> & Ht)].
  { repeat (apply elem_of_cons in Hev as [-> | Hev]; [done|]).
    by apply elem_of_nil in Hev. }
  unfold decode in Ht.
  destruct (PrepareRelease.decode stdout) as [resource_stanzas|[item]]
    eqn:Hdecode; cbn -[formula poet_args] in Ht.
  2: { destruct Ht as [-> ->].
       repeat (apply elem_of_cons in Hev as [-> | Hev]; [done|]).
       by apply elem_of_nil in Hev. }
  exists text, args, stdout, resource_stanzas.
  destruct Ht as [(e & -> & ->) | ([] & t3 & -> & -> & ->)].
  all: repeat (apply elem_of_cons in Hev as [-> | Hev]; [done|]).
  all: by apply elem_of_nil in Hev.
Qed.

(** X26.  [update_homebrew] writes one file, [dcosdocker.rb], as its last call.
    When the requirements can be read and name a package, [poet] runs on
    the arguments made from them, and its output decodes, the formula is
    written and [update_homebrew] returns once the write has.  In every
    run, a write is the last of three calls, after the requirements were
    read and [poet] was run.  What is written is the formula with the
    version behind the repository's address and [poet]'s output on lines
    of its own, both as they are. *)
Theorem update_homebrew_writes_formula {W} (h : Handler Cmd Reply Exn W)
    (w w1 w2 w3 : W) (version text resource_stanzas : string)
    (args : list string) (stdout : list byte) :
  h w (read_text requirements_file) = (Returns text, w1) →
  poet_args text = Returns args →
  h w1 (subprocess_run args) = (Returns stdout, w2) →
  PrepareRelease.decode stdout = Returns resource_stanzas →
  h w2 (write_text "dcosdocker.rb" (formula version resource_stanzas))
  = (Returns tt, w3) →
  execute h (update_homebrew version) w
  = (Returns tt, w3,
     [ Answered (read_text requirements_file) text;
       Answered (subprocess_run args) stdout;
       Answered (write_text "dcosdocker.rb"
                   (formula version resource_stanzas)) tt ])
  ∧ (∀ {W'} (h' : Handler Cmd Reply Exn W') (w' : W') version',
       let t := (execute h' (update_homebrew version') w').2 in
       ∀ ev, ev ∈ t → is_write (event_cmd ev) →
         ∃ text' args' stdout' resource_stanzas',
           poet_args text' = Returns args'
           ∧ PrepareRelease.decode stdout' = Returns resource_stanzas'
           ∧ t = [ Answered (read_text requirements_file) text';
                   Answered (subprocess_run args') stdout';
                   ev ]
           ∧ event_cmd ev
             = write_text "dcosdocker.rb"
                 (formula version' resource_stanzas'))
  ∧ ∃ before between after,
      ∀ version' resource_stanzas',
        formula version' resource_stanzas'
        = before +:+ "https://github.com/mesosphere/dcos-e2e.git#"
            +:+ version' +:+ dq +:+ nl +:+ between +:+ nl +:+ nl
            +:+ resource_stanzas' +:+ nl +:+ nl +:+ after.
Proof.
  intros Hread Hargs Hpoet Hdecode Hwrite. split; [|split].
  { unfold update_homebrew, get_homebrew_formula.
    cbn -[formula poet_args]. rewrite Hread, Hargs.
    cbn -[formula poet_args]. rewrite Hpoet. unfold decode.
    rewrite Hdecode. cbn -[formula poet_args]. by rewrite Hwrite. }
  { intros W' h' w' version' t. subst t.
    destruct (execute h' (update_homebrew version') w') as [[res w''] t]
      eqn:Hrun.
    apply execute_emits in Hrun. cbn [snd].
    by eapply update_homebrew_emits. }
  exists
    (String.concat nl
       [ "class Dcosdocker < Formula";
         "  include Language::Python::Virtualenv";
         "";
         "  url " +:+ dq ]),
    (String.concat nl
       [ "  head " +:+ dq +:+ "https://github.com/mesosphere/dcos-e2e.git"
           +:+ dq;
         "  homepage " +:+ dq
           +:+ "http://dcos-e2e.readthedocs.io/en/latest/cli.html" +:+ dq;
         "  depends_on " +:+ dq +:+ "python3" +:+ dq ]),
    (String.concat nl
       [ "  def install";
         "    virtualenv_install_with_resources";
         "  end";
         "";
         "  test do";
         "      ENV[" +:+ dq +:+ "LC_ALL" +:+ dq +:+ "] = " +:+ dq
           +:+ "en_US.utf-8" +:+ dq;
         "      ENV[" +:+ dq +:+ "LANG" +:+ dq +:+ "] = " +:+ dq
           +:+ "en_US.utf-8" +:+ dq;
         "      system " +:+ dq +:+ "#{bin}/dcos_docker" +:+ dq +:+ ", "
           +:+ dq +:+ "--help" +:+ dq;
         "  end";
         "end";
         "" ]).
  intros version' resource_stanzas'. unfold formula.
  cbn [String.concat]. rewrite !append_assoc. reflexivity.
Qed.

Lemma update_homebrew_writes_formula_witness :
  let w := Checkout.on_release_day "Changelog" in
  let args := ["poet"; "click==6.7"; "--also"; "urllib3==1.22"] in
  let text :=
    "# tools" +:+ nl +:+ "click==6.7" +:+ nl +:+ "urllib3==1.22" +:+ nl in
  let stanzas := "poet+click==6.7+--also+urllib3==1.22" in
  execute Checkout.run (update_homebrew "2018.03.07.2") w
  = (Returns tt,
     Checkout.write w "dcosdocker.rb" (formula "2018.03.07.2" stanzas),
     [ Answered (read_text requirements_file) text;
       Answered (subprocess_run args) (list_byte_of_string stanzas);
       Answered (write_text "dcosdocker.rb"
                   (formula "2018.03.07.2" stanzas)) tt ]).
Proof.
  intros w args text stanzas.
  apply (proj1 (update_homebrew_writes_formula Checkout.run w w w
                  (Checkout.write w "dcosdocker.rb"
                     (formula "2018.03.07.2" stanzas))
                  "2018.03.07.2" text stanzas args
                  (list_byte_of_string stanzas)
                  eq_refl eq_refl eq_refl eq_refl eq_refl)).
Defined.
End homebrew.


(** ** What a version says (prepare_release.py) *)

Section version_reading.
Import PrepareRelease.

Lemma append_split (a a' b b' : string) :
  String.length a = String.length a' →
  a +:+ b = a' +:+ b' → a = a' ∧ b = b'.
Proof.
  revert a'. induction a as [|c a IH]; intros [|c' a'] Hlen Heq;
    try discriminate Hlen.
  - done.
  - rewrite !append_cons in Heq. injection Heq as -> Heq.
    injection Hlen as Hlen. by destruct (IH a' Hlen Heq) as [-> ->].
Qed.

(** Two digits, with a zero in front of a single one, tell the numbers up
    to 31 apart. *)
Lemma two_digits_inj (m m' : nat) :
  (m ≤ 31)%nat → (m' ≤ 31)%nat →
  zfill 2 (pretty m) = zfill 2 (pretty m') → m = m'.
Proof.
  intros Hm Hm' Heq.
  assert (NoDup ((λ n : nat, zfill 2 (pretty n)) <$> seq 0 32)) as Hnodup.
  { apply (bool_decide_unpack _). vm_compute. exact I. }
  apply (NoDup_lookup _ m m' (zfill 2 (pretty m))) in Hnodup; [done|..].
  - rewrite list_lookup_fmap, lookup_seq_lt by lia. done.
  - rewrite list_lookup_fmap, lookup_seq_lt by lia. simpl. by rewrite Heq.
Qed.

Lemma ymd_inj (d d' : datetime) :
  four_digit_year d → four_digit_year d' → ymd d = ymd d' → d = d'.
Proof.
  intros (Hy & Hm & Hd) (Hy' & Hm' & Hd') Heq. unfold ymd in Heq.
  assert (∀ y : nat, (1000 ≤ N.of_nat y ≤ 9999)%N →
            zfill 4 (pretty y) = pretty y) as Hfour.
  { intros y Hrange. unfold zfill.
    change (pretty y) with (pretty (N.of_nat y)).
    by rewrite (pretty_N_length 3 (N.of_nat y)) by (simpl; lia). }
  assert (∀ n : nat, (1 ≤ n ≤ 31)%nat →
            String.length (zfill 2 (pretty n)) = 2%nat) as Htwo.
  { intros n Hn. rewrite length_zfill.
    change (pretty n) with (pretty (N.of_nat n)).
    destruct (decide (n < 10)%nat).
    - rewrite (proj2 (pretty_N_length_1 (N.of_nat n))); lia.
    - rewrite (pretty_N_length 1 (N.of_nat n)); simpl; lia. }
  rewrite !Hfour in Heq by done.
  apply append_split in Heq as [Hyear Heq].
  2: { change (pretty (year d)) with (pretty (N.of_nat (year d))).
       change (pretty (year d')) with (pretty (N.of_nat (year d'))).
       by rewrite !(pretty_N_length 3) by (simpl; lia). }
  apply (inj pretty) in Hyear.
  apply append_cancel_l in Heq.
  apply append_split in Heq as [Hmonth Heq]; [|rewrite !Htwo; lia].
  apply two_digits_inj in Hmonth; [|lia..].
  apply append_cancel_l in Heq.
  apply two_digits_inj in Heq; [|lia..].
  destruct d, d'. simpl in *. by subst.
Qed.

(** X27.  A version says when it was made and which release of the day it is:
    two runs of [get_version] that return the same version ran on the same
    date and counted the same number of tags of that day. *)
Theorem version_determines_date_and_number (utc_now utc_now' : datetime)
    (tag_list tag_list' : list (list byte)) (version : string) :
  four_digit_year utc_now → four_digit_year utc_now' →
  get_version utc_now tag_list = Returns version →
  get_version utc_now' tag_list' = Returns version →
  utc_now = utc_now'
  ∧ length (labels_of_day utc_now tag_list)
    = length (labels_of_day utc_now' tag_list').
Proof.
  intros Hdate Hdate' Hv Hv'.
  apply get_version_returns in Hv as [_ ->].
  apply get_version_returns in Hv' as [_ Heq].
  apply append_split in Heq as [Hymd Heq];
    [|by rewrite !length_ymd by done].
  apply append_cancel_l, (inj pretty) in Heq.
  split; [by apply ymd_inj | done].
Qed.

Lemma version_determines_date_and_number_witness :
  release_day = release_day
  ∧ length (labels_of_day release_day release_day_tags)
    = length (labels_of_day release_day (reverse release_day_tags)).
Proof.
  apply (version_determines_date_and_number release_day release_day
           release_day_tags (reverse release_day_tags) "2018.03.07.2").
  - unfold four_digit_year. simpl. lia.
  - unfold four_digit_year. simpl. lia.
  - vm_compute. reflexivity.
  - vm_compute. reflexivity.
Defined.
End version_reading.
